(** * News bot pipeline: fetch, rewrite, persist, report

    A shallow embedding of the Python scripts of the repository

      - [examples/news_bot_clean.py]      (module [Clean])
      - [examples/news_bot_action.py]     (module [Action])
      - [src/news_bot.py]                 (module [NewsBot])
      - [src/clean_functional_news_bot_with_issues_backup.py]
                                          (modules [WithIssues], [WithIssuesMain])
      - [src/clean_functional_news_bot_backup.py]
                                          (module [Backup])

    together with the statements of the specification that are checked
    against them.

    Conventions of the embedding.
      - A Python [str] is a list of characters ([str := list ascii]); a
        character is a code point below 256, classified as Python classifies
        the Latin-1 range.  String literals are written as Rocq strings and
        coerced.
      - Integers are [Z]; [str.find] returns [-1] when nothing is found and
        slices follow Python's treatment of negative and out-of-range bounds.
      - Python values that travel through dictionaries are [pyval]; a [dict]
        is an insertion-ordered association list with unique keys.
      - Effects (file system, clock, remote services, process exit) are
        threaded through a state-and-exception monad over [World].  Console
        output is not recorded. *)

From Stdlib Require Import ZArith Ascii String List Lia Bool.
From Stdlib Require Import DecimalString.
From stdpp Require Import base decidable option list gmap strings.

Open Scope Z_scope.

Set Warnings "-register-all".

(* ===================================================================== *)
(** * Python strings *)
(* ===================================================================== *)

Abbreviation str := (list ascii).

Coercion list_ascii_of_string : string >-> list.

Definition NL : str := ["010"%char].
Definition DQ : ascii := "034"%char.

Definition len {A} (l : list A) : Z := Z.of_nat (length l).

Module Py.

Definition ord (c : ascii) : N := N_of_ascii c.

(** [str.isspace] on one character (code points below 256). *)
Definition isspace (c : ascii) : bool :=
  let n := ord c in
  ((9 <=? n) && (n <=? 13) || (28 <=? n) && (n <=? 32)
   || (n =? 133) || (n =? 160))%N.

(** [str.isalnum] on one character (code points below 256): letters,
    decimal digits and the other numeric characters of Latin-1. *)
Definition isalnum (c : ascii) : bool :=
  let n := ord c in
  ((48 <=? n) && (n <=? 57) || (65 <=? n) && (n <=? 90)
   || (97 <=? n) && (n <=? 122)
   || (n =? 170) || (n =? 178) || (n =? 179) || (n =? 181)
   || (n =? 185) || (n =? 186) || (188 <=? n) && (n <=? 190)
   || (192 <=? n) && (n <=? 214) || (216 <=? n) && (n <=? 246)
   || (248 <=? n) && (n <=? 255))%N.

(** [s.lstrip()], [s.rstrip()], [s.strip()] *)
Fixpoint lstrip (s : str) : str :=
  match s with
  | c :: s' => if isspace c then lstrip s' else s
  | [] => []
  end.

Definition rstrip (s : str) : str := reverse (lstrip (reverse s)).

Definition strip (s : str) : str := rstrip (lstrip s).

(** [s.startswith(p)] *)
Fixpoint startswith (s p : str) : bool :=
  match p, s with
  | [], _ => true
  | c :: p', d :: s' => if decide (c = d) then startswith s' p' else false
  | _ :: _, [] => false
  end.

(** Lowest offset at which [p] occurs in [s]. *)
Fixpoint search (p s : str) : option nat :=
  if startswith s p then Some 0%nat
  else match s with
       | [] => None
       | _ :: s' => S <$> search p s'
       end.

(** [p in s] *)
Definition contains (p s : str) : bool := bool_decide (is_Some (search p s)).

(** Clamp a slice or search bound into [0 .. len s], counting a negative
    bound from the end. *)
Definition clamp (n : Z) (i : Z) : Z :=
  let i := if i <? 0 then i + n else i in
  if i <? 0 then 0 else if n <? i then n else i.

(** [s[a:b]] *)
Definition slice {A} (s : list A) (a b : Z) : list A :=
  let a := clamp (len s) a in
  let b := clamp (len s) b in
  take (Z.to_nat (b - a)) (drop (Z.to_nat a) s).

(** [s[a:]] and [s[:b]] *)
Definition slice_from {A} (s : list A) (a : Z) : list A :=
  drop (Z.to_nat (clamp (len s) a)) s.
Definition slice_to {A} (s : list A) (b : Z) : list A :=
  take (Z.to_nat (clamp (len s) b)) s.

(** [s.find(p, start)]: lowest index at or after [start] where [p] occurs,
    [-1] when there is none. *)
Definition find (s p : str) (start : Z) : Z :=
  let start' := if start <? 0 then Z.max 0 (start + len s) else start in
  if len s <? start' then -1
  else match search p (drop (Z.to_nat start') s) with
       | Some i => start' + Z.of_nat i
       | None => -1
       end.

(** [s.replace(a, b)] for one-character [a] and [b]. *)
Definition replace_char (a b : ascii) (s : str) : str :=
  map (fun c => if decide (c = a) then b else c) s.

(** [s.replace(old, new)] for a non-empty [old]: occurrences are replaced
    from the left and do not overlap; [skip] counts the characters of an
    occurrence still to be passed over. *)
Fixpoint replace_go (old new : str) (skip : nat) (s : str) : str :=
  match s with
  | [] => []
  | c :: s' =>
      match skip with
      | S k => replace_go old new k s'
      | O => if startswith s old
             then new ++ replace_go old new (length old - 1) s'
             else c :: replace_go old new 0 s'
      end
  end.
Definition replace (old new s : str) : str := replace_go old new 0 s.

(** [s.split(c)] for a one-character separator *)
Fixpoint split_char (sep : ascii) (s : str) : list str :=
  match s with
  | [] => [[]]
  | c :: s' =>
      if decide (c = sep) then [] :: split_char sep s'
      else match split_char sep s' with
           | first :: rest => (c :: first) :: rest
           | [] => [[c]]
           end
  end.

(** [sep.join(parts)] *)
Fixpoint join (sep : str) (parts : list str) : str :=
  match parts with
  | [] => []
  | [x] => x
  | x :: rest => x ++ sep ++ join sep rest
  end.

(** [len(s.split())]: the number of maximal runs of non-whitespace. *)
Fixpoint count_words (inword : bool) (s : str) : Z :=
  match s with
  | [] => 0
  | c :: s' =>
      if isspace c then count_words false s'
      else (if inword then 0 else 1) + count_words true s'
  end.

(** [str(n)] for an integer. *)
Definition str_of_int (n : Z) : str :=
  list_ascii_of_string (NilZero.string_of_int (Z.to_int n)).

End Py.

(* ===================================================================== *)
(** * Python values and dictionaries *)
(* ===================================================================== *)

(** The values that reach the scripts through JSON and through their own
    dictionaries.  JSON numbers are integers here; floating point numbers
    are left out. *)
Inductive pyval : Type :=
| PNone
| PBool (b : bool)
| PInt (n : Z)
| PStr (s : str)
| PList (l : list pyval)
| PDict (d : list (str * pyval)).

(** A [dict]: keys are unique and kept in insertion order, the order in
    which [str(d)] and [json.dump] show them. *)
Abbreviation dict := (list (str * pyval)).

Module Dict.

Fixpoint get (d : dict) (k : str) : option pyval :=
  match d with
  | [] => None
  | (k', v) :: d' => if decide (k' = k) then Some v else get d' k
  end.

(** [k in d] *)
Definition mem (k : str) (d : dict) : bool := bool_decide (is_Some (get d k)).

(** [d.get(k, default)] *)
Definition get_or (d : dict) (k : str) (default : pyval) : pyval :=
  match get d k with Some v => v | None => default end.

(** [d[k] = v]: an existing key keeps its place. *)
Fixpoint set (d : dict) (k : str) (v : pyval) : dict :=
  match d with
  | [] => [(k, v)]
  | (k', v') :: d' =>
      if decide (k' = k) then (k, v) :: d' else (k', v') :: set d' k v
  end.

(** [d.update(e)] *)
Definition update (d e : dict) : dict :=
  fold_left (fun acc kv => set acc kv.1 kv.2) e d.

(** A dictionary display [{k1: v1, ...}]: later duplicates overwrite. *)
Definition make (kvs : list (str * pyval)) : dict := update [] kvs.

End Dict.

(* ===================================================================== *)
(** * Exceptions, the world, and the monad of the scripts *)
(* ===================================================================== *)

(** What a call to a remote service can fail with. *)
Inductive remote_failure := Transport | Auth | Quota | Rejected.

Inductive exn : Type :=
| NameError (name : str)
| TypeError (what : str)
| AttributeError (what : str)
| KeyError (key : str)
| ValueError (what : str)
| JSONDecodeError
| OSError (path : str)
| RemoteFailure (kind : remote_failure) (msg : str)
| SystemExit (code : Z).

(** [except Exception] catches everything but [SystemExit]. *)
Definition is_Exception (e : exn) : bool :=
  match e with SystemExit _ => false | _ => true end.

(** [str(e)] *)
Definition exn_str (e : exn) : str :=
  match e with
  | NameError x => "name '" ++ x ++ "' is not defined"
  | TypeError what | AttributeError what | ValueError what => what
  | KeyError k => "'" ++ k ++ "'"
  | JSONDecodeError => "Expecting value"
  | OSError path => "[Errno 2] No such file or directory: '" ++ path ++ "'"
  | RemoteFailure _ msg => msg
  | SystemExit c => Py.str_of_int c
  end.

Inductive result (A : Type) : Type :=
| Ok (a : A)
| Raise (e : exn).
Arguments Ok {A} a.
Arguments Raise {A} e.

Global Instance result_ret : MRet result := fun A a => Ok a.
Global Instance result_bind : MBind result := fun A B f m =>
  match m with Ok a => f a | Raise e => Raise e end.

(** What a collaborator answers: a value, or a failure that the client
    library raises as an exception. *)
Inductive reply (A : Type) : Type :=
| Reply (a : A)
| Fails (kind : remote_failure) (msg : str).
Arguments Reply {A} a.
Arguments Fails {A} kind msg.

Definition answer {A} (r : reply A) : result A :=
  match r with
  | Reply a => Ok a
  | Fails kind msg => Raise (RemoteFailure kind msg)
  end.

(** Every interaction with the outside is recorded, oldest first. *)
Inductive event : Type :=
| EvSearch (query : pyval)         (* a request to the news search service *)
| EvGenerate (prompt : str)        (* a request to the text generation service *)
| EvSleep (seconds : Z)            (* time.sleep *)
| EvPost (url : str) (data : pyval). (* requests.post to the issue tracker *)

Definition is_search (e : event) : bool :=
  match e with EvSearch _ => true | _ => false end.
Definition is_generate (e : event) : bool :=
  match e with EvGenerate _ => true | _ => false end.
Definition is_post (e : event) : bool :=
  match e with EvPost _ _ => true | _ => false end.

(** The state of a run, and the collaborators the scripts treat as opaque:
    the [k]-th request to a service is answered by the [k]-th reply. *)
Record World : Type := mkWorld {
  files : gmap str str;                 (* path -> content *)
  environ : gmap str str;               (* os.environ *)
  now : Z;                              (* the clock, in seconds *)
  trace : list event;
  client_init : reply unit;             (* constructing the API clients *)
  request_classes : bool;               (* eventregistry's request classes imported *)
  search_reply : nat -> reply pyval;
  generate_reply : nat -> reply str;    (* [response.text] *)
  post_reply : nat -> reply (Z * pyval);   (* status code and JSON body *)
  can_open : str -> bool;               (* [open(path, 'w')] succeeds *)
  strftime : str -> Z -> str;           (* datetime formatting *)
  json_loads : str -> option pyval;     (* [json.loads]; [None] is JSONDecodeError *)
  json_dumps : pyval -> str             (* [json.dump] with the scripts' options *)
}.

Definition with_files (f : gmap str str) (w : World) : World :=
  mkWorld f (environ w) (now w) (trace w) (client_init w) (request_classes w)
    (search_reply w) (generate_reply w) (post_reply w) (can_open w)
    (strftime w) (json_loads w) (json_dumps w).
Definition with_now (t : Z) (w : World) : World :=
  mkWorld (files w) (environ w) t (trace w) (client_init w) (request_classes w)
    (search_reply w) (generate_reply w) (post_reply w) (can_open w)
    (strftime w) (json_loads w) (json_dumps w).
Definition with_trace (tr : list event) (w : World) : World :=
  mkWorld (files w) (environ w) (now w) tr (client_init w) (request_classes w)
    (search_reply w) (generate_reply w) (post_reply w) (can_open w)
    (strftime w) (json_loads w) (json_dumps w).

Definition M (A : Type) : Type := World -> result A * World.

Global Instance M_ret : MRet M := fun A a w => (Ok a, w).
Global Instance M_bind : MBind M := fun A B f m w =>
  match m w with
  | (Ok a, w') => f a w'
  | (Raise e, w') => (Raise e, w')
  end.

Definition raise {A} (e : exn) : M A := fun w => (Raise e, w).

Definition lift {A} (r : result A) : M A := fun w => (r, w).

(** [try: body  except Exception as e: handler e] *)
Definition try_except {A} (body : M A) (handler : exn -> M A) : M A :=
  fun w =>
    match body w with
    | (Raise e, w') => if is_Exception e then handler e w' else (Raise e, w')
    | ok => ok
    end.

(** The same, for code without effects. *)
Definition try_pure {A} (body : result A) (handler : exn -> result A) : result A :=
  match body with
  | Raise e => if is_Exception e then handler e else Raise e
  | ok => ok
  end.

Definition ask {A} (f : World -> A) : M A := fun w => (Ok (f w), w).

Definition emit (e : event) : M unit :=
  fun w => (Ok tt, with_trace (trace w ++ [e]) w).

Definition count_events (p : event -> bool) (w : World) : nat :=
  length (filter (fun e => p e = true) (trace w)).

(** [os.getenv(k)] *)
Definition getenv (k : str) : M (option str) := ask (fun w => environ w !! k).

(** [os.getenv(k, default)] *)
Definition getenv_or (k : str) (d : str) : M str :=
  ask (fun w => default d (environ w !! k)).

(** [time.sleep(n)] *)
Definition sleep (n : Z) : M unit :=
  fun w => (Ok tt, with_now (now w + n) (with_trace (trace w ++ [EvSleep n]) w)).

(** [datetime.now().strftime(fmt)]; [isoformat()] is the format ["iso"]. *)
Definition now_strftime (fmt : str) : M str :=
  ask (fun w => strftime w fmt (now w)).
Definition now_isoformat : M str := now_strftime "iso".

(** [with open(path, 'w') as f: f.write(content)] *)
Definition write_file (path content : str) : M unit :=
  fun w =>
    if can_open w path
    then (Ok tt, with_files (<[path := content]> (files w)) w)
    else (Raise (OSError path), w).

(** [with open(path, 'r') as f: f.read()] *)
Definition read_file (path : str) : M str :=
  fun w =>
    match files w !! path with
    | Some c => (Ok c, w)
    | None => (Raise (OSError path), w)
    end.

(** One request to the news search service. *)
Definition search_request (query : pyval) : M pyval :=
  fun w =>
    (answer (search_reply w (count_events is_search w)),
     with_trace (trace w ++ [EvSearch query]) w).

(** [model.generate_content(prompt).text] *)
Definition generate_content (prompt : str) : M str :=
  fun w =>
    (answer (generate_reply w (count_events is_generate w)),
     with_trace (trace w ++ [EvGenerate prompt]) w).

(** [requests.post(url, headers=..., json=data)]: the status code and the
    decoded body of the response. *)
Definition requests_post (url : str) (data : pyval) : M (Z * pyval) :=
  fun w =>
    (answer (post_reply w (count_events is_post w)),
     with_trace (trace w ++ [EvPost url data]) w).

(** The exit status the operating system sees. *)
Definition exit_status {A} (r : result A) : Z :=
  match r with
  | Ok _ => 0
  | Raise (SystemExit c) => c
  | Raise _ => 1
  end.

(** [for x in xs: acc = body acc x] *)
Fixpoint for_each {A S} (xs : list A) (body : S -> A -> M S) (acc : S) : M S :=
  match xs with
  | [] => mret acc
  | x :: xs' => acc' ← body acc x; for_each xs' body acc'
  end.

(* ===================================================================== *)
(** * Operations on Python values *)
(* ===================================================================== *)

Module PyVal.

(** [bool(v)] *)
Definition truthy (v : pyval) : bool :=
  match v with
  | PNone => false
  | PBool b => b
  | PInt n => negb (n =? 0)
  | PStr s => negb (bool_decide (s = []))
  | PList l => match l with [] => false | _ => true end
  | PDict d => match d with [] => false | _ => true end
  end.

(** [a or b] *)
Definition or_else (a b : pyval) : pyval := if truthy a then a else b.

Definition hex_digit (n : N) : ascii :=
  nth (N.to_nat n) (list_ascii_of_string "0123456789abcdef") "0"%char.

Definition printable (c : ascii) : bool :=
  let n := Py.ord c in
  ((32 <=? n) && (n <=? 126) || (161 <=? n) && negb (n =? 173))%N.

Definition escape (quote : ascii) (c : ascii) : str :=
  if decide (c = "\"%char) then "\\"
  else if decide (c = quote) then ["\"%char; c]
  else if decide (c = "010"%char) then "\n"
  else if decide (c = "013"%char) then "\r"
  else if decide (c = "009"%char) then "\t"
  else if printable c then [c]
  else "\x" ++ [hex_digit (Py.ord c / 16); hex_digit (Py.ord c mod 16)].

(** [repr(s)] for a string *)
Definition repr_str (s : str) : str :=
  let quote :=
    if bool_decide ("'"%char ∈ s) && negb (bool_decide (DQ ∈ s))
    then DQ else "'"%char in
  [quote] ++ concat (map (escape quote) s) ++ [quote].

(** [repr(v)] *)
Fixpoint repr (v : pyval) : str :=
  match v with
  | PNone => "None"
  | PBool true => "True"
  | PBool false => "False"
  | PInt n => Py.str_of_int n
  | PStr s => repr_str s
  | PList l => "[" ++ Py.join ", " (map repr l) ++ "]"
  | PDict d =>
      "{" ++ Py.join ", "
               (map (fun kv => match kv with
                               | (k, x) => repr_str k ++ ": " ++ repr x
                               end) d) ++ "}"
  end.

(** [str(v)], which is also how an f-string shows [v] *)
Definition to_str (v : pyval) : str :=
  match v with PStr s => s | _ => repr v end.

Definition type_name (v : pyval) : str :=
  match v with
  | PNone => "NoneType" | PBool _ => "bool" | PInt _ => "int"
  | PStr _ => "str" | PList _ => "list" | PDict _ => "dict"
  end.

Definition no_attribute {A} (v : pyval) (attr : str) : result A :=
  Raise (AttributeError
           ("'" ++ type_name v ++ "' object has no attribute '" ++ attr ++ "'")).

(** [v.get(k, default)]: only dictionaries have [get]. *)
Definition get (v : pyval) (k : str) (default : pyval) : result pyval :=
  match v with
  | PDict d => Ok (Dict.get_or d k default)
  | _ => no_attribute v "get"
  end.

(** [v[k]] for a string key *)
Definition getitem (v : pyval) (k : str) : result pyval :=
  match v with
  | PDict d => match Dict.get d k with
               | Some x => Ok x
               | None => Raise (KeyError k)
               end
  | PStr _ | PList _ =>
      Raise (TypeError (type_name v ++ " indices must be integers or slices, not str"))
  | _ => Raise (TypeError ("'" ++ type_name v ++ "' object is not subscriptable"))
  end.

(** [v == k] for a string [k] *)
Definition eq_str (k : str) (v : pyval) : bool :=
  match v with PStr s => bool_decide (s = k) | _ => false end.

(** [k in v] for a string [k] *)
Definition contains (k : str) (v : pyval) : result bool :=
  match v with
  | PDict d => Ok (Dict.mem k d)
  | PList l => Ok (existsb (eq_str k) l)
  | PStr s => Ok (Py.contains k s)
  | _ => Raise (TypeError ("argument of type '" ++ type_name v ++ "' is not iterable"))
  end.

(** The elements [for x in v] goes through. *)
Definition iter (v : pyval) : result (list pyval) :=
  match v with
  | PList l => Ok l
  | PDict d => Ok (map (fun kv => PStr kv.1) d)
  | PStr s => Ok (map (fun c => PStr [c]) s)
  | _ => Raise (TypeError ("'" ++ type_name v ++ "' object is not iterable"))
  end.

(** [v.strip()] *)
Definition strip (v : pyval) : result pyval :=
  match v with
  | PStr s => Ok (PStr (Py.strip s))
  | _ => no_attribute v "strip"
  end.

(** [v[:n]] *)
Definition slice_to (v : pyval) (n : Z) : result pyval :=
  match v with
  | PStr s => Ok (PStr (Py.slice_to s n))
  | PList l => Ok (PList (Py.slice_to l n))
  | _ => Raise (TypeError ("'" ++ type_name v ++ "' object is not subscriptable"))
  end.

Fixpoint all_str (l : list pyval) : option (list str) :=
  match l with
  | [] => Some []
  | PStr s :: l' => (fun r => s :: r) <$> all_str l'
  | _ :: _ => None
  end.

(** [sep.join(v)] *)
Definition join (sep : str) (v : pyval) : result str :=
  xs ← iter v;
  match all_str xs with
  | Some parts => Ok (Py.join sep parts)
  | None => Raise (TypeError "sequence item: expected str instance")
  end.

(** [int(s)] for a string: optional blanks, an optional sign, decimal
    digits, single underscores between digits. *)
Fixpoint digits_value (acc : Z) (after_digit : bool) (s : str) : option Z :=
  match s with
  | [] => if after_digit then Some acc else None
  | c :: s' =>
      let n := Py.ord c in
      if ((48 <=? n) && (n <=? 57))%N
      then digits_value (10 * acc + Z.of_N (n - 48)) true s'
      else if bool_decide (c = "_"%char) && after_digit
      then digits_value acc false s'
      else None
  end.

Definition int_of_str (s : str) : result Z :=
  let t := Py.strip s in
  let '(sign, body) :=
    match t with
    | "-"%char :: r => (-1, r)
    | "+"%char :: r => (1, r)
    | _ => (1, t)
    end in
  match digits_value 0 false body with
  | Some n => Ok (sign * n)
  | None => Raise (ValueError "invalid literal for int() with base 10")
  end.

End PyVal.

(** ["error" in article]: the mark of a failed generation. *)
Definition has_error (article : dict) : bool := Dict.mem "error" article.

(** The fetch functions only ever put dictionaries in their result lists. *)
Definition as_dict (v : pyval) : dict :=
  match v with PDict d => d | _ => [] end.

(** [enumerate(xs, first)] *)
Definition enumerate {A} (first : Z) (xs : list A) : list (Z * A) :=
  imap (fun i x => (Z.of_nat i + first, x)) xs.

(** [not v] for the result of [os.getenv] *)
Definition falsy_env (v : option str) : bool :=
  negb (PyVal.truthy (from_option PStr PNone v)).

(** Constructing the API clients ([EventRegistry(apiKey=...)],
    [genai.configure], [genai.GenerativeModel]). *)
Definition make_clients : M unit := fun w => (answer (client_init w), w).

(** Looking up a name that is no global of the module. *)
Definition load_name (locals : dict) (x : str) : result pyval :=
  match Dict.get locals x with
  | Some v => Ok v
  | None => Raise (NameError x)
  end.

(* ===================================================================== *)
(** * The filename derivation shared by the scripts *)
(* ===================================================================== *)

(** [c.isalnum() or c in (' ', '-', '_')] for a character *)
Definition keep_char (c : ascii) : bool :=
  Py.isalnum c || bool_decide (c ∈ [" "; "-"; "_"]%char).

(** ["".join(c for c in title if c.isalnum() or c in (' ', '-', '_'))
       .strip()[:50]]
    as written in news_bot_clean.py, news_bot_action.py and
    clean_functional_news_bot_with_issues_backup.py, for a string. *)
Definition safe_title (title : str) : str :=
  Py.slice_to (Py.strip (List.filter keep_char title)) 50.

(** The same expression when the headline is any value: its elements are
    iterated, each must have [isalnum], and the kept ones are joined. *)
Definition str_isalnum (s : str) : bool :=
  negb (bool_decide (s = [])) && forallb Py.isalnum s.

Fixpoint keep_items (items : list pyval) : result (list str) :=
  match items with
  | [] => Ok []
  | PStr s :: rest =>
      kept ← keep_items rest;
      Ok (if str_isalnum s
             || bool_decide (s ∈ [" " : str; "-" : str; "_" : str])
          then s :: kept else kept)
  | x :: _ => PyVal.no_attribute x "isalnum"
  end.

Definition safe_title_of (headline : pyval) : result str :=
  match headline with
  | PStr s => Ok (safe_title s)
  | _ =>
      items ← PyVal.iter headline;
      kept ← keep_items items;
      Ok (Py.slice_to (Py.strip (concat kept)) 50)
  end.

(* ===================================================================== *)
(** * examples/news_bot_clean.py *)
(* ===================================================================== *)

Module Clean.

(** ** [NewsBot.fetch_news] *)

(** The dictionary built for one article the iterator yields, followed by
    the title preview that is printed. *)
Definition convert_article (article : pyval) : result pyval :=
  title ← PyVal.get article "title" (PStr "");
  body ← PyVal.get article "body" (PStr "");
  url ← PyVal.get article "url" (PStr "");
  date ← PyVal.get article "date" (PStr "");
  src ← PyVal.get article "source" PNone;
  source ← (if PyVal.truthy src
            then s ← PyVal.get article "source" (PDict []);
                 PyVal.get s "title" (PStr "")
            else Ok (PStr ""));
  lang ← PyVal.get article "lang" (PStr "eng");
  Ok (PDict (Dict.make [("title" : str, title); ("body" : str, body);
                        ("url" : str, url); ("date" : str, date);
                        ("source" : str, source); ("lang" : str, lang)])).

Definition title_preview (article : pyval) : result pyval :=
  t ← PyVal.get article "title" (PStr "No title");
  PyVal.slice_to t 50.

(** The [for article in q.execQuery(...)] loop with its [break]. *)
Fixpoint collect (items : list pyval) (max_articles : Z)
         (articles : list pyval) (count : Z) : result (list pyval) :=
  match items with
  | [] => Ok articles
  | article :: rest =>
      a ← convert_article article;
      let articles := articles ++ [a] in
      let count := count + 1 in
      _ ← title_preview article;
      if max_articles <=? count then Ok articles
      else collect rest max_articles articles count
  end.

Definition query (keyword : option str) : pyval :=
  match keyword with
  | Some k =>
      if PyVal.truthy (PStr k)
      then PDict [("keywords" : str, PStr k); ("keywordsLoc" : str, PStr "body");
                  ("lang" : str, PStr "eng"); ("days" : str, PInt 7)]
      else PDict [("lang" : str, PStr "eng"); ("days" : str, PInt 1)]
  | None => PDict [("lang" : str, PStr "eng"); ("days" : str, PInt 1)]
  end.

Definition fetch_news (keyword : option str) (max_articles : Z)
  : M (list pyval) :=
  try_except
    (reply ← search_request (query keyword);
     items ← lift (PyVal.iter reply);
     lift (collect items max_articles [] 0))
    (fun _ => mret []).

(** ** [NewsBot._extract_section] *)

Definition markers : list str := ["HEADLINE:" : str; "LEAD:" : str;
                                  "BODY:" : str; "CONCLUSION:" : str].

(** The loop that looks for the nearest other marker after [start]. *)
Definition next_marker_pos (content marker : str) (start : Z) : Z :=
  fold_left
    (fun next_marker_pos m =>
       if negb (bool_decide (m = marker))
          && Py.contains m (Py.slice_from content start)
       then let pos := Py.find content m start in
            if pos <? next_marker_pos then pos else next_marker_pos
       else next_marker_pos)
    markers (len content).

(** No string operation in the body raises, so the enclosing
    [try ... except: return ""] never fires. *)
Definition _extract_section (content marker : str) : str :=
  if Py.contains marker content then
    let start := Py.find content marker 0 + len marker in
    let end_ := Py.find content (NL ++ NL) start in
    let end_ := if end_ =? -1 then next_marker_pos content marker start
                else end_ in
    Py.strip (Py.slice content start end_)
  else "".

(** ** [NewsBot.generate_article] *)

Definition style_prompts : dict :=
  [("professional" : str,
    PStr "Write in a professional, journalistic tone suitable for business publications.");
   ("casual" : str,
    PStr "Write in a conversational, accessible tone for general readers.");
   ("academic" : str,
    PStr "Use a formal, analytical tone with detailed explanations.")].

Definition prompt (news_data : dict) (style : str) : result str :=
  let tone := Dict.get_or style_prompts style
                (Dict.get_or style_prompts "professional" PNone) in
  let title := Dict.get_or news_data "title" (PStr "N/A") in
  let source := Dict.get_or news_data "source" (PStr "N/A") in
  let date := Dict.get_or news_data "date" (PStr "N/A") in
  body ← PyVal.slice_to (Dict.get_or news_data "body" (PStr "N/A")) 2000;
  Ok (Py.join NL
        [ "" : str;
          "Transform this news article into a well-structured, engaging piece." : str;
          "" : str;
          "STYLE: " ++ PyVal.to_str tone;
          "" : str;
          "ORIGINAL ARTICLE:" : str;
          "Title: " ++ PyVal.to_str title;
          "Source: " ++ PyVal.to_str source;
          "Date: " ++ PyVal.to_str date;
          "Content: " ++ PyVal.to_str body;
          "" : str;
          "REQUIREMENTS:" : str;
          "1. Create an improved headline" : str;
          "2. Write a compelling lead paragraph" : str;
          "3. Structure the content with clear sections" : str;
          "4. Add context and analysis where appropriate" : str;
          "5. Ensure accuracy while improving readability" : str;
          "6. Keep it concise but informative" : str;
          "" : str;
          "Please provide the response in this format:" : str;
          "HEADLINE: [Your improved headline]" : str;
          "LEAD: [Opening paragraph]" : str;
          "BODY: [Main content with proper structure]" : str;
          "CONCLUSION: [Closing thoughts]" : str;
          "" : str ]).

(** The dictionary returned for a response text [content]. *)
Definition parse_response (news_data : dict) (content generated_at : str) : dict :=
  let headline := _extract_section content "HEADLINE:" in
  let lead := _extract_section content "LEAD:" in
  let body := _extract_section content "BODY:" in
  let conclusion := _extract_section content "CONCLUSION:" in
  Dict.make
    [ ("headline" : str,
       PyVal.or_else (PStr headline)
         (Dict.get_or news_data "title" (PStr "Generated Article")));
      ("lead" : str,
       PyVal.or_else (PStr lead) (PStr "Article summary not available"));
      ("body" : str, PyVal.or_else (PStr body) (PStr content));
      ("conclusion" : str, PyVal.or_else (PStr conclusion) (PStr ""));
      ("original_title" : str, Dict.get_or news_data "title" (PStr ""));
      ("original_source" : str, Dict.get_or news_data "source" (PStr ""));
      ("original_url" : str, Dict.get_or news_data "url" (PStr ""));
      ("original_date" : str, Dict.get_or news_data "date" (PStr ""));
      ("generated_at" : str, PStr generated_at);
      ("word_count" : str, PInt (Py.count_words false content)) ].

Definition generation_failure (news_data : dict) (e : exn) : dict :=
  Dict.make
    [ ("error" : str, PStr (exn_str e));
      ("original_title" : str, Dict.get_or news_data "title" (PStr ""));
      ("original_source" : str, Dict.get_or news_data "source" (PStr "")) ].

Definition generate_article (news_data : dict) (style : str) : M dict :=
  try_except
    (p ← lift (prompt news_data style);
     content ← generate_content p;
     generated_at ← now_isoformat;
     mret (parse_response news_data content generated_at))
    (fun e => mret (generation_failure news_data e)).

(** ** [NewsBot.save_article] *)

Definition field (article : dict) (k : str) (default : str) : str :=
  PyVal.to_str (Dict.get_or article k (PStr default)).

(** The f-string that builds the Markdown text. *)
Definition render (article : dict) : str :=
  Py.join NL
    [ "# " ++ field article "headline" "Generated Article";
      "" : str;
      "**Generated:** " ++ field article "generated_at" "N/A" ++ "  ";
      "**Original Source:** " ++ field article "original_source" "N/A" ++ "  ";
      "**Original URL:** " ++ field article "original_url" "N/A" ++ "  ";
      "**Word Count:** " ++ field article "word_count" "N/A" ++ "  ";
      "" : str;
      "---" : str;
      "" : str;
      "## Summary" : str;
      "" : str;
      field article "lead" "N/A";
      "" : str;
      "## Article" : str;
      "" : str;
      field article "body" "N/A";
      "" : str;
      "## Conclusion" : str;
      "" : str;
      field article "conclusion" "N/A";
      "" : str;
      "---" : str;
      "" : str;
      "*Generated by News Bot using EventRegistry API and Google Gemini AI*" : str;
      "" : str ].

(** [filename] is [None] when the caller gives no name. *)
Definition save_article (article : dict) (filename : option str) : M str :=
  if has_error article then mret ("" : str)
  else
    filename ←
      (if PyVal.truthy (from_option PStr PNone filename)
       then mret (default [] filename)
       else
         safe ← lift (safe_title_of
                        (Dict.get_or article "headline" (PStr "article")));
         timestamp ← now_strftime "%Y%m%d_%H%M%S";
         mret (safe ++ "_" ++ timestamp ++ ".md"));
    let content := render article in
    try_except
      (_ ← write_file filename content; mret filename)
      (fun _ => mret ("" : str)).

(** ** [NewsBot.create_summary_report] *)

Definition count_if {A} (p : A -> bool) (l : list A) : Z :=
  len (List.filter p l).

Definition create_summary_report (articles : list dict) (keyword : str)
  : M dict :=
  generated_at ← now_isoformat;
  mret (Dict.make
          [ ("generated_at" : str, PStr generated_at);
            ("keyword" : str, PStr keyword);
            ("total_articles" : str, PInt (len articles));
            ("successful_articles" : str,
             PInt (count_if (fun a => negb (has_error a)) articles));
            ("failed_articles" : str, PInt (count_if has_error articles));
            ("articles" : str, PList (map PDict articles)) ]).

(** ** [NewsBot.run] *)

(** The locals the loop updates. *)
Record progress := mkProgress {
  generated_articles : list dict;
  saved_files : list str
}.

Definition process (keyword style : str) (st : progress) (item : Z * pyval)
  : M progress :=
  let '(i, news) := item in
  enhanced ← generate_article (as_dict news) style;
  let generated := generated_articles st ++ [enhanced] in
  saved ←
    (if negb (has_error enhanced)
     then
       day ← now_strftime "%Y%m%d";
       filename ← save_article enhanced
                    (Some ("article_" ++ Py.str_of_int i ++ "_"
                           ++ Py.replace_char " " "_" keyword
                           ++ "_" ++ day ++ ".md"));
       mret (if PyVal.truthy (PStr filename)
             then saved_files st ++ [filename] else saved_files st)
     else mret (saved_files st));
  _ ← sleep 2;
  mret (mkProgress generated saved).

(** The body of [run]; next to the returned report it gives the final
    value of the local [saved_files], which [run] only prints. *)
Definition run_state (keyword style : str) (max_articles : Z)
  : M (dict * list str) :=
  news_articles ← fetch_news (Some keyword) max_articles;
  if negb (PyVal.truthy (PList news_articles)) then
    generated_at ← now_isoformat;
    mret (Dict.make [ ("error" : str, PStr "No articles found");
                      ("keyword" : str, PStr keyword);
                      ("generated_at" : str, PStr generated_at) ],
          [])
  else
    st ← for_each (enumerate 1 news_articles) (process keyword style)
           (mkProgress [] []);
    report ← create_summary_report (generated_articles st) keyword;
    day ← now_strftime "%Y%m%d";
    let summary_file :=
      "summary_" ++ Py.replace_char " " "_" keyword ++ "_" ++ day ++ ".json" in
    _ ← try_except
          (dumped ← ask (fun w => json_dumps w (PDict report));
           write_file summary_file dumped)
          (fun _ => mret tt);
    mret (report, saved_files st).

Definition run (keyword style : str) (max_articles : Z) : M dict :=
  r ← run_state keyword style max_articles; mret r.1.

(** ** [main] *)

Definition main : M unit :=
  eventregistry_key ← getenv "EVENTREGISTRY_API_KEY";
  google_key ← getenv "GOOGLE_API_KEY";
  if falsy_env eventregistry_key || falsy_env google_key
  then raise (SystemExit 1)
  else
    keyword ← getenv_or "INPUT_KEYWORD" "artificial intelligence";
    style ← getenv_or "INPUT_STYLE" "professional";
    max_text ← getenv_or "MAX_ARTICLES" "3";
    max_articles ← lift (PyVal.int_of_str max_text);
    try_except
      (_ ← make_clients;
       report ← run keyword style max_articles;
       if has_error report then raise (SystemExit 1) else mret tt)
      (fun _ => raise (SystemExit 1)).

End Clean.

(* ===================================================================== *)
(** * examples/news_bot_action.py *)
(* ===================================================================== *)

Module Action.

(** ** [NewsFetcher.fetch_latest_news] *)

Definition labels (categories : pyval) : result pyval :=
  cats ← PyVal.iter categories;
  ls ← mapM (fun cat => PyVal.get cat "label" (PStr "")) cats;
  Ok (PList ls).

Definition convert_article (article : pyval) : result pyval :=
  title ← PyVal.get article "title" (PStr "");
  body ← PyVal.get article "body" (PStr "");
  url ← PyVal.get article "url" (PStr "");
  date ← PyVal.get article "date" (PStr "");
  src ← PyVal.get article "source" (PDict []);
  source ← PyVal.get src "title" (PStr "");
  authors ← PyVal.get article "authors" (PList []);
  cats ← PyVal.get article "categories" (PList []);
  categories ← labels cats;
  Ok (PDict (Dict.make [("title" : str, title); ("body" : str, body);
                        ("url" : str, url); ("date" : str, date);
                        ("source" : str, source); ("authors" : str, authors);
                        ("categories" : str, categories)])).

(** The articles of a reply, when it has them:
    ['articles' in result and 'results' in result['articles']]. *)
Definition results_of (reply : pyval) : result (list pyval) :=
  has ← PyVal.contains "articles" reply;
  if (has : bool) then
    arts ← PyVal.getitem reply "articles";
    has_results ← PyVal.contains "results" arts;
    if (has_results : bool) then
      arts ← PyVal.getitem reply "articles";
      rs ← PyVal.getitem arts "results";
      PyVal.iter rs
    else Ok []
  else Ok [].

(** The query object, summarised by the arguments it is built from. *)
Definition query (keyword category : option str) (language : str)
           (max_articles : Z) : pyval :=
  PDict [("keyword" : str, from_option PStr PNone keyword);
         ("category" : str, from_option PStr PNone category);
         ("lang" : str, PStr language); ("days" : str, PInt 2);
         ("count" : str, PInt max_articles)].

Definition fetch_latest_news (keyword category : option str)
           (language : str) (max_articles : Z) : M (list pyval) :=
  try_except
    (reply ← search_request (query keyword category language max_articles);
     items ← lift (results_of reply);
     lift (mapM convert_article items))
    (fun _ => mret []).

(** ** [ArticleGenerator.generate_article] *)

Definition style_instructions : dict :=
  [("professional" : str,
    PStr "Use a professional, journalistic tone suitable for business publications.");
   ("casual" : str,
    PStr "Write in a conversational, accessible tone for general readers.");
   ("academic" : str,
    PStr "Use a formal, analytical tone with detailed explanations.")].

Definition indent : str := "        ".

Definition prompt (news_data : dict) (style : str) : result str :=
  let tone := Dict.get_or style_instructions style
                (Dict.get_or style_instructions "professional" PNone) in
  let title := Dict.get_or news_data "title" (PStr "N/A") in
  let source := Dict.get_or news_data "source" (PStr "N/A") in
  let date := Dict.get_or news_data "date" (PStr "N/A") in
  body ← PyVal.slice_to (Dict.get_or news_data "body" (PStr "N/A")) 2000;
  Ok (Py.join NL
        [ "" : str;
          indent ++ "Transform the following news into a well-structured article.";
          indent;
          indent ++ "STYLE: " ++ PyVal.to_str tone;
          indent;
          indent ++ "NEWS DATA:";
          indent ++ "Title: " ++ PyVal.to_str title;
          indent ++ "Source: " ++ PyVal.to_str source;
          indent ++ "Date: " ++ PyVal.to_str date;
          indent ++ "Content: " ++ PyVal.to_str body ++ "...";
          indent;
          indent ++ "Create:";
          indent ++ "1. An engaging headline ";
          indent ++ "2. A compelling lead paragraph";
          indent ++ "3. Well-organized body with subheadings";
          indent ++ "4. A conclusion";
          indent;
          indent ++ "Return as JSON with: headline, lead, body, conclusion, tags, word_count";
          indent ]).

(** The fence clean-up:
    [if article_text.startswith('```json'): article_text = article_text[7:-3].strip()
     elif article_text.startswith('```'): article_text = article_text[3:-3].strip()] *)
Definition clean_json (article_text : str) : str :=
  if Py.startswith article_text "```json"
  then Py.strip (Py.slice article_text 7 (-3))
  else if Py.startswith article_text "```"
  then Py.strip (Py.slice article_text 3 (-3))
  else article_text.

(** The [except json.JSONDecodeError] structure. *)
Definition fallback (news_data : dict) (article_text : str) : result pyval :=
  tags ← PyVal.slice_to (Dict.get_or news_data "categories" (PList [])) 5;
  Ok (PDict (Dict.make
               [ ("headline" : str,
                  Dict.get_or news_data "title" (PStr "Generated Article"));
                 ("lead" : str, PStr (Py.slice_to article_text 300 ++ "..."));
                 ("body" : str, PStr article_text);
                 ("conclusion" : str, PStr "");
                 ("tags" : str, tags);
                 ("word_count" : str, PInt (Py.count_words false article_text)) ])).

Definition metadata (news_data : dict) (generated_at : str) : dict :=
  Dict.make
    [ ("original_source" : str, Dict.get_or news_data "source" (PStr ""));
      ("original_url" : str, Dict.get_or news_data "url" (PStr ""));
      ("original_date" : str, Dict.get_or news_data "date" (PStr ""));
      ("generated_at" : str, PStr generated_at) ].

(** [article_data.update(extra)]: only a dictionary has [update]. *)
Definition update (article_data : pyval) (extra : dict) : result dict :=
  match article_data with
  | PDict d => Ok (Dict.update d extra)
  | _ => PyVal.no_attribute article_data "update"
  end.

(** What is done with the response text. *)
Definition parse_response (loads : str -> option pyval) (news_data : dict)
           (text generated_at : str) : result dict :=
  let article_text := clean_json (Py.strip text) in
  article_data ← match loads article_text with
                 | Some v => Ok v
                 | None => fallback news_data article_text
                 end;
  update article_data (metadata news_data generated_at).

Definition generate_article (news_data : dict) (style : str) : M dict :=
  p ← lift (prompt news_data style);
  try_except
    (text ← generate_content p;
     loads ← ask json_loads;
     generated_at ← now_isoformat;
     lift (parse_response loads news_data text generated_at))
    (fun e => mret (Dict.make [("error" : str, PStr (exn_str e))])).

(** ** [save_article_to_markdown] *)

Definition field (article : dict) (k : str) (default : str) : str :=
  PyVal.to_str (Dict.get_or article k (PStr default)).

(** The f-string that builds the Markdown text.  Its second and third
    lines are part of the string: the comment and the assignment to
    [conclusion_section] are text (with one replacement field), not
    statements, so the later field [{conclusion_section}] looks up a name
    that was never bound.  Fields are evaluated left to right. *)
Definition render (locals : dict) (article : dict) : result str :=
  let headline := field article "headline" "Generated Article" in
  let conclusion := field article "conclusion" "" in
  let generated_at := field article "generated_at" "N/A" in
  let original_source := field article "original_source" "N/A" in
  let word_count := field article "word_count" "N/A" in
  tags ← PyVal.join ", " (Dict.get_or article "tags" (PList []));
  let lead := field article "lead" "N/A" in
  let body := field article "body" "N/A" in
  conclusion_section ← load_name locals "conclusion_section";
  let original_url := field article "original_url" "N/A" in
  Ok (Py.join NL
        [ "# " ++ headline;
          "    # Pre-build conclusion section to avoid backslashes in f-string" : str;
          "    conclusion_section = f" ++ [DQ] ++ "## Conclusion";
          "" : str;
          conclusion ++ [DQ] ++ " if article.get('conclusion') else " ++ [DQ; DQ];
          "" : str;
          "**Generated:** " ++ generated_at ++ "  ";
          "**Source:** " ++ original_source ++ "  ";
          "**Word Count:** " ++ word_count ++ "  ";
          "**Tags:** " ++ tags ++ "  ";
          "" : str;
          "---" : str;
          "" : str;
          "## Summary" : str;
          "" : str;
          lead;
          "" : str;
          "## Article" : str;
          "" : str;
          body;
          "" : str;
          PyVal.to_str conclusion_section;
          "" : str;
          "---" : str;
          "" : str;
          "*Generated by News Bot using EventRegistry API and Google Gemini*" : str;
          "**Original URL:** " ++ original_url;
          "" : str ]).

Definition save_article_to_markdown (article : dict) (filename : option str)
  : M str :=
  if has_error article then mret ("" : str)
  else
    let locals : dict :=
      [("article" : str, PDict article);
       ("filename" : str, from_option PStr PNone filename)] in
    '(locals, filename) ←
      (if PyVal.truthy (from_option PStr PNone filename)
       then mret (locals, default [] filename)
       else
         safe ← lift (safe_title_of
                        (Dict.get_or article "headline" (PStr "article")));
         timestamp ← now_strftime "%Y%m%d_%H%M%S";
         let filename := safe ++ "_" ++ timestamp ++ ".md" in
         mret (Dict.set (Dict.set locals "safe_title" (PStr safe))
                 "filename" (PStr filename),
               filename));
    content ← lift (render locals article);
    try_except
      (_ ← write_file filename content; mret filename)
      (fun _ => mret ("" : str)).

(** ** [main] *)

Record progress := mkProgress {
  generated_files : list str;
  category_articles : list dict
}.

(** The body of either loop; [keep] says whether a saved article is also
    appended to [category_articles]. *)
Definition process (prefix style : str) (keep : bool) (st : progress)
           (item : Z * pyval) : M progress :=
  let '(i, news) := item in
  article ← generate_article (as_dict news) style;
  st' ←
    (if negb (has_error article)
     then
       day ← now_strftime "%Y%m%d";
       filename ← save_article_to_markdown article
                    (Some (prefix ++ "_" ++ Py.str_of_int (i + 1)
                           ++ "_" ++ day ++ ".md"));
       mret (if PyVal.truthy (PStr filename)
             then mkProgress (generated_files st ++ [filename])
                    (if keep then category_articles st ++ [article]
                     else category_articles st)
             else st)
     else mret st);
  _ ← sleep 2;
  mret st'.

Definition main : M unit :=
  eventregistry_key ← getenv "EVENTREGISTRY_API_KEY";
  google_key ← getenv "GOOGLE_API_KEY";
  if falsy_env eventregistry_key || falsy_env google_key
  then raise (SystemExit 1)
  else
    kw_default ← getenv_or "KEYWORD" "artificial intelligence";
    keyword ← getenv_or "INPUT_KEYWORD" kw_default;
    style_default ← getenv_or "STYLE" "professional";
    style ← getenv_or "INPUT_STYLE" style_default;
    cat_default ← getenv_or "CATEGORY" "technology";
    category ← getenv_or "INPUT_CATEGORY" cat_default;
    _ ← try_except make_clients (fun _ => raise (SystemExit 1));
    st ← (if PyVal.truthy (PStr keyword)
          then
            news_articles ← fetch_latest_news (Some keyword) None "eng" 2;
            for_each (enumerate 0 news_articles)
              (process ("keyword_" ++ Py.replace_char " " "_" keyword)
                 style false)
              (mkProgress [] [])
          else mret (mkProgress [] []));
    category_news ← fetch_latest_news None (Some category) "eng" 3;
    st ← for_each (enumerate 0 category_news)
           (process ("category_" ++ category) style true) st;
    if PyVal.truthy (PList (map PDict (category_articles st)))
    then
      date ← now_strftime "%Y-%m-%d";
      let summary_data : dict :=
        Dict.make
          [ ("date" : str, PStr date);
            ("keyword" : str, PStr keyword);
            ("category" : str, PStr category);
            ("style" : str, PStr style);
            ("articles_generated" : str, PInt (len (generated_files st)));
            ("files" : str, PList (map PStr (generated_files st)));
            ("articles" : str, PList (map PDict (category_articles st))) ] in
      day ← now_strftime "%Y%m%d";
      try_except
        (dumped ← ask (fun w => json_dumps w (PDict summary_data));
         write_file ("news_summary_" ++ day ++ ".json") dumped)
        (fun _ => mret tt)
    else mret tt.

End Action.

(* ===================================================================== *)
(** * src/clean_functional_news_bot_with_issues_backup.py *)
(* ===================================================================== *)

Module WithIssues.

(** ** [fetch_news_articles] *)

Definition is_dict (v : pyval) : bool :=
  match v with PDict _ => true | _ => false end.

Definition labels (categories : pyval) : result pyval :=
  cats ← PyVal.iter categories;
  ls ← mapM (fun cat => PyVal.get cat "label" (PStr ""))
            (List.filter is_dict cats);
  Ok (PList ls).

Definition convert_article (article : pyval) : result pyval :=
  title ← PyVal.get article "title" (PStr "");
  body ← PyVal.get article "body" (PStr "");
  url ← PyVal.get article "url" (PStr "");
  date ← PyVal.get article "date" (PStr "");
  src ← PyVal.get article "source" PNone;
  source ← (if is_dict src
            then s ← PyVal.get article "source" (PDict []);
                 PyVal.get s "title" (PStr "")
            else s ← PyVal.get article "source" (PStr "");
                 Ok (PStr (PyVal.to_str s)));
  cats ← PyVal.get article "categories" (PList []);
  categories ← labels cats;
  Ok (PDict (Dict.make [("title" : str, title); ("body" : str, body);
                        ("url" : str, url); ("date" : str, date);
                        ("source" : str, source);
                        ("categories" : str, categories)])).

Fixpoint collect (items : list pyval) (max_articles : Z)
         (articles : list pyval) : result (list pyval) :=
  match items with
  | [] => Ok articles
  | article :: rest =>
      a ← convert_article article;
      let articles := articles ++ [a] in
      if max_articles <=? len articles then Ok articles
      else collect rest max_articles articles
  end.

Definition query (keyword : str) : pyval :=
  PDict [("keywords" : str, PStr keyword); ("lang" : str, PStr "eng");
         ("days" : str, PInt 0)].

Definition fetch_news_articles (keyword : str) (max_articles : Z)
  : M (list pyval) :=
  try_except
    (_ ← make_clients;
     reply ← search_request (query keyword);
     items ← lift (PyVal.iter reply);
     lift (collect items max_articles []))
    (fun _ => mret []).

(** ** [generate_article_with_gemini] *)

Definition indent : str := "        ".

Definition prompt (news_data : dict) : result str :=
  let title := Dict.get_or news_data "title" (PStr "N/A") in
  let source := Dict.get_or news_data "source" (PStr "N/A") in
  body ← PyVal.slice_to (Dict.get_or news_data "body" (PStr "N/A")) 2000;
  Ok (Py.join NL
        [ "" : str;
          indent ++ "Transform this news article into an engaging, well-structured piece:";
          indent;
          indent ++ "Title: " ++ PyVal.to_str title;
          indent ++ "Source: " ++ PyVal.to_str source;
          indent ++ "Content: " ++ PyVal.to_str body;
          indent;
          indent ++ "Create a professional article with:";
          indent ++ "1. An improved headline";
          indent ++ "2. A compelling opening paragraph";
          indent ++ "3. Well-organized content with subheadings";
          indent ++ "4. A strong conclusion";
          indent;
          indent ++ "Return as JSON:";
          indent ++ "{";
          indent ++ "    " ++ [DQ] ++ "headline" ++ [DQ] ++ ": "
            ++ [DQ] ++ "improved headline" ++ [DQ] ++ ",";
          indent ++ "    " ++ [DQ] ++ "content" ++ [DQ] ++ ": "
            ++ [DQ] ++ "full article content with subheadings" ++ [DQ] ++ ",";
          indent ++ "    " ++ [DQ] ++ "summary" ++ [DQ] ++ ": "
            ++ [DQ] ++ "brief summary" ++ [DQ] ++ ",";
          indent ++ "    " ++ [DQ] ++ "tags" ++ [DQ] ++ ": ["
            ++ [DQ] ++ "relevant" ++ [DQ] ++ ", " ++ [DQ] ++ "tags" ++ [DQ] ++ "]";
          indent ++ "}";
          indent ]).

Definition fallback (news_data : dict) (article_text : str) : result pyval :=
  tags ← PyVal.slice_to (Dict.get_or news_data "categories" (PList [])) 3;
  Ok (PDict (Dict.make
               [ ("headline" : str,
                  Dict.get_or news_data "title" (PStr "Generated Article"));
                 ("content" : str, PStr article_text);
                 ("summary" : str, PStr (Py.slice_to article_text 200 ++ "..."));
                 ("tags" : str, tags) ])).

Definition metadata (news_data : dict) (generated_at : str) : dict :=
  Dict.make
    [ ("original_source" : str, Dict.get_or news_data "source" (PStr ""));
      ("original_url" : str, Dict.get_or news_data "url" (PStr ""));
      ("generated_at" : str, PStr generated_at) ].

Definition parse_response (loads : str -> option pyval) (news_data : dict)
           (text generated_at : str) : result dict :=
  let article_text := Action.clean_json (Py.strip text) in
  article_data ← match loads article_text with
                 | Some v => Ok v
                 | None => fallback news_data article_text
                 end;
  Action.update article_data (metadata news_data generated_at).

Definition generate_article_with_gemini (news_data : dict) : M dict :=
  try_except
    (p ← lift (prompt news_data);
     text ← generate_content p;
     loads ← ask json_loads;
     generated_at ← now_isoformat;
     lift (parse_response loads news_data text generated_at))
    (fun e => mret (Dict.make
                      [ ("error" : str, PStr (exn_str e));
                        ("headline" : str,
                         Dict.get_or news_data "title" (PStr "Error"));
                        ("original_source" : str,
                         Dict.get_or news_data "source" (PStr "")) ])).

(** ** [save_article_to_file] *)

Definition field (article : dict) (k : str) (default : str) : str :=
  PyVal.to_str (Dict.get_or article k (PStr default)).

Definition render (article : dict) : result str :=
  let headline := field article "headline" "Generated Article" in
  let generated_at := field article "generated_at" "N/A" in
  let original_source := field article "original_source" "N/A" in
  tags ← PyVal.join ", " (Dict.get_or article "tags" (PList []));
  Ok (Py.join NL
        [ "# " ++ headline;
          "" : str;
          "**Generated:** " ++ generated_at ++ "  ";
          "**Source:** " ++ original_source ++ "  ";
          "**Tags:** " ++ tags ++ "  ";
          "" : str;
          "---" : str;
          "" : str;
          "## Summary" : str;
          "" : str;
          field article "summary" "N/A";
          "" : str;
          "## Article" : str;
          "" : str;
          field article "content" "N/A";
          "" : str;
          "---" : str;
          "" : str;
          "*Generated by Clean Functional News Bot*  " : str;
          "**Original URL:** " ++ field article "original_url" "N/A";
          "" : str ]).

Definition save_article_to_file (article : dict) (filename : option str)
  : M str :=
  if has_error article then mret ("" : str)
  else
    filename ←
      (if PyVal.truthy (from_option PStr PNone filename)
       then mret (default [] filename)
       else
         safe ← lift (safe_title_of
                        (Dict.get_or article "headline" (PStr "article")));
         timestamp ← now_strftime "%Y%m%d_%H%M%S";
         mret (safe ++ "_" ++ timestamp ++ ".md"));
    content ← lift (render article);
    try_except
      (_ ← write_file filename content; mret filename)
      (fun _ => mret ("" : str)).

(** ** [create_github_issue] *)

(** Emoji of the script's literals are left out of the texts below. *)
Definition header (n : Z) (keyword run_number date : str) : str :=
  Py.join NL
    [ "# Clean News Bot Results" : str;
      "" : str;
      "**Keyword:** `" ++ keyword ++ "`  ";
      "**Run:** " ++ run_number ++ "  ";
      "**Articles Generated:** " ++ Py.str_of_int n ++ "  ";
      "**Date:** " ++ date;
      "" : str;
      "---" : str;
      "" : str;
      "## Generated Articles" : str;
      "" : str;
      "" : str ].

(** [next((line for line in lines if line.startswith('# ')), default)] *)
Definition first_heading (lines : list str) (default : str) : str :=
  match List.filter (fun line => Py.startswith line "# ") lines with
  | line :: _ => line
  | [] => default
  end.

(** The loop collecting up to three preview lines. *)
Fixpoint preview_loop (lines : list str) (preview_lines : list str) : list str :=
  match lines with
  | [] => preview_lines
  | line :: rest =>
      let preview_lines :=
        if PyVal.truthy (PStr (Py.strip line))
           && negb (Py.startswith line "*") && negb (Py.startswith line "**")
        then preview_lines ++ [line] else preview_lines in
      if 3 <=? len preview_lines then preview_lines
      else preview_loop rest preview_lines
  end.

(** The title of the entry: [title_line.replace('# ', '').strip()]. *)
Definition entry_title (i : Z) (content : str) : str :=
  let title_line :=
    first_heading (Py.split_char "010" content)
      ("Article " ++ Py.str_of_int i) in
  Py.strip (Py.replace "# " "" title_line).

Definition entry (i : Z) (content : str) : str :=
  let lines := Py.split_char "010" content in
  let title := entry_title i content in
  let preview := Py.join NL (preview_loop (Py.slice_from lines 8) []) in
  Py.join NL
    [ "### " ++ title;
      "" : str;
      preview ++ "...";
      "" : str;
      "*[Full article available in workflow artifacts]*" : str;
      "" : str;
      "---" : str;
      "" : str;
      "" : str ].

Definition add_entry (issue_body : str) (item : Z * str) : M str :=
  let '(i, filename) := item in
  try_except
    (content ← read_file filename; mret (issue_body ++ entry i content))
    (fun e => mret (issue_body ++ "### Article " ++ Py.str_of_int i ++ NL
                      ++ "*Error reading file: " ++ exn_str e ++ "*"
                      ++ NL ++ NL ++ "---" ++ NL ++ NL)).

Definition footer (n : Z) (keyword run_number : str) : str :=
  Py.join NL
    [ "" : str;
      "## Summary" : str;
      "" : str;
      "- **Search Keyword:** " ++ keyword;
      "- **Articles Generated:** " ++ Py.str_of_int n;
      "- **Workflow Run:** " ++ run_number;
      "- **API Compliance:** 10/10 " : str;
      "" : str;
      "> *Generated by Clean Functional News Bot using EventRegistry API + Google Gemini AI*" : str;
      "> " : str;
      "> Real packages used:" : str;
      "> - `eventregistry==9.1`" : str;
      "> - `google-generativeai>=0.8.0`" : str;
      "" : str ].

Definition create_github_issue (articles : list str) (keyword run_number : str)
  : M bool :=
  github_token ← getenv "GITHUB_TOKEN";
  github_repo ← getenv "GITHUB_REPOSITORY";
  if falsy_env github_token || falsy_env github_repo
  then mret false
  else
    date ← now_strftime "%Y-%m-%d %H:%M:%S UTC";
    issue_body ← for_each (enumerate 1 articles) add_entry
                   (header (len articles) keyword run_number date);
    let issue_body := issue_body ++ footer (len articles) keyword run_number in
    try_except
      (let url := "https://api.github.com/repos/" ++ default [] github_repo
                  ++ "/issues" in
       let data :=
         PDict [ ("title" : str,
                  PStr ("Clean News Bot: " ++ keyword ++ " (Run "
                        ++ run_number ++ ")"));
                 ("body" : str, PStr issue_body);
                 ("labels" : str,
                  PList [PStr "news-bot"; PStr "automated";
                         PStr "clean-implementation"]) ] in
       '(status_code, issue_data) ← requests_post url data;
       if status_code =? 201
       then _ ← lift (PyVal.getitem issue_data "number");
            _ ← lift (PyVal.getitem issue_data "html_url");
            mret true
       else mret false)
      (fun _ => mret false).

End WithIssues.

(* ===================================================================== *)
(** * src/news_bot.py *)
(* ===================================================================== *)

Module NewsBot.

(** ** [NewsBot.fetch_news] and [NewsBot._fetch_news_fallback] *)

Definition names (authors : pyval) : result pyval :=
  xs ← PyVal.iter authors;
  ns ← mapM (fun author => PyVal.get author "name" (PStr "")) xs;
  Ok (PList ns).

(** [article.get('body') and article.get('title')] *)
Definition has_body_and_title (article : pyval) : result bool :=
  body ← PyVal.get article "body" PNone;
  if PyVal.truthy body
  then title ← PyVal.get article "title" PNone; Ok (PyVal.truthy title)
  else Ok false.

Definition convert_article (with_authors : bool) (article : pyval)
  : result pyval :=
  t ← PyVal.get article "title" (PStr "");
  title ← PyVal.strip t;
  b ← PyVal.get article "body" (PStr "");
  b ← PyVal.strip b;
  body ← PyVal.slice_to b 2000;
  url ← PyVal.get article "url" (PStr "");
  src ← PyVal.get article "source" (PDict []);
  source ← PyVal.get src "title" (PStr "Unknown");
  date ← PyVal.get article "dateTime" (PStr "");
  authors ← (if with_authors
             then a ← PyVal.get article "authors" (PList []); names a
             else Ok (PList []));
  Ok (PDict (Dict.make [("title" : str, title); ("body" : str, body);
                        ("url" : str, url); ("source" : str, source);
                        ("date" : str, date); ("authors" : str, authors)])).

(** The loop of [fetch_news], which stops at [max_articles]. *)
Fixpoint collect (items : list pyval) (max_articles : Z)
         (articles : list pyval) : result (list pyval) :=
  match items with
  | [] => Ok articles
  | article :: rest =>
      ok ← has_body_and_title article;
      if (ok : bool) then
        a ← convert_article true article;
        let articles := articles ++ [a] in
        if max_articles <=? len articles then Ok articles
        else collect rest max_articles articles
      else collect rest max_articles articles
  end.

(** The loop of [_fetch_news_fallback], which has no [break]. *)
Fixpoint collect_all (items : list pyval) (articles : list pyval)
  : result (list pyval) :=
  match items with
  | [] => Ok articles
  | article :: rest =>
      ok ← has_body_and_title article;
      if (ok : bool) then
        a ← convert_article false article;
        collect_all rest (articles ++ [a])
      else collect_all rest articles
  end.

Definition query (keyword : str) (max_articles : Z) : pyval :=
  PDict [("keywords" : str, PStr keyword);
         ("keywordsLoc" : str, PStr "body,title");
         ("lang" : str, PStr "eng"); ("days" : str, PInt 7);
         ("page" : str, PInt 1); ("count" : str, PInt (max_articles * 2));
         ("articleBodyLen" : str, PInt (-1))].

Definition query_params (keyword : str) (max_articles : Z) : pyval :=
  PDict [("action" : str, PStr "getArticles");
         ("keyword" : str, PStr keyword);
         ("articlesPage" : str, PInt 1);
         ("articlesCount" : str, PInt max_articles);
         ("articlesSortBy" : str, PStr "date");
         ("articlesSortByAsc" : str, PBool false);
         ("articlesArticleBodyLen" : str, PInt (-1));
         ("resultType" : str, PStr "articles");
         ("dataType" : str, PList [PStr "news"]);
         ("lang" : str, PStr "eng")].

(** [self.er.jsonRequest(query_params)] and what follows; the reply must
    be truthy before ['articles' in result] is asked. *)
Definition _fetch_news_fallback (keyword : str) (max_articles : Z)
  : M (list pyval) :=
  try_except
    (reply ← search_request (query_params keyword max_articles);
     items ← lift (if PyVal.truthy reply then Action.results_of reply
                   else Ok []);
     lift (collect_all items []))
    (fun _ => mret []).

(** The request classes are [None] when their import failed at module
    load; calling one then raises [TypeError]. *)
Definition build_request : M unit :=
  ok ← ask request_classes;
  if (ok : bool) then mret tt
  else raise (TypeError "'NoneType' object is not callable").

Definition fetch_news (keyword : str) (max_articles : Z) : M (list pyval) :=
  try_except
    (_ ← build_request;
     reply ← search_request (query keyword max_articles);
     items ← lift (Action.results_of reply);
     lift (collect items max_articles []))
    (fun _ => _fetch_news_fallback keyword max_articles).

(** ** [NewsBot._extract_title] *)

Fixpoint first_title (lines : list str) : str :=
  match lines with
  | [] => "Generated News Article"
  | line :: rest =>
      let line := Py.strip line in
      if PyVal.truthy (PStr line) && negb (Py.startswith line "#") then
        let title :=
          Py.strip (Py.replace "#" "" (Py.replace "*" "" (Py.replace "**" "" line))) in
        if 10 <? len title then title else first_title rest
      else first_title rest
  end.

Definition _extract_title (content : str) : str :=
  first_title (Py.split_char "010" content).

(** ** [NewsBot.generate_article] *)

Definition style_prompts : dict :=
  [("professional" : str,
    PStr "Write in a professional, journalistic tone suitable for business readers.");
   ("casual" : str,
    PStr "Write in a conversational, engaging tone for general audiences.");
   ("academic" : str,
    PStr "Write in a formal, analytical tone with deeper insights.")].

Definition prompt (source_article : dict) (style : str) : result str :=
  title ← PyVal.getitem (PDict source_article) "title";
  source ← PyVal.getitem (PDict source_article) "source";
  body ← PyVal.getitem (PDict source_article) "body";
  let tone := Dict.get_or style_prompts style
                (Dict.get_or style_prompts "professional" PNone) in
  Ok (Py.join NL
        [ "" : str;
          "Rewrite this news article in a " ++ style
            ++ " style. Make it engaging and well-structured.";
          "" : str;
          "Original Article:" : str;
          "Title: " ++ PyVal.to_str title;
          "Source: " ++ PyVal.to_str source;
          "Content: " ++ PyVal.to_str body;
          "" : str;
          "Instructions:" : str;
          "- " ++ PyVal.to_str tone;
          "- Create an engaging headline" : str;
          "- Structure with clear paragraphs" : str;
          "- Add insights or analysis where appropriate" : str;
          "- Keep it between 300-800 words" : str;
          "- Include relevant context" : str;
          "- End with a brief conclusion" : str;
          "" : str;
          "Format the response as a complete article ready for publication." : str;
          "" : str ]).

(** [None] is the failure result. *)
Definition generate_article (source_article : dict) (style : str)
  : M (option dict) :=
  _ ← lift (t ← PyVal.getitem (PDict source_article) "title";
            PyVal.slice_to t 50);
  p ← lift (prompt source_article style);
  try_except
    (text ← generate_content p;
     if PyVal.truthy (PStr text) then
       original_source ← lift (PyVal.getitem (PDict source_article) "source");
       original_url ← lift (PyVal.getitem (PDict source_article) "url");
       generated_at ← now_isoformat;
       mret (Some (Dict.make
                     [ ("title" : str, PStr (_extract_title text));
                       ("content" : str, PStr text);
                       ("original_source" : str, original_source);
                       ("original_url" : str, original_url);
                       ("generated_at" : str, PStr generated_at);
                       ("style" : str, PStr style) ]))
     else mret None)
    (fun _ => mret None).

(** ** [NewsBot.save_article] *)

(** [safe_title] after both assignments:
    ["".join(c for c in title if c.isalnum() or c in (' ', '-', '_')).strip()]
    and then [safe_title.replace(' ', '_')[:50]]. *)
Definition safe_title (title : str) : str :=
  Py.slice_to
    (Py.replace_char " " "_" (Py.strip (List.filter keep_char title))) 50.

Definition safe_title_of (title : pyval) : result str :=
  match title with
  | PStr s => Ok (safe_title s)
  | _ =>
      items ← PyVal.iter title;
      kept ← keep_items items;
      Ok (Py.slice_to (Py.replace_char " " "_" (Py.strip (concat kept))) 50)
  end.

Definition render (article : dict) : result str :=
  title ← PyVal.getitem (PDict article) "title";
  generated_at ← PyVal.getitem (PDict article) "generated_at";
  style ← PyVal.getitem (PDict article) "style";
  original_source ← PyVal.getitem (PDict article) "original_source";
  original_url ← PyVal.getitem (PDict article) "original_url";
  content ← PyVal.getitem (PDict article) "content";
  Ok (Py.join NL
        [ "# " ++ PyVal.to_str title;
          "" : str;
          "**Generated:** " ++ PyVal.to_str generated_at ++ "  ";
          "**Style:** " ++ PyVal.to_str style ++ "  ";
          "**Original Source:** " ++ PyVal.to_str original_source ++ "  ";
          "**Source URL:** " ++ PyVal.to_str original_url ++ "  ";
          "" : str;
          "---" : str;
          "" : str;
          PyVal.to_str content;
          "" : str;
          "---" : str;
          "" : str;
          "*Generated by AI News Bot using EventRegistry API + Google Gemini AI*" : str;
          "" : str ]).

(** The file is written without a [try]: a failure to open it propagates. *)
Definition save_article (article : dict) (keyword : str) : M str :=
  title ← lift (PyVal.getitem (PDict article) "title");
  safe ← lift (safe_title_of title);
  timestamp ← now_strftime "%Y%m%d_%H%M%S";
  let filename := "article_" ++ safe ++ "_" ++ timestamp ++ ".md" in
  markdown_content ← lift (render article);
  _ ← write_file filename markdown_content;
  mret filename.

(** ** [NewsBot.create_github_issue] *)

(** Emoji of the script's literals are left out of the texts below. *)
Definition header (n : Z) (keyword run_number date : str) : str :=
  Py.join NL
    [ "# AI News Bot Results" : str;
      "" : str;
      "**Keyword:** `" ++ keyword ++ "`  ";
      "**Run:** " ++ run_number ++ "  ";
      "**Articles Generated:** " ++ Py.str_of_int n ++ "  ";
      "**Date:** " ++ date ++ "  ";
      "" : str;
      "---" : str;
      "" : str;
      "## Generated Articles" : str;
      "" : str;
      "" : str ].

(** The loop collecting up to ten preview lines. *)
Fixpoint preview_loop (lines : list str) (preview_lines : list str) : list str :=
  match lines with
  | [] => preview_lines
  | line :: rest =>
      if PyVal.truthy (PStr (Py.strip line)) && negb (Py.startswith line "---")
      then
        let preview_lines := preview_lines ++ [line] in
        if 10 <=? len preview_lines then preview_lines
        else preview_loop rest preview_lines
      else preview_loop rest preview_lines
  end.

(** The title of the entry: [title_line.replace('# ', '').strip()]. *)
Definition entry_title (i : Z) (content : str) : str :=
  let title_line :=
    WithIssues.first_heading (Py.split_char "010" content)
      ("Article " ++ Py.str_of_int i) in
  Py.strip (Py.replace "# " "" title_line).

Definition entry (i : Z) (content : str) : str :=
  let title := entry_title i content in
  let lines := Py.split_char "010" content in
  let preview_lines := preview_loop (Py.slice_from lines 8) [] in
  let preview := Py.join NL (Py.slice_to preview_lines 5) in
  Py.join NL
    [ "### " ++ title;
      "" : str;
      preview;
      "" : str;
      "*[Full article available in workflow artifacts]*" : str;
      "" : str;
      "---" : str;
      "" : str;
      "" : str ].

Definition add_entry (issue_body : str) (item : Z * str) : M str :=
  let '(i, filename) := item in
  try_except
    (content ← read_file filename; mret (issue_body ++ entry i content))
    (fun _ => mret issue_body).

Definition footer (n : Z) (keyword run_number : str) : str :=
  Py.join NL
    [ "" : str;
      "## Summary" : str;
      "" : str;
      "- **Search Keyword:** " ++ keyword;
      "- **Articles Generated:** " ++ Py.str_of_int n;
      "- **Workflow Run:** " ++ run_number;
      "" : str;
      "> *Generated by AI News Bot using EventRegistry API + Google Gemini AI*" : str;
      "" : str ].

Definition create_github_issue (articles : list str) (keyword run_number : str)
  : M bool :=
  github_token ← getenv "GITHUB_TOKEN";
  github_repo ← getenv "GITHUB_REPOSITORY";
  if falsy_env github_token || falsy_env github_repo
  then mret false
  else
    date ← now_strftime "%Y-%m-%d %H:%M:%S UTC";
    issue_body ← for_each (enumerate 1 articles) add_entry
                   (header (len articles) keyword run_number date);
    let issue_body := issue_body ++ footer (len articles) keyword run_number in
    try_except
      (let url := "https://api.github.com/repos/" ++ default [] github_repo
                  ++ "/issues" in
       let data :=
         PDict [ ("title" : str,
                  PStr ("AI News: " ++ keyword ++ " (Run " ++ run_number ++ ")"));
                 ("body" : str, PStr issue_body);
                 ("labels" : str,
                  PList [PStr "ai-news-bot"; PStr "automated"]) ] in
       '(status_code, issue_data) ← requests_post url data;
       if status_code =? 201
       then _ ← lift (PyVal.getitem issue_data "number"); mret true
       else mret false)
      (fun _ => mret false).

(** ** [main] *)

(** The parsed command line. *)
Record args := mkArgs {
  keyword : str;
  max_articles : Z;
  style : str
}.

(** The body of [for article in articles]. *)
Definition process (a : args) (generated_files : list str) (article : pyval)
  : M (list str) :=
  generated ← generate_article (as_dict article) (style a);
  match generated with
  | Some g =>
      if PyVal.truthy (PDict g)
      then filename ← save_article g (keyword a);
           mret (generated_files ++ [filename])
      else mret generated_files
  | None => mret generated_files
  end.

Definition main (a : args) : M unit :=
  eventregistry_key ← getenv "EVENTREGISTRY_API_KEY";
  google_key ← getenv "GOOGLE_API_KEY";
  if falsy_env eventregistry_key || falsy_env google_key
  then raise (SystemExit 1)
  else
    _ ← make_clients;
    articles ← fetch_news (keyword a) (max_articles a);
    if negb (PyVal.truthy (PList articles)) then raise (SystemExit 1)
    else
      generated_files ← for_each articles (process a) [];
      if negb (PyVal.truthy (PList (map PStr generated_files)))
      then raise (SystemExit 1)
      else
        run_number ← getenv_or "GITHUB_RUN_NUMBER" "local";
        _ ← create_github_issue generated_files (keyword a) run_number;
        mret tt.

End NewsBot.

(* ===================================================================== *)
(** * Statements of the specification *)
(* ===================================================================== *)

Module Spec.

(** The marker-delimited strategy in the words of the specification: the
    field of a marker is the trimmed substring from just after the marker
    up to the next recognized marker, or to the end of the text; a marker
    that does not occur yields the empty string. *)
Definition next_recognized_marker (content : str) (start : Z) : Z :=
  fold_left
    (fun best m =>
       let pos := Py.find content m start in
       if (0 <=? pos) && (pos <? best) then pos else best)
    Clean.markers (len content).

Definition extract (content marker : str) : str :=
  if Py.contains marker content then
    let start := Py.find content marker 0 + len marker in
    Py.strip (Py.slice content start (next_recognized_marker content start))
  else "".

(** The rate limit on a trace: a generation request is only made when a
    2-unit sleep has happened since the previous one. *)
Fixpoint spaced (slept : bool) (tr : list event) : bool :=
  match tr with
  | [] => true
  | EvGenerate _ :: tr' => slept && spaced false tr'
  | EvSleep n :: tr' => spaced (slept || (n =? 2)) tr'
  | _ :: tr' => spaced slept tr'
  end.

Definition delay_between_generations (tr : list event) : bool :=
  spaced true tr.

(** The stronger form: every generation request, the last one too, is
    followed by a 2-unit sleep. *)
Fixpoint followed (slept : bool) (tr : list event) : bool :=
  match tr with
  | [] => slept
  | EvGenerate _ :: tr' => slept && followed false tr'
  | EvSleep n :: tr' => followed (slept || (n =? 2)) tr'
  | _ :: tr' => followed slept tr'
  end.

Definition delay_after_every_generation (tr : list event) : bool :=
  followed true tr.

(** The events a computation adds to the trace. *)
Definition new_events (before after : World) : list event :=
  drop (length (trace before)) (trace after).

(** The outcome of publishing, read off what [create_github_issue]
    returns and the requests it made. *)
Inductive PublishResult := Skipped | Published | PublishFailed.

Definition publish_result (before : World) (r : result bool * World)
  : PublishResult :=
  if existsb is_post (new_events before r.2) then
    match r.1 with Ok true => Published | _ => PublishFailed end
  else Skipped.

End Spec.

(* ===================================================================== *)
(** * Concrete worlds *)
(* ===================================================================== *)

(** A reader for the JSON texts of the scenarios below: objects, arrays,
    strings with the one-character escapes, integers and the literals.  It
    stands in for [json.loads] in concrete worlds only; the general
    statements hold for any [json_loads]. *)
Module Json.

Definition is_ws (c : ascii) : bool :=
  bool_decide (c ∈ [" "; "009"; "010"; "013"]%char).

Fixpoint skip_ws (s : str) : str :=
  match s with
  | c :: s' => if is_ws c then skip_ws s' else s
  | [] => []
  end.

Definition unescape (c : ascii) : option ascii :=
  if decide (c = DQ) then Some DQ
  else if decide (c = "\"%char) then Some "\"%char
  else if decide (c = "/"%char) then Some "/"%char
  else if decide (c = "n"%char) then Some "010"%char
  else if decide (c = "r"%char) then Some "013"%char
  else if decide (c = "t"%char) then Some "009"%char
  else None.

(** The characters after an opening quote, up to the closing one. *)
Fixpoint string_body (s : str) (acc : str) : option (str * str) :=
  match s with
  | [] => None
  | c :: s' =>
      if decide (c = DQ) then Some (reverse acc, s')
      else if decide (c = "\"%char) then
        match s' with
        | e :: s'' =>
            match unescape e with
            | Some x => string_body s'' (x :: acc)
            | None => None
            end
        | [] => None
        end
      else string_body s' (c :: acc)
  end.

Definition is_digit (c : ascii) : bool :=
  ((48 <=? Py.ord c) && (Py.ord c <=? 57))%N.

Fixpoint digits (s : str) (acc : Z) : Z * str :=
  match s with
  | c :: s' =>
      if is_digit c then digits s' (10 * acc + Z.of_N (Py.ord c - 48))
      else (acc, s)
  | [] => (acc, [])
  end.

Definition number (s : str) : option (pyval * str) :=
  match s with
  | "-"%char :: (d :: _) as r =>
      if is_digit d then let '(n, rest) := digits r 0 in Some (PInt (- n), rest)
      else None
  | d :: _ =>
      if is_digit d then let '(n, rest) := digits s 0 in Some (PInt n, rest)
      else None
  | [] => None
  end.

Definition literal (s : str) : option (pyval * str) :=
  if Py.startswith s "true" then Some (PBool true, drop 4 s)
  else if Py.startswith s "false" then Some (PBool false, drop 5 s)
  else if Py.startswith s "null" then Some (PNone, drop 4 s)
  else number s.

Fixpoint value (fuel : nat) (s : str) {struct fuel} : option (pyval * str) :=
  match fuel with
  | O => None
  | S fuel' =>
      match skip_ws s with
      | c :: r =>
          if decide (c = "{"%char) then
            match skip_ws r with
            | "}"%char :: r' => Some (PDict [], r')
            | r' => members fuel' r' []
            end
          else if decide (c = "["%char) then
            match skip_ws r with
            | "]"%char :: r' => Some (PList [], r')
            | r' => elements fuel' r' []
            end
          else if decide (c = DQ) then
            '(text, r') ← string_body r []; Some (PStr text, r')
          else literal (c :: r)
      | [] => None
      end
  end
with members (fuel : nat) (s : str) (acc : dict) {struct fuel}
  : option (pyval * str) :=
  match fuel with
  | O => None
  | S fuel' =>
      match skip_ws s with
      | c :: r =>
          if decide (c = DQ) then
            '(k, r1) ← string_body r [];
            match skip_ws r1 with
            | ":"%char :: r2 =>
                '(v, r3) ← value fuel' r2;
                match skip_ws r3 with
                | ","%char :: r4 => members fuel' r4 (Dict.set acc k v)
                | "}"%char :: r4 => Some (PDict (Dict.set acc k v), r4)
                | _ => None
                end
            | _ => None
            end
          else None
      | [] => None
      end
  end
with elements (fuel : nat) (s : str) (acc : list pyval) {struct fuel}
  : option (pyval * str) :=
  match fuel with
  | O => None
  | S fuel' =>
      '(v, r1) ← value fuel' s;
      match skip_ws r1 with
      | ","%char :: r2 => elements fuel' r2 (acc ++ [v])
      | "]"%char :: r2 => Some (PList (acc ++ [v]), r2)
      | _ => None
      end
  end.

Definition loads (s : str) : option pyval :=
  '(v, rest) ← value (2 * length s + 2) s;
  if bool_decide (skip_ws rest = []) then Some v else None.

End Json.

Module Scenario.

(** Write ['] for a double quote inside a JSON text. *)
Definition dq (s : str) : str := Py.replace_char "'" DQ s.

Definition an_article (title body : str) : pyval :=
  PDict [("title" : str, PStr title); ("body" : str, PStr body);
         ("url" : str, PStr "https://example.org/a");
         ("date" : str, PStr "2024-01-01");
         ("dateTime" : str, PStr "2024-01-01T00:00:00Z");
         ("source" : str, PDict [("title" : str, PStr "Wire")])].

(** A world with empty disk and environment, in which every service call
    fails with a transport error and every file can be opened. *)
Definition quiet : World :=
  {| files := ∅;
     environ := ∅;
     now := 0;
     trace := [];
     client_init := Reply tt;
     request_classes := true;
     search_reply := fun _ => Fails Transport "connection timed out";
     generate_reply := fun _ => Fails Transport "connection timed out";
     post_reply := fun _ => Fails Transport "connection timed out";
     can_open := fun _ => true;
     strftime := fun fmt t => "t" ++ Py.str_of_int t;
     json_loads := Json.loads;
     json_dumps := PyVal.repr |}.

Definition with_keys (w : World) : World :=
  mkWorld (files w)
    (<["EVENTREGISTRY_API_KEY" : str := "er-key" : str]>
       (<["GOOGLE_API_KEY" : str := "g-key" : str]> (environ w)))
    (now w) (trace w) (client_init w) (request_classes w) (search_reply w)
    (generate_reply w) (post_reply w) (can_open w) (strftime w)
    (json_loads w) (json_dumps w).

Definition with_search (f : nat -> reply pyval) (w : World) : World :=
  mkWorld (files w) (environ w) (now w) (trace w) (client_init w)
    (request_classes w) f (generate_reply w) (post_reply w) (can_open w)
    (strftime w) (json_loads w) (json_dumps w).

Definition with_generate (f : nat -> reply str) (w : World) : World :=
  mkWorld (files w) (environ w) (now w) (trace w) (client_init w)
    (request_classes w) (search_reply w) f (post_reply w) (can_open w)
    (strftime w) (json_loads w) (json_dumps w).

Definition with_can_open (f : str -> bool) (w : World) : World :=
  mkWorld (files w) (environ w) (now w) (trace w) (client_init w)
    (request_classes w) (search_reply w) (generate_reply w) (post_reply w) f
    (strftime w) (json_loads w) (json_dumps w).

(** The marker-delimited text of the specification's example. *)
Definition marked_text : str :=
  "HEADLINE: A" ++ NL ++ "LEAD: B" ++ NL ++ "BODY: C" ++ NL ++ "CONCLUSION: D".

(** The fenced JSON response of the specification's example. *)
Definition json_text : str :=
  dq "{'headline':'H','lead':'L','body':'B','conclusion':'','tags':['x'],'word_count':2}".

Definition fenced_text : str := "```json" ++ NL ++ json_text ++ NL ++ "```".

Definition json_object : dict :=
  [("headline" : str, PStr "H"); ("lead" : str, PStr "L");
   ("body" : str, PStr "B"); ("conclusion" : str, PStr "");
   ("tags" : str, PList [PStr "x"]); ("word_count" : str, PInt 2)].

(** One article found, and a generation service that answers the
    marker-delimited text. *)
Definition one_article : World :=
  with_generate (fun _ => Reply marked_text)
    (with_search (fun _ => Reply (PList [an_article "T" "B"])) quiet).

(** Two articles found; the first generation succeeds, the others fail. *)
Definition two_articles : World :=
  with_generate (fun k => match k with
                          | O => Reply marked_text
                          | S _ => Fails Quota "quota exceeded"
                          end)
    (with_search (fun _ => Reply (PList [an_article "T1" "B1";
                                         an_article "T2" "B2"])) quiet).

(** The same findings in the shape [execQuery] and [jsonRequest] return
    them to src/news_bot.py. *)
Definition results (articles : list pyval) : pyval :=
  PDict [("articles" : str, PDict [("results" : str, PList articles)])].

(** Credentials present, one article found, every generation fails. *)
Definition all_failed : World :=
  with_keys (with_search (fun _ => Reply (PList [an_article "T" "B"])) quiet).

Definition all_failed_newsbot : World :=
  with_keys (with_search (fun _ => Reply (results [an_article "T" "B"])) quiet).

(** Credentials present, two articles found, every generation succeeds. *)
Definition two_generated_newsbot : World :=
  with_keys
    (with_generate (fun _ => Reply ("A rewritten article of some length" : str))
       (with_search (fun _ => Reply (results [an_article "T1" "B1";
                                               an_article "T2" "B2"])) quiet)).

Definition default_args : NewsBot.args :=
  NewsBot.mkArgs "artificial intelligence" 3 "professional".

(** Tracker credentials present, and what the tracker answers. *)
Definition with_github (answer : reply (Z * pyval)) (w : World) : World :=
  mkWorld (files w)
    (<["GITHUB_TOKEN" : str := "token" : str]>
       (<["GITHUB_REPOSITORY" : str := "owner/repo" : str]> (environ w)))
    (now w) (trace w) (client_init w) (request_classes w) (search_reply w)
    (generate_reply w) (fun _ => answer) (can_open w) (strftime w)
    (json_loads w) (json_dumps w).

(** A disk on which a path through a directory cannot be opened. *)
Definition flat_disk (w : World) : World :=
  with_can_open (fun path => negb (Py.contains "/" path)) w.


End Scenario.

(* ===================================================================== *)
(** * src/clean_functional_news_bot_backup.py *)
(* ===================================================================== *)

(** [sys.exit(arg)]: [None] is status 0, an integer (a [bool] is one) is
    the status itself, any other object is printed and gives status 1. *)
Definition sys_exit {A} (arg : pyval) : M A :=
  raise (SystemExit (match arg with
                     | PNone => 0
                     | PBool b => if b then 1 else 0
                     | PInt n => n
                     | _ => 1
                     end)).

Module Backup.

(** ** [fetch_simple_news] *)

(** [v + s] for a string [s] *)
Definition concat_str (v : pyval) (s : str) : result pyval :=
  match v with
  | PStr t => Ok (PStr (t ++ s))
  | PList _ =>
      Raise (TypeError ("can only concatenate list (not " ++ [DQ] ++ "str"
                        ++ [DQ] ++ ") to list"))
  | _ =>
      Raise (TypeError ("unsupported operand type(s) for +: '"
                        ++ PyVal.type_name v ++ "' and 'str'"))
  end.

Definition convert_article (article : pyval) : result pyval :=
  title ← PyVal.get article "title" (PStr "No title");
  b ← PyVal.get article "body" (PStr "No content");
  b ← PyVal.slice_to b 500;
  body ← concat_str b "...";
  src ← PyVal.get article "source" (PDict []);
  source ← PyVal.get src "title" (PStr "Unknown source");
  url ← PyVal.get article "url" (PStr "");
  date ← PyVal.get article "date" (PStr "");
  Ok (PDict (Dict.make [("title" : str, title); ("body" : str, body);
                        ("source" : str, source); ("url" : str, url);
                        ("date" : str, date)])).

(** The loop, whose [break] comes before the article is looked at. *)
Fixpoint collect (items : list pyval) (max_articles : Z)
         (articles : list pyval) (count : Z) : result (list pyval) :=
  match items with
  | [] => Ok articles
  | article :: rest =>
      if max_articles <=? count then Ok articles
      else
        a ← convert_article article;
        collect rest max_articles (articles ++ [a]) (count + 1)
  end.

Definition query (keyword : str) : pyval :=
  PDict [("keywords" : str, PStr keyword); ("lang" : str, PStr "eng");
         ("days" : str, PInt 7)].

Definition fetch_simple_news (keyword : str) (max_articles : Z)
  : M (list pyval) :=
  try_except
    (_ ← make_clients;
     reply ← search_request (query keyword);
     items ← lift (PyVal.iter reply);
     lift (collect items max_articles [] 0))
    (fun _ => mret []).

(** ** [generate_simple_summary] *)

Definition indent : str := "        ".

(** One element of the list comprehension. *)
Definition article_text (art : pyval) : result str :=
  title ← PyVal.getitem art "title";
  source ← PyVal.getitem art "source";
  body ← PyVal.getitem art "body";
  Ok ("Title: " ++ PyVal.to_str title ++ NL
      ++ "Source: " ++ PyVal.to_str source ++ NL
      ++ "Content: " ++ PyVal.to_str body).

Definition prompt (articles : list pyval) : result str :=
  parts ← mapM article_text articles;
  let articles_text := Py.join (NL ++ NL) parts in
  Ok (Py.join NL
        [ "" : str;
          indent ++ "Create a brief news summary from these articles:";
          indent;
          indent ++ articles_text;
          indent;
          indent ++ "Write a 2-3 paragraph summary highlighting the key points.";
          indent ]).

Definition generate_simple_summary (articles : list pyval) : M str :=
  try_except
    (p ← lift (prompt articles);
     generate_content p)
    (fun _ => mret ("Could not generate summary" : str)).

(** ** [main] and the script *)

(** [imports_ok] says whether the two packages can be imported.  The
    function ends after the demo branch: with both keys set it falls off
    its end and returns [None]. *)
Definition main (imports_ok : bool) : M pyval :=
  if negb imports_ok then mret (PBool false)
  else
    google_key ← getenv "GOOGLE_API_KEY";
    event_key ← getenv "EVENTREGISTRY_API_KEY";
    if falsy_env google_key || falsy_env event_key
    then mret (PBool true)
    else mret PNone.

(** [exit_code = main(); sys.exit(exit_code)] *)
Definition script (imports_ok : bool) : M unit :=
  exit_code ← main imports_ok;
  sys_exit exit_code.

End Backup.

(* ===================================================================== *)
(** * src/clean_functional_news_bot_with_issues_backup.py: [main] *)
(* ===================================================================== *)

Module WithIssuesMain.

Record args := mkArgs {
  keyword : str;
  max_articles : Z;
  style : str
}.

(** [cli] is what [parser.parse_args()] returns, [None] when it exits
    instead; the bare [except:] then reads the settings from the
    environment. *)
Definition parse_args (cli : option args) : M args :=
  match cli with
  | Some a => mret a
  | None =>
      keyword ← getenv_or "INPUT_KEYWORD" "artificial intelligence";
      max_text ← getenv_or "MAX_ARTICLES" "3";
      max_articles ← lift (PyVal.int_of_str max_text);
      style ← getenv_or "INPUT_STYLE" "professional";
      mret (mkArgs keyword max_articles style)
  end.

(** The body of [for i, article in enumerate(articles, 1)]. *)
Definition process (generated_files : list str) (item : Z * pyval)
  : M (list str) :=
  let '(i, article) := item in
  generated ← WithIssues.generate_article_with_gemini (as_dict article);
  if negb (has_error generated)
  then
    filename ← WithIssues.save_article_to_file generated None;
    mret (if PyVal.truthy (PStr filename)
          then generated_files ++ [filename] else generated_files)
  else mret generated_files.

Definition main (cli : option args) (imports_ok : bool) : M bool :=
  a ← parse_args cli;
  if negb imports_ok then mret false
  else
    google_key ← getenv "GOOGLE_API_KEY";
    event_key ← getenv "EVENTREGISTRY_API_KEY";
    if falsy_env google_key || falsy_env event_key
    then mret true
    else
      articles ← WithIssues.fetch_news_articles (keyword a) (max_articles a);
      if negb (PyVal.truthy (PList articles)) then mret false
      else
        generated_files ← for_each (enumerate 1 articles) process [];
        if negb (PyVal.truthy (PList (map PStr generated_files)))
        then mret false
        else
          run_number ← getenv_or "GITHUB_RUN_NUMBER" "local";
          _ ← WithIssues.create_github_issue generated_files (keyword a)
                run_number;
          mret true.

(** [exit_code = 0 if main() else 1; sys.exit(exit_code)] *)
Definition script (cli : option args) (imports_ok : bool) : M unit :=
  ok ← main cli imports_ok;
  sys_exit (PInt (if (ok : bool) then 0 else 1)).

End WithIssuesMain.

(* ===================================================================== *)
(** * Predicates used in the statements and proofs *)
(* ===================================================================== *)

(** Only whitespace. *)
Definition all_space (s : str) : Prop := Forall (fun c => Py.isspace c = true) s.

(** A string is trimmed when stripping either end leaves it unchanged. *)
Definition trimmed (m : str) : Prop := Py.lstrip m = m /\ Py.rstrip m = m.

(** Only characters the filename derivation keeps. *)
Definition kept (s : str) : Prop := Forall (fun c => keep_char c = true) s.

(** Kept characters other than the space. *)
Definition solid (s : str) : Prop :=
  Forall (fun c => keep_char c = true /\ c <> " "%char) s.

(** [doc] has a Markdown section: a line [heading], a blank line, then
    [text], the whole preceded and followed by a line break. *)
Definition has_section (doc heading text : str) : Prop :=
  exists before after,
    doc = before ++ NL ++ heading ++ NL ++ NL ++ text ++ NL ++ after.

(** [doc] has a line that reads [heading]. *)
Definition has_heading (doc heading : str) : bool :=
  Py.startswith doc (heading ++ NL) || Py.contains (NL ++ heading ++ NL) doc.

(** Unfold the operations of the monads in the goal. *)
Ltac monad_unfold :=
  repeat (progress unfold mbind, M_bind, mret, M_ret, result_bind, result_ret,
                   lift, ask, raise, getenv, getenv_or, now_isoformat,
                   now_strftime).

(** Two worlds with the same environment and the same collaborators. *)
Definition same_outside (w w' : World) : Prop :=
  environ w' = environ w
  /\ client_init w' = client_init w
  /\ request_classes w' = request_classes w
  /\ search_reply w' = search_reply w
  /\ generate_reply w' = generate_reply w
  /\ post_reply w' = post_reply w
  /\ can_open w' = can_open w
  /\ strftime w' = strftime w
  /\ json_loads w' = json_loads w
  /\ json_dumps w' = json_dumps w.

(** [w'] is reached from [w] by adding the events [ev] to the trace, with
    the collaborators unchanged. *)
Definition reaches (w w' : World) (ev : list event) : Prop :=
  trace w' = trace w ++ ev /\ same_outside w w'.

(** At most one event, a generation request. *)
Definition at_most_one_generation (ev : list event) : Prop :=
  ev = [] \/ exists p, ev = [EvGenerate p].

(** The counts of the summary report. *)
Definition successes (articles : list dict) : Z :=
  Clean.count_if (fun a => negb (has_error a)) articles.

Definition failures (articles : list dict) : Z :=
  Clean.count_if has_error articles.

(** What holds of the locals of [run] after the articles [seen]. *)
Definition run_invariant (w0 : World) (seen : list (Z * pyval))
           (st : Clean.progress) (w : World) : Prop :=
  len (Clean.generated_articles st) = len seen
  /\ len (Clean.saved_files st) <= successes (Clean.generated_articles st)
  /\ ((forall path, can_open w0 path = true) ->
      len (Clean.saved_files st) = successes (Clean.generated_articles st))
  /\ exists ev, reaches w0 w ev /\ Spec.followed true ev = true.


(** [w] is reached from [w0] by events in which every generation request
    is followed by the 2-unit sleep. *)
Definition paced_from (w0 w : World) : Prop :=
  exists ev, reaches w0 w ev /\ Spec.followed true ev = true.

(** [w] is reached from [w0] by events in which consecutive generation
    requests are separated by the 2-unit sleep. *)
Definition spaced_from (w0 w : World) : Prop :=
  exists ev, reaches w0 w ev /\ Spec.spaced true ev = true.

(** A computation that keeps the pace while it returns normally, and has
    at least kept generation requests apart when it raises. *)
Definition paced_outcome {A} (w0 : World) (r : result A * World) : Prop :=
  match r with
  | (Ok _, w') => paced_from w0 w'
  | (Raise _, w') => spaced_from w0 w'
  end.

(** A result that is a value or an exception [except Exception] catches. *)
Definition ordinary {A} (r : result A) : Prop :=
  match r with
  | Ok _ => True
  | Raise e => is_Exception e = true
  end.

(** A computation that returns normally in every world. *)
Definition returns {A} (m : M A) : Prop :=
  forall w, exists a w', m w = (Ok a, w').

(** A computation that leaves the files as they are, whatever it returns. *)
Definition keeps_files {A} (m : M A) : Prop :=
  forall w, files (m w).2 = files w.

(** The files named in [names] exist and are article files. *)
Definition saved_articles (names : list str) (w : World) : Prop :=
  Forall (fun f => is_Some (files w !! f) /\ Py.startswith f "article_" = true)
    names.

(** The filtering step of the filename derivation in the words of the
    specification: retain the alphanumeric characters, spaces, hyphens and
    underscores, then trim to 50 characters.  It is the generator
    expression of the scripts followed by their slice [[:50]]; the scripts
    themselves strip in between (see [safe_title]). *)
Definition filtering_step (headline : str) : str :=
  Py.slice_to (List.filter keep_char headline) 50.

(** No line break in a string. *)
Definition one_line (s : str) : Prop := Forall (fun c => c <> "010"%char) s.

(** What holds of every title [_extract_title] returns. *)
Definition clean_title (t : str) : Prop :=
  10 < len t /\ trimmed t /\ one_line t
  /\ Forall (fun x => x <> "*"%char) t /\ Forall (fun x => x <> "#"%char) t.

(** A dictionary with exactly the keys [keys], in this order. *)
Definition has_keys (keys : list str) (v : pyval) : Prop :=
  exists d, v = PDict d /\ map fst d = keys.

(** An article of the reply that the loop of [fetch_news] of
    news_bot_clean.py gets through: the dictionary can be built from it and
    its title preview can be printed. *)
Definition clean_convertible (article : pyval) : Prop :=
  (exists a, Clean.convert_article article = Ok a)
  /\ (exists p, Clean.title_preview article = Ok p).

(** An article as [fetch_news] of src/news_bot.py builds it: the six keys,
    a title without surrounding whitespace and a body of at most 2000
    characters. *)
Definition newsbot_article (a : pyval) : Prop :=
  exists (title body : str) (url source date : pyval) (authors : list pyval),
    a = PDict [("title" : str, PStr title); ("body" : str, PStr body);
               ("url" : str, url); ("source" : str, source);
               ("date" : str, date); ("authors" : str, PList authors)]
    /\ Py.strip title = title /\ len body <= 2000.

(** An article as [fetch_simple_news] builds it: the body is a string of at
    most 503 characters that ends with three dots. *)
Definition simple_article (a : pyval) : Prop :=
  exists (title : pyval) (body : str) (source url date : pyval),
    a = PDict [("title" : str, title); ("body" : str, PStr (body ++ "..."));
               ("source" : str, source); ("url" : str, url);
               ("date" : str, date)]
    /\ len body <= 500.

(** The pauses among the events: the seconds of each [time.sleep], in
    order. *)
Definition sleeps (ev : list event) : list Z :=
  omap (fun e => match e with EvSleep n => Some n | _ => None end) ev.

(** How many of the events are generation requests, search requests. *)
Definition generations (ev : list event) : nat :=
  length (filter (fun e => is_generate e = true) ev).

Definition searches (ev : list event) : nat :=
  length (filter (fun e => is_search e = true) ev).

(** What holds of the requests and of the pauses of [run] of
    news_bot_clean.py after the articles [seen]. *)
Definition run_requests (w0 : World) (seen : list (Z * pyval))
           (st : Clean.progress) (w : World) : Prop :=
  exists ev,
    reaches w0 w ev
    /\ sleeps ev = replicate (length seen) 2
    /\ (generations ev <= length seen)%nat
    /\ searches ev = 0%nat.

(** The files named in [names] hold rendered articles of the backup
    script, none of them a failed generation. *)
Definition rendered_articles (names : list str) (w : World) : Prop :=
  Forall (fun f => exists article doc,
              files w !! f = Some doc
              /\ WithIssues.render article = Ok doc
              /\ has_error article = false)
    names.

(* ===================================================================== *)
(** * Facts about the string operations *)
(* ===================================================================== *)

Section StringFacts.

Implicit Types (s p a b m : str) (c : ascii).

Lemma len_app {A} (x y : list A) : len (x ++ y) = len x + len y.
Proof. unfold len. rewrite length_app. lia. Qed.

Lemma len_nonneg {A} (x : list A) : 0 <= len x.
Proof. unfold len. lia. Qed.

Lemma clamp_inside n i : 0 <= i <= n -> Py.clamp n i = i.
Proof.
  intros H. unfold Py.clamp. cbv zeta.
  do 2 (destruct (Z.ltb_spec i 0); [lia|]).
  destruct (Z.ltb_spec n i); lia.
Qed.

Lemma clamp_above n i : 0 <= n <= i -> Py.clamp n i = n.
Proof.
  intros H. unfold Py.clamp. cbv zeta.
  do 2 (destruct (Z.ltb_spec i 0); [lia|]).
  destruct (Z.ltb_spec n i); lia.
Qed.

Lemma slice_to_take {A} (l : list A) n :
  0 <= n -> Py.slice_to l n = take (Z.to_nat n) l.
Proof.
  intros Hn. unfold Py.slice_to.
  destruct (Z.le_gt_cases n (len l)) as [Hle|Hgt].
  - rewrite clamp_inside by lia. reflexivity.
  - rewrite clamp_above by (pose proof (len_nonneg l); lia).
    unfold len in *. rewrite Nat2Z.id.
    rewrite !take_ge; [reflexivity| lia | lia].
Qed.

Lemma slice_from_drop {A} (l : list A) n :
  0 <= n <= len l -> Py.slice_from l n = drop (Z.to_nat n) l.
Proof. intros H. unfold Py.slice_from. by rewrite clamp_inside. Qed.

Lemma slice_take_drop {A} (l : list A) i j :
  0 <= i <= j -> j <= len l ->
  Py.slice l i j = take (Z.to_nat (j - i)) (drop (Z.to_nat i) l).
Proof.
  intros Hi Hj. unfold Py.slice. rewrite !clamp_inside by lia. reflexivity.
Qed.

(** ** Whitespace *)

Lemma isalnum_not_space c : Py.isalnum c = true -> Py.isspace c = false.
Proof.
  destruct c as [[] [] [] [] [] [] [] []]; vm_compute; congruence.
Qed.

Lemma keep_char_space c :
  keep_char c = true -> Py.isspace c = true -> c = " "%char.
Proof.
  destruct c as [[] [] [] [] [] [] [] []]; vm_compute; congruence.
Qed.

Lemma lstrip_all_space a s : all_space a -> Py.lstrip (a ++ s) = Py.lstrip s.
Proof.
  induction 1 as [|c a Hc _ IH]; [done|]. cbn. by rewrite Hc.
Qed.

Lemma lstrip_space_nil a : all_space a -> Py.lstrip a = [].
Proof.
  intros H. rewrite <- (app_nil_r a). by rewrite lstrip_all_space.
Qed.

Lemma lstrip_head c s : Py.isspace c = false -> Py.lstrip (c :: s) = c :: s.
Proof. intros H. cbn. by rewrite H. Qed.

Lemma lstrip_fixed_head c s : Py.lstrip (c :: s) = c :: s -> Py.isspace c = false.
Proof.
  cbn. destruct (Py.isspace c) eqn:E; [|done].
  intros H. exfalso.
  assert (Hlen : forall t, (length (Py.lstrip t) <= length t)%nat).
  { induction t as [|d t IH]; cbn; [lia|]. destruct (Py.isspace d); cbn; lia. }
  specialize (Hlen s). rewrite H in Hlen. cbn in Hlen. lia.
Qed.

Lemma lstrip_idem s : Py.lstrip (Py.lstrip s) = Py.lstrip s.
Proof.
  induction s as [|c s IH]; [done|]. cbn.
  destruct (Py.isspace c) eqn:E; [done|]. cbn. by rewrite E.
Qed.

Lemma lstrip_app_keep s b : Py.lstrip s <> [] -> Py.lstrip (s ++ b) = Py.lstrip s ++ b.
Proof.
  induction s as [|c s IH]; [done|]. cbn.
  destruct (Py.isspace c); [exact IH | done].
Qed.

Lemma lstrip_suffix s : exists a, s = a ++ Py.lstrip s /\ all_space a.
Proof.
  induction s as [|c s (a & Ha & Hsp)].
  { exists []. split; [done | constructor]. }
  cbn. destruct (Py.isspace c) eqn:E.
  - exists (c :: a). split; [cbn; by rewrite <- Ha | by constructor].
  - exists []. split; [done | constructor].
Qed.

Lemma all_space_reverse a : all_space a -> all_space (reverse a).
Proof. unfold all_space. by rewrite Forall_reverse. Qed.

Lemma rstrip_all_space s b : all_space b -> Py.rstrip (s ++ b) = Py.rstrip s.
Proof.
  intros H. unfold Py.rstrip. rewrite reverse_app.
  rewrite lstrip_all_space; [done | by apply all_space_reverse].
Qed.

Lemma rstrip_cons c s :
  Py.isspace c = false -> Py.rstrip (c :: s) = c :: Py.rstrip s.
Proof.
  intros Hc. unfold Py.rstrip. rewrite reverse_cons.
  destruct (decide (Py.lstrip (reverse s) = [])) as [E|E].
  - destruct (lstrip_suffix (reverse s)) as (a & Ha & Hsp).
    rewrite E, app_nil_r in Ha. rewrite Ha at 1.
    rewrite lstrip_all_space by done. rewrite E. cbn. by rewrite Hc.
  - rewrite lstrip_app_keep by done. by rewrite reverse_snoc.
Qed.

Lemma rstrip_idem s : Py.rstrip (Py.rstrip s) = Py.rstrip s.
Proof. unfold Py.rstrip. by rewrite reverse_involutive, lstrip_idem. Qed.

Lemma strip_trimmed s : trimmed (Py.strip s).
Proof.
  unfold trimmed, Py.strip. split; [|apply rstrip_idem].
  destruct (Py.lstrip s) as [|c r] eqn:E; [done|].
  assert (Hc : Py.isspace c = false).
  { apply (lstrip_fixed_head c r). rewrite <- E. apply lstrip_idem. }
  rewrite rstrip_cons by done. by apply lstrip_head.
Qed.

Lemma strip_of_trimmed m : trimmed m -> Py.strip m = m.
Proof. intros [H1 H2]. unfold Py.strip. by rewrite H1. Qed.

(** Stripping removes exactly the surrounding whitespace. *)
Lemma strip_pad a m b :
  all_space a -> all_space b -> trimmed m -> Py.strip (a ++ m ++ b) = m.
Proof.
  intros Ha Hb [Hl Hr]. unfold Py.strip. rewrite lstrip_all_space by done.
  destruct m as [|c r].
  - cbn [app]. rewrite lstrip_space_nil by exact Hb. reflexivity.
  - assert (Hc : Py.isspace c = false) by by apply (lstrip_fixed_head c r).
    cbn [app]. rewrite lstrip_head by done.
    change (c :: r ++ b) with ((c :: r) ++ b).
    by rewrite rstrip_all_space.
Qed.

Lemma strip_idem s : Py.strip (Py.strip s) = Py.strip s.
Proof. apply strip_of_trimmed, strip_trimmed. Qed.

End StringFacts.

(* ===================================================================== *)
(** * Filename derivation *)
(* ===================================================================== *)

Section SafeTitle.

Implicit Types (s t : str) (c : ascii).

Lemma filter_kept s : kept s -> List.filter keep_char s = s.
Proof.
  induction 1 as [|c s Hc _ IH]; [done|]. cbn. by rewrite Hc, IH.
Qed.

Lemma kept_filter s : kept (List.filter keep_char s).
Proof.
  induction s as [|c s IH]; [constructor|]. cbn.
  destruct (keep_char c) eqn:E; [by constructor | done].
Qed.

Lemma kept_lstrip s : kept s -> kept (Py.lstrip s).
Proof.
  induction 1 as [|c s Hc Hs IH]; [constructor|]. cbn.
  destruct (Py.isspace c); [done | by constructor].
Qed.

Lemma kept_strip s : kept s -> kept (Py.strip s).
Proof.
  intros H. unfold Py.strip, Py.rstrip, kept.
  rewrite Forall_reverse. apply kept_lstrip. unfold kept.
  rewrite Forall_reverse. by apply kept_lstrip.
Qed.

Lemma kept_take n s : kept s -> kept (take n s).
Proof. apply Forall_take. Qed.

Lemma safe_title_unfold t :
  safe_title t = take 50 (Py.strip (List.filter keep_char t)).
Proof. unfold safe_title. by rewrite slice_to_take. Qed.

Lemma kept_safe_title t : kept (safe_title t).
Proof. rewrite safe_title_unfold. apply kept_take, kept_strip, kept_filter. Qed.

Lemma length_lstrip s : (length (Py.lstrip s) <= length s)%nat.
Proof.
  induction s as [|c s IH]; cbn; [lia|]. destruct (Py.isspace c); cbn; lia.
Qed.

Lemma length_strip s : (length (Py.strip s) <= length s)%nat.
Proof.
  unfold Py.strip, Py.rstrip. rewrite length_reverse.
  etrans; [apply length_lstrip|]. rewrite length_reverse. apply length_lstrip.
Qed.

(** A second application only strips what the cut at 50 left behind. *)
Lemma safe_title_twice t : safe_title (safe_title t) = Py.strip (safe_title t).
Proof.
  rewrite (safe_title_unfold (safe_title t)).
  rewrite filter_kept by apply kept_safe_title.
  apply take_ge. etrans; [apply length_strip|].
  rewrite safe_title_unfold, length_take. lia.
Qed.

Lemma safe_title_thrice t :
  safe_title (safe_title (safe_title t)) = safe_title (safe_title t).
Proof. rewrite (safe_title_twice (safe_title t)), safe_title_twice. apply strip_idem. Qed.

(** The last character of a non-empty trimmed string is no whitespace. *)
Lemma rstrip_snoc s c : Py.isspace c = false -> Py.rstrip (s ++ [c]) = s ++ [c].
Proof.
  intros H. unfold Py.rstrip. rewrite reverse_snoc, lstrip_head by done.
  by rewrite reverse_cons, reverse_involutive.
Qed.

Lemma take_trimmed n s :
  trimmed s ->
  (length s <= n)%nat \/ (exists c, s !! (n - 1)%nat = Some c /\ Py.isspace c = false) ->
  trimmed (take n s).
Proof.
  intros Htr [Hle | (c & Hc & Hsp)].
  { by rewrite take_ge. }
  destruct n as [|n]; [done|].
  replace (S n - 1)%nat with n in Hc by lia.
  destruct Htr as [Hl _]. split.
  - destruct s as [|d s]; [done|]. cbn.
    apply lstrip_fixed_head in Hl. by rewrite Hl.
  - rewrite (take_S_r _ _ _ Hc). by apply rstrip_snoc.
Qed.

(** ** The variant of src/news_bot.py *)

Lemma solid_no_space s : solid s -> Forall (fun c => Py.isspace c = false) s.
Proof.
  intros H. eapply Forall_impl; [exact H|]. intros c [Hk Hne].
  destruct (Py.isspace c) eqn:E; [|done]. by apply keep_char_space in E.
Qed.

Lemma no_space_lstrip s :
  Forall (fun c => Py.isspace c = false) s -> Py.lstrip s = s.
Proof. destruct 1 as [|c s Hc _]; [done|]. by apply lstrip_head. Qed.

Lemma no_space_trimmed s :
  Forall (fun c => Py.isspace c = false) s -> trimmed s.
Proof.
  intros H. split; [by apply no_space_lstrip|].
  unfold Py.rstrip. rewrite no_space_lstrip by by apply Forall_reverse.
  apply reverse_involutive.
Qed.

Lemma solid_replace s : kept s -> solid (Py.replace_char " " "_" s).
Proof.
  unfold solid, Py.replace_char. intros H. apply Forall_map.
  eapply Forall_impl; [exact H|]. intros c Hc. cbn.
  destruct (decide (c = " "%char)); [by vm_compute | done].
Qed.

Lemma replace_solid s : solid s -> Py.replace_char " " "_" s = s.
Proof.
  induction 1 as [|c s [_ Hc] _ IH]; [done|]. cbn.
  rewrite decide_False by done. by f_equal.
Qed.

Lemma solid_kept s : solid s -> kept s.
Proof. intros H. eapply Forall_impl; [exact H|]. by intros c [? _]. Qed.

Lemma newsbot_safe_title_unfold t :
  NewsBot.safe_title t
  = take 50 (Py.replace_char " " "_" (Py.strip (List.filter keep_char t))).
Proof. unfold NewsBot.safe_title. by rewrite slice_to_take. Qed.

Lemma solid_newsbot_safe_title t : solid (NewsBot.safe_title t).
Proof.
  rewrite newsbot_safe_title_unfold. apply Forall_take, solid_replace.
  apply kept_strip, kept_filter.
Qed.

Lemma newsbot_safe_title_idempotent t :
  NewsBot.safe_title (NewsBot.safe_title t) = NewsBot.safe_title t.
Proof.
  pose proof (solid_newsbot_safe_title t) as Hs.
  rewrite (newsbot_safe_title_unfold (NewsBot.safe_title t)).
  rewrite filter_kept by by apply solid_kept.
  rewrite strip_of_trimmed by by apply no_space_trimmed, solid_no_space.
  rewrite replace_solid by done.
  apply take_ge. rewrite newsbot_safe_title_unfold, length_take. lia.
Qed.

End SafeTitle.

(** The whole expression of the scripts, with [strip] between the filter
    and the cut, applied to its own result: it gives the same string when
    the stripped, filtered headline has at most 50 characters or its 50th
    character is not whitespace, and the variant of src/news_bot.py does
    so for every headline. *)
Lemma safe_title_idempotent (title : str) :
  (((length (Py.strip (List.filter keep_char title)) <= 50)%nat
    \/ (exists c, Py.strip (List.filter keep_char title) !! 49%nat = Some c
                  /\ Py.isspace c = false)) ->
   safe_title (safe_title title) = safe_title title)
  /\ NewsBot.safe_title (NewsBot.safe_title title) = NewsBot.safe_title title.
Proof.
  split; [|apply newsbot_safe_title_idempotent].
  intros H. rewrite safe_title_twice. apply strip_of_trimmed.
  rewrite safe_title_unfold. apply take_trimmed; [apply strip_trimmed | exact H].
Qed.

(** Stripping again is what can change a stem: when the cut at 50
    characters falls right after a space, the stem ends in that space. *)
Example safe_title_ends_in_space :
  let headline : str := replicate 49 "a"%char ++ " b" in
  safe_title headline = replicate 49 "a"%char ++ " "
  /\ Py.strip (safe_title headline) = replicate 49 "a"%char
  /\ filtering_step (safe_title headline) = safe_title headline.
Proof. vm_compute. by repeat split. Qed.

(** C9.  The character-filtering step of the filename derivation ---
    retain only the alphanumeric characters, spaces, hyphens and
    underscores; trim to 50 characters --- is idempotent: for every
    headline, applying it to an already-filtered headline produces the
    same string.  This holds of the step applied to its own result, and of
    the step applied to the stem either script derives from the headline
    ([safe_title] of news_bot_clean.py and of the backup script, and the
    variant of src/news_bot.py). *)
Theorem filtering_step_idempotent (headline : str) :
  filtering_step (filtering_step headline) = filtering_step headline
  /\ filtering_step (safe_title headline) = safe_title headline
  /\ filtering_step (NewsBot.safe_title headline) = NewsBot.safe_title headline.
Proof.
  unfold filtering_step. rewrite !slice_to_take by lia.
  change (Z.to_nat 50) with 50%nat. repeat split.
  - rewrite filter_kept by apply kept_take, kept_filter.
    apply take_ge. rewrite length_take. lia.
  - rewrite filter_kept by apply kept_safe_title.
    apply take_ge. rewrite safe_title_unfold, length_take. lia.
  - rewrite filter_kept by apply solid_kept, solid_newsbot_safe_title.
    apply take_ge. rewrite newsbot_safe_title_unfold, length_take. lia.
Qed.

(* ===================================================================== *)
(** * Searching, and the marker-delimited extraction (C2) *)
(* ===================================================================== *)

Section Searching.

Implicit Types (s p m : str) (c : ascii).

Lemma startswith_nil s : Py.startswith s [] = true.
Proof. by destruct s. Qed.

Lemma startswith_length s p :
  Py.startswith s p = true -> (length p <= length s)%nat.
Proof.
  revert s. induction p as [|c p IH]; intros [|d s]; cbn; try lia; try done.
  destruct (decide (c = d)); [|done]. intros H%IH. lia.
Qed.

Lemma startswith_app s t : Py.startswith (s ++ t) s = true.
Proof.
  induction s as [|c s IH]; [apply startswith_nil|]. cbn.
  by rewrite decide_True.
Qed.

Lemma search_Some p s i :
  Py.search p s = Some i ->
  Py.startswith (drop i s) p = true /\ (i + length p <= length s)%nat.
Proof.
  revert i. induction s as [|c s IH]; intros i.
  - cbn. destruct p; cbn; [|done]. intros [= <-]. split; [done | cbn; lia].
  - cbn [Py.search]. destruct (Py.startswith (c :: s) p) eqn:E.
    + intros [= <-]. split; [done|]. apply startswith_length in E. lia.
    + destruct (Py.search p s) as [j|] eqn:Ej; [|done].
      cbn. intros [= <-]. destruct (IH j eq_refl) as [H1 H2].
      split; [done | cbn; lia].
Qed.

Lemma contains_true p s : Py.contains p s = true <-> is_Some (Py.search p s).
Proof. unfold Py.contains. by rewrite bool_decide_eq_true. Qed.

Lemma contains_false p s : Py.contains p s = false <-> Py.search p s = None.
Proof.
  unfold Py.contains. rewrite bool_decide_eq_false.
  by rewrite <- eq_None_not_Some.
Qed.

Lemma find_from s p start :
  0 <= start <= len s ->
  Py.find s p start
  = match Py.search p (drop (Z.to_nat start) s) with
    | Some i => start + Z.of_nat i
    | None => -1
    end.
Proof.
  intros H. unfold Py.find.
  destruct (Z.ltb_spec start 0); [lia|].
  destruct (Z.ltb_spec (len s) start); [lia|]. reflexivity.
Qed.

Lemma find_range s p start :
  0 <= start <= len s ->
  Py.find s p start = -1
  \/ (start <= Py.find s p start /\ Py.find s p start + len p <= len s).
Proof.
  intros H. rewrite find_from by done.
  destruct (Py.search p _) as [i|] eqn:E; [right | by left].
  apply search_Some in E as [_ E]. rewrite length_drop in E.
  unfold len in *. lia.
Qed.

Lemma contains_slice_from s m start :
  0 <= start <= len s ->
  Py.contains m (Py.slice_from s start) = (0 <=? Py.find s m start).
Proof.
  intros H. rewrite slice_from_drop, find_from by done.
  destruct (Py.search m _) as [i|] eqn:E.
  - rewrite (proj2 (contains_true _ _)) by (rewrite E; eauto).
    symmetry. apply Z.leb_le. lia.
  - by rewrite (proj2 (contains_false _ _)).
Qed.

(** The section start computed from the first occurrence lies inside the
    text. *)
Lemma start_in_range content marker :
  Py.contains marker content = true ->
  0 <= Py.find content marker 0 + len marker <= len content.
Proof.
  intros [i Hi]%contains_true.
  rewrite find_from by (pose proof (len_nonneg content); lia).
  change (Z.to_nat 0) with 0%nat. rewrite drop_0, Hi.
  apply search_Some in Hi as [_ Hi]. unfold len. lia.
Qed.

Lemma startswith_two (s : str) x y :
  Py.startswith s [x; y] = true <-> exists t, s = x :: y :: t.
Proof.
  split.
  - destruct s as [|a [|b t]]; cbn; try done.
    + by destruct (decide (x = a)).
    + destruct (decide (x = a)) as [->|]; [|done].
      destruct (decide (y = b)) as [->|]; [|done]. eauto.
  - intros [t ->]. cbn. rewrite !decide_True by done. apply startswith_nil.
Qed.

(** A blank line right after [sec], with none inside, is the first one. *)
Lemma search_blank_line sec rest :
  Py.contains (NL ++ NL) (sec ++ NL) = false ->
  Py.search (NL ++ NL) (sec ++ NL ++ NL ++ rest) = Some (length sec).
Proof.
  rewrite contains_false. unfold NL. cbn [app].
  induction sec as [|c sec IH].
  - intros _. cbn [Py.search app length].
    by rewrite (proj2 (startswith_two _ _ _)) by eauto.
  - cbn [app Py.search length].
    destruct (Py.startswith (c :: sec ++ ["010"%char]) _) eqn:E; [done|].
    destruct (Py.search _ (sec ++ _)) eqn:E2; [done|]. intros _.
    rewrite IH by done.
    destruct (Py.startswith (c :: sec ++ _ :: _ :: rest) _) eqn:E3; [|done].
    exfalso. apply startswith_two in E3 as [t Ht].
    assert (Py.startswith (c :: sec ++ ["010"%char]) ["010"%char; "010"%char] = true); [|congruence].
    apply startswith_two. injection Ht as -> Ht.
    destruct sec as [|d sec]; cbn in *; [eauto|].
    injection Ht as -> _. eauto.
Qed.

End Searching.

Section ExtractSection.

Variables content marker : str.

Let start := Py.find content marker 0 + len marker.

(** Given that the marker does not occur again after its first
    occurrence, the loop of the code and the "next recognized marker" of
    the specification agree. *)
Lemma next_marker_pos_spec :
  Py.contains marker content = true ->
  Py.find content marker start = -1 ->
  Clean.next_marker_pos content marker start
  = Spec.next_recognized_marker content start.
Proof.
  intros Hin Hagain.
  pose proof (start_in_range _ _ Hin) as Hstart. fold start in Hstart.
  unfold Clean.next_marker_pos, Spec.next_recognized_marker.
  generalize (len content). generalize Clean.markers.
  induction l as [|m l IH]; intros acc; [done|]. cbn [fold_left].
  rewrite IH. f_equal.
  rewrite contains_slice_from by done.
  destruct (decide (m = marker)) as [->|Hne].
  - rewrite bool_decide_eq_true_2 by done. cbn. by rewrite Hagain.
  - rewrite bool_decide_eq_false_2 by done. cbn.
    by destruct (0 <=? Py.find content m start).
Qed.

Lemma extract_section_absent :
  Py.contains marker content = false ->
  Clean._extract_section content marker = [].
Proof. intros H. unfold Clean._extract_section. by rewrite H. Qed.

Lemma extract_section_refines :
  Py.contains marker content = true ->
  Py.find content (NL ++ NL) start = -1 ->
  Py.find content marker start = -1 ->
  Clean._extract_section content marker = Spec.extract content marker.
Proof.
  intros Hin Hblank Hagain.
  unfold Clean._extract_section, Spec.extract. rewrite Hin.
  fold start. cbv zeta. rewrite Hblank. cbn [Z.eqb].
  by rewrite next_marker_pos_spec.
Qed.

End ExtractSection.

Lemma extract_section_blank_line (pre marker sec rest : str) :
  let content := pre ++ marker ++ sec ++ NL ++ NL ++ rest in
  Py.find content marker 0 = len pre ->
  Py.contains (NL ++ NL) (sec ++ NL) = false ->
  Clean._extract_section content marker = Py.strip sec.
Proof.
  intros content Hfirst Hblank.
  assert (Hlen : len content = len pre + len marker + len sec + 2 + len rest).
  { unfold content. rewrite !len_app. unfold NL, len. cbn. lia. }
  pose proof (len_nonneg pre). pose proof (len_nonneg marker).
  pose proof (len_nonneg sec). pose proof (len_nonneg rest).
  assert (Hin : Py.contains marker content = true).
  { apply contains_true. revert Hfirst.
    rewrite find_from by lia. change (Z.to_nat 0) with 0%nat. rewrite drop_0.
    destruct (Py.search marker content); [eauto | lia]. }
  unfold Clean._extract_section. rewrite Hin, Hfirst. cbv zeta.
  assert (Hdrop : drop (Z.to_nat (len pre + len marker)) content
                  = sec ++ NL ++ NL ++ rest).
  { unfold content, len. rewrite <- Nat2Z.inj_add, Nat2Z.id.
    rewrite app_assoc, <- length_app. apply drop_app_length. }
  assert (Hend : Py.find content (NL ++ NL) (len pre + len marker)
                 = len pre + len marker + len sec).
  { rewrite find_from by lia. rewrite Hdrop.
    rewrite search_blank_line by done. unfold len. lia. }
  rewrite Hend.
  destruct (Z.eqb_spec (len pre + len marker + len sec) (-1)); [lia|].
  rewrite slice_take_drop by lia. rewrite Hdrop.
  replace (Z.to_nat (len pre + len marker + len sec - (len pre + len marker)))
    with (length sec) by (unfold len; lia).
  by rewrite take_app_length.
Qed.

(** C2 (amended).  For every text and marker: a marker that does not occur
    yields the empty string; when the marker occurs, no blank line follows
    its first occurrence and the marker itself does not occur again, the
    field is the trimmed substring from just after the marker up to the next
    recognized marker or the end of the text, as the specification says;
    when a blank line follows the first occurrence and no recognized marker
    stands between the two, the field is the trimmed text between the marker
    and the first such blank line. *)
Theorem extract_section_amended (content marker : str) :
  let start := Py.find content marker 0 + len marker in
  (Py.contains marker content = false ->
   Clean._extract_section content marker = [])
  /\ (Py.contains marker content = true ->
      Py.find content (NL ++ NL) start = -1 ->
      Py.find content marker start = -1 ->
      Clean._extract_section content marker = Spec.extract content marker)
  /\ (forall pre sec rest,
        content = pre ++ marker ++ sec ++ NL ++ NL ++ rest ->
        Py.find content marker 0 = len pre ->
        Py.contains (NL ++ NL) (sec ++ NL) = false ->
        Forall (fun m => Py.contains m sec = false) Clean.markers ->
        Clean._extract_section content marker = Py.strip sec).
Proof.
  intros start. split; [apply extract_section_absent|].
  split; [apply extract_section_refines|].
  intros pre sec rest -> Hfirst Hblank _.
  by apply extract_section_blank_line.
Qed.

(** The example of the specification: each field of
    ["HEADLINE: A\nLEAD: B\nBODY: C\nCONCLUSION: D"] comes out without any
    marker name. *)
Lemma extract_section_amended_witness :
  Clean._extract_section Scenario.marked_text "HEADLINE:" = "A"
  /\ Clean._extract_section Scenario.marked_text "LEAD:" = "B"
  /\ Clean._extract_section Scenario.marked_text "BODY:" = "C"
  /\ Clean._extract_section Scenario.marked_text "CONCLUSION:" = "D"
  /\ Clean._extract_section Scenario.marked_text "TAGS:" = ""
  /\ Clean._extract_section
       ("HEADLINE: A" ++ NL ++ "BODY: first" ++ NL ++ NL ++ "second") "BODY:"
     = "first".
Proof.
  refine (conj _ (conj _ (conj _ (conj _ (conj _ _))))).
  - rewrite (proj1 (proj2 (extract_section_amended Scenario.marked_text "HEADLINE:")))
      by (vm_compute; reflexivity).
    vm_compute; reflexivity.
  - rewrite (proj1 (proj2 (extract_section_amended Scenario.marked_text "LEAD:")))
      by (vm_compute; reflexivity).
    vm_compute; reflexivity.
  - rewrite (proj1 (proj2 (extract_section_amended Scenario.marked_text "BODY:")))
      by (vm_compute; reflexivity).
    vm_compute; reflexivity.
  - rewrite (proj1 (proj2 (extract_section_amended Scenario.marked_text "CONCLUSION:")))
      by (vm_compute; reflexivity).
    vm_compute; reflexivity.
  - apply (proj1 (extract_section_amended Scenario.marked_text "TAGS:")).
    vm_compute; reflexivity.
  - transitivity (Py.strip " first"); [|vm_compute; reflexivity].
    apply (proj2 (proj2 (extract_section_amended
                           ("HEADLINE: A" ++ NL ++ "BODY: first" ++ NL ++ NL
                            ++ "second") "BODY:"))
             ("HEADLINE: A" ++ NL) " first" "second").
    + vm_compute; reflexivity.
    + vm_compute; reflexivity.
    + vm_compute; reflexivity.
    + repeat (constructor; [vm_compute; reflexivity|]). constructor.
Defined.

(** C2 (as stated) fails: a blank line inside the body ends the field
    there, although no marker follows and the text goes on. *)
Lemma extract_section_stops_at_blank_line :
  let text : str :=
    "HEADLINE: A" ++ NL ++ "BODY: first" ++ NL ++ NL ++ "second" in
  Py.contains "BODY:" text = true
  /\ Spec.extract text "BODY:" = "first" ++ NL ++ NL ++ "second"
  /\ Clean._extract_section text "BODY:" = "first"
  /\ Clean._extract_section text "BODY:" <> Spec.extract text "BODY:".
Proof. vm_compute. refine (conj _ (conj _ (conj _ _))); [done..|discriminate]. Qed.

(** The blank line is looked for before any marker: when the lead ends
    with one, the headline field runs up to it, past the [LEAD:] marker. *)
Example extract_section_runs_past_marker :
  let text : str := "HEADLINE: A" ++ NL ++ "LEAD: B" ++ NL ++ NL ++ "BODY: C" in
  Clean._extract_section text "HEADLINE:" = "A" ++ NL ++ "LEAD: B".
Proof. vm_compute. reflexivity. Qed.

(** The other example of the specification: a lone headline. *)
Example extract_section_only_headline :
  map (Clean._extract_section "HEADLINE: Only this") Clean.markers
  = ["Only this" : str; "" : str; "" : str; "" : str].
Proof. vm_compute. reflexivity. Qed.

(* ===================================================================== *)
(** * Saving articles (C10, C1) *)
(* ===================================================================== *)

(** C10.  An article record that carries the failure mark (an ["error"]
    key) is never persisted: each of the three save functions returns the
    empty path and leaves the world, its files included, as it was. *)
Theorem save_skips_failures (article : dict) (filename : option str) (w : World) :
  has_error article = true ->
  Clean.save_article article filename w = (Ok [], w)
  /\ Action.save_article_to_markdown article filename w = (Ok [], w)
  /\ WithIssues.save_article_to_file article filename w = (Ok [], w).
Proof.
  intros H.
  unfold Clean.save_article, Action.save_article_to_markdown,
    WithIssues.save_article_to_file.
  rewrite H. by repeat split.
Qed.

Lemma save_skips_failures_witness :
  let failure := Clean.generation_failure [] (RemoteFailure Quota "quota exceeded") in
  Clean.save_article failure (Some ("a.md" : str)) Scenario.quiet
  = (Ok [], Scenario.quiet)
  /\ Action.save_article_to_markdown failure (Some ("a.md" : str)) Scenario.quiet
     = (Ok [], Scenario.quiet)
  /\ WithIssues.save_article_to_file failure (Some ("a.md" : str)) Scenario.quiet
     = (Ok [], Scenario.quiet).
Proof.
  apply (save_skips_failures
           (Clean.generation_failure [] (RemoteFailure Quota "quota exceeded"))).
  vm_compute. reflexivity.
Defined.

Lemma join_cons2 (sep x y : str) (rest : list str) :
  Py.join sep (x :: y :: rest) = x ++ sep ++ Py.join sep (y :: rest).
Proof. reflexivity. Qed.

Lemma join_app (sep : str) (xs ys : list str) :
  xs <> [] -> ys <> [] ->
  Py.join sep (xs ++ ys) = Py.join sep xs ++ sep ++ Py.join sep ys.
Proof.
  intros Hx Hy. induction xs as [|x [|x' xs] IH]; [done| |].
  - destruct ys; [done|]. reflexivity.
  - change ((x :: x' :: xs) ++ ys) with (x :: (x' :: xs) ++ ys).
    cbn [app]. rewrite !join_cons2. cbn [app] in IH. rewrite IH by done.
    by rewrite <- !app_assoc.
Qed.

(** The document of news_bot_clean.py always has its Conclusion section. *)
Lemma clean_render_conclusion (article : dict) :
  has_section (Clean.render article) "## Conclusion"
    (Clean.field article "conclusion" "N/A").
Proof.
  unfold has_section, Clean.render.
  match goal with
  | |- context [Py.join NL (?l0 :: ?l1 :: ?l2 :: ?l3 :: ?l4 :: ?l5 :: ?l6 :: ?l7
                              :: ?l8 :: ?l9 :: ?l10 :: ?l11 :: ?l12 :: ?l13
                              :: ?l14 :: ?l15 :: ?l16 :: ?rest)] =>
      exists (Py.join NL [l0; l1; l2; l3; l4; l5; l6; l7; l8; l9; l10; l11; l12;
                          l13; l14; l15; l16]);
      exists (Py.join NL (drop 3 rest));
      change (l0 :: l1 :: l2 :: l3 :: l4 :: l5 :: l6 :: l7 :: l8 :: l9 :: l10
                :: l11 :: l12 :: l13 :: l14 :: l15 :: l16 :: rest)
        with ([l0; l1; l2; l3; l4; l5; l6; l7; l8; l9; l10; l11; l12; l13; l14;
               l15; l16] ++ take 3 rest ++ drop 3 rest)
  end.
  rewrite join_app by done. apply (f_equal (app _)), (f_equal (app _)).
  cbn [take drop]. rewrite join_app by done. cbn [Py.join].
  by rewrite <- !app_assoc.
Qed.

(** For every article without the failure mark that news_bot_clean.py saves
    under a given name, the file written holds a ["## Conclusion"] heading
    followed by a blank line and the conclusion text --- whether or not that
    text is empty. *)
Lemma clean_save_always_has_conclusion
        (article : dict) (filename : str) (w : World) :
  has_error article = false ->
  filename <> [] ->
  can_open w filename = true ->
  exists doc,
    Clean.save_article article (Some filename) w
    = (Ok filename, with_files (<[filename := doc]> (files w)) w)
    /\ has_section doc "## Conclusion" (Clean.field article "conclusion" "N/A").
Proof.
  intros Herr Hname Hopen. exists (Clean.render article).
  split; [|apply clean_render_conclusion].
  unfold Clean.save_article. rewrite Herr. cbn [negb].
  assert (Htruthy : PyVal.truthy (from_option PStr PNone (Some filename)) = true).
  { cbn. by rewrite bool_decide_eq_false_2. }
  rewrite Htruthy.
  unfold mbind, M_bind, mret, M_ret, try_except, write_file. cbn.
  by rewrite Hopen.
Qed.

Example clean_save_has_conclusion :
  let article := Clean.parse_response [] Scenario.marked_text "t0" in
  exists doc,
    Clean.save_article article (Some ("a.md" : str)) Scenario.quiet
    = (Ok ("a.md" : str),
       with_files (<[("a.md" : str) := doc]> (files Scenario.quiet)) Scenario.quiet)
    /\ has_section doc "## Conclusion" "D".
Proof.
  apply (clean_save_always_has_conclusion
           (Clean.parse_response [] Scenario.marked_text "t0") "a.md"
           Scenario.quiet).
  - vm_compute. reflexivity.
  - discriminate.
  - reflexivity.
Qed.

(** In news_bot_action.py the Markdown text is never produced: whatever
    the article, evaluating the f-string raises --- [NameError] at the
    field [{conclusion_section}], unless joining the tags already raised. *)
Lemma action_render_raises (locals article : dict) :
  Dict.get locals "conclusion_section" = None ->
  exists e, Action.render locals article = Raise e.
Proof.
  intros H. unfold Action.render, load_name. rewrite H.
  destruct (PyVal.join _ _); cbn; eauto.
Qed.

Lemma action_render_name_error (locals article : dict) (tags : str) :
  Dict.get locals "conclusion_section" = None ->
  PyVal.join ", " (Dict.get_or article "tags" (PList [])) = Ok tags ->
  Action.render locals article = Raise (NameError "conclusion_section").
Proof.
  intros H Ht. unfold Action.render, load_name. rewrite H, Ht. reflexivity.
Qed.

Lemma action_save_raises (article : dict) (filename : option str) (w : World) :
  has_error article = false ->
  exists e, Action.save_article_to_markdown article filename w = (Raise e, w).
Proof.
  intros Herr. unfold Action.save_article_to_markdown. rewrite Herr.
  destruct (PyVal.truthy (from_option PStr PNone filename)).
  - unfold mbind, M_bind, mret, M_ret, lift. cbn -[Action.render].
    match goal with
    | |- context [Action.render ?l article] =>
        destruct (action_render_raises l article) as [e He]; [reflexivity|];
        exists e; by rewrite He
    end.
  - unfold mbind, M_bind, mret, M_ret, lift, now_strftime, ask.
    cbn -[Action.render safe_title_of].
    destruct (safe_title_of _) as [safe|e]; [|eauto].
    match goal with
    | |- context [Action.render ?l article] =>
        destruct (action_render_raises l article) as [e He]; [reflexivity|];
        exists e; by rewrite He
    end.
Qed.

(** C1: the article of the specification's own example, whose conclusion
    is empty.  The specification has it saved without a ["## Conclusion"]
    heading.  news_bot_action.py, which prepares exactly that
    ([conclusion_section] is empty when the conclusion is), raises
    [NameError] instead and writes nothing, because the assignment sits
    inside the f-string; with a non-empty conclusion it raises just the
    same.  news_bot_clean.py writes the heading in both cases. *)
Theorem save_with_empty_conclusion :
  let article := Dict.update Scenario.json_object (Action.metadata [] "t0") in
  let concluded := Dict.set article "conclusion" (PStr "D") in
  let saved := Clean.save_article article (Some ("a.md" : str)) Scenario.quiet in
  Dict.get article "conclusion" = Some (PStr [])
  /\ has_error article = false
  /\ (Action.save_article_to_markdown article (Some ("a.md" : str)) Scenario.quiet).1
     = Raise (NameError "conclusion_section")
  /\ files (Action.save_article_to_markdown article (Some ("a.md" : str))
              Scenario.quiet).2 = files Scenario.quiet
  /\ (Action.save_article_to_markdown concluded (Some ("a.md" : str)) Scenario.quiet).1
     = Raise (NameError "conclusion_section")
  /\ saved.1 = Ok ("a.md" : str)
  /\ (fun doc => has_heading doc "## Conclusion")
       <$> files saved.2 !! ("a.md" : str)
     = Some true.
Proof. vm_compute. by repeat split. Qed.

(* ===================================================================== *)
(** * Publishing without credentials (C7) *)
(* ===================================================================== *)

Lemma new_events_same (w : World) : Spec.new_events w w = [].
Proof. unfold Spec.new_events. by rewrite drop_all. Qed.

(** C7.  When the token or the repository id is absent from the
    environment (or empty), [create_github_issue] returns [False] without
    raising and without touching the world: no request is posted, which is
    the outcome [Skipped]. *)
Theorem publish_skipped_without_credentials
        (articles : list str) (keyword run_number : str) (w : World) :
  falsy_env (environ w !! ("GITHUB_TOKEN" : str)) = true
  \/ falsy_env (environ w !! ("GITHUB_REPOSITORY" : str)) = true ->
  NewsBot.create_github_issue articles keyword run_number w = (Ok false, w)
  /\ WithIssues.create_github_issue articles keyword run_number w = (Ok false, w)
  /\ Spec.publish_result w
       (NewsBot.create_github_issue articles keyword run_number w) = Spec.Skipped
  /\ Spec.publish_result w
       (WithIssues.create_github_issue articles keyword run_number w) = Spec.Skipped.
Proof.
  intros H.
  assert (Hgate : falsy_env (environ w !! ("GITHUB_TOKEN" : str))
                  || falsy_env (environ w !! ("GITHUB_REPOSITORY" : str)) = true).
  { apply orb_true_iff. exact H. }
  assert (H1 : NewsBot.create_github_issue articles keyword run_number w
               = (Ok false, w)).
  { unfold NewsBot.create_github_issue, getenv, ask, mbind, M_bind.
    by rewrite Hgate. }
  assert (H2 : WithIssues.create_github_issue articles keyword run_number w
               = (Ok false, w)).
  { unfold WithIssues.create_github_issue, getenv, ask, mbind, M_bind.
    by rewrite Hgate. }
  rewrite H1, H2. unfold Spec.publish_result. cbn [snd].
  by rewrite new_events_same.
Qed.

Lemma publish_skipped_without_credentials_witness :
  NewsBot.create_github_issue ["a.md" : str] "ai" "7" Scenario.quiet
  = (Ok false, Scenario.quiet)
  /\ WithIssues.create_github_issue ["a.md" : str] "ai" "7" Scenario.quiet
     = (Ok false, Scenario.quiet)
  /\ Spec.publish_result Scenario.quiet
       (NewsBot.create_github_issue ["a.md" : str] "ai" "7" Scenario.quiet)
     = Spec.Skipped
  /\ Spec.publish_result Scenario.quiet
       (WithIssues.create_github_issue ["a.md" : str] "ai" "7" Scenario.quiet)
     = Spec.Skipped.
Proof.
  apply (publish_skipped_without_credentials ["a.md" : str] "ai" "7" Scenario.quiet).
  left. vm_compute. reflexivity.
Defined.

(** With credentials, one request is posted and the outcome follows the
    tracker's answer. *)
Example publish_with_credentials :
  let created := Reply (201, PDict [("number" : str, PInt 7)]) in
  let refused := Reply (403, PDict [("message" : str, PStr "Forbidden")]) in
  let publish answer :=
    let w := Scenario.with_github answer Scenario.quiet in
    Spec.publish_result w (NewsBot.create_github_issue ["a.md" : str] "ai" "7" w) in
  publish created = Spec.Published
  /\ publish refused = Spec.PublishFailed
  /\ publish (Fails Transport "connection timed out") = Spec.PublishFailed.
Proof. vm_compute. by repeat split. Qed.

(* ===================================================================== *)
(** * The structured-JSON strategy (C8) *)
(* ===================================================================== *)

Section Fences.

Implicit Types (s a b m : str).

Lemma slice_negative_end {A} (l : list A) (i j : Z) :
  0 <= i -> j < 0 -> i - j <= len l ->
  Py.slice l i j = take (Z.to_nat (len l + j - i)) (drop (Z.to_nat i) l).
Proof.
  intros Hi Hj Hlen. unfold Py.slice.
  rewrite (clamp_inside _ i) by lia.
  assert (Py.clamp (len l) j = len l + j) as ->.
  { unfold Py.clamp. cbv zeta.
    destruct (Z.ltb_spec j 0); [|lia].
    destruct (Z.ltb_spec (j + len l) 0); [lia|].
    destruct (Z.ltb_spec (len l) (j + len l)); lia. }
  reflexivity.
Qed.

Lemma trimmed_ends c m d :
  Py.isspace c = false -> Py.isspace d = false -> trimmed (c :: m ++ [d]).
Proof.
  intros Hc Hd. split; [by apply lstrip_head|].
  change (c :: m ++ [d]) with ((c :: m) ++ [d]). by apply rstrip_snoc.
Qed.

(** What the fence clean-up leaves of a fenced object. *)
Lemma clean_json_fenced pad0 pad1 pad2 pad3 inner :
  all_space pad0 -> all_space pad1 -> all_space pad2 -> all_space pad3 ->
  Action.clean_json
    (Py.strip (pad0 ++ "```json" ++ pad1 ++ ("{" ++ inner ++ "}") ++ pad2
               ++ "```" ++ pad3))
  = "{" ++ inner ++ "}".
Proof.
  intros H0 H1 H2 H3.
  set (json := ("{" : str) ++ inner ++ "}").
  set (body := pad1 ++ json ++ pad2).
  assert (Hstrip :
    Py.strip (pad0 ++ "```json" ++ pad1 ++ json ++ pad2 ++ "```" ++ pad3)
    = "```json" ++ body ++ "```").
  { replace (pad0 ++ "```json" ++ pad1 ++ json ++ pad2 ++ "```" ++ pad3)
      with (pad0 ++ ("```json" ++ body ++ "```") ++ pad3)
      by (unfold body; by rewrite <- !app_assoc).
    apply strip_pad; [done..|].
    replace (("```json" : str) ++ body ++ "```")
      with ("`"%char :: (("``json" : str) ++ body ++ "``") ++ ["`"%char])
      by (cbn; by rewrite <- !app_assoc).
    by apply trimmed_ends. }
  rewrite Hstrip. unfold Action.clean_json.
  rewrite startswith_app.
  rewrite slice_negative_end.
  2,3: lia.
  2: { rewrite !len_app. pose proof (len_nonneg body). unfold len. cbn. lia. }
  change (Z.to_nat 7) with 7%nat.
  change (drop 7 (("```json" : str) ++ body ++ "```")) with (body ++ "```").
  replace (Z.to_nat (len (("```json" : str) ++ body ++ "```") + -3 - 7))
    with (length body)
    by (rewrite !len_app; unfold len; cbn; lia).
  rewrite take_app_length. unfold body.
  apply strip_pad; [done..|].
  unfold json. apply (trimmed_ends "{" inner "}"); reflexivity.
Qed.

End Fences.

Section DictFacts.

Lemma get_set_ne (d : dict) (k k' : str) (v : pyval) :
  k <> k' -> Dict.get (Dict.set d k' v) k = Dict.get d k.
Proof.
  intros Hne. induction d as [|[k0 v0] d IH]; cbn.
  - by rewrite decide_False by done.
  - destruct (decide (k0 = k')) as [->|]; cbn.
    + by rewrite !decide_False by done.
    + by rewrite IH.
Qed.

Lemma get_set_eq (d : dict) (k : str) (v : pyval) :
  Dict.get (Dict.set d k v) k = Some v.
Proof.
  induction d as [|[k0 v0] d IH]; cbn.
  - by rewrite decide_True.
  - destruct (decide (k0 = k)) as [->|]; cbn.
    + by rewrite decide_True.
    + by rewrite decide_False.
Qed.

Lemma get_update_other (d e : dict) (k : str) :
  Forall (fun kv => kv.1 <> k) e ->
  Dict.get (Dict.update d e) k = Dict.get d k.
Proof.
  unfold Dict.update. revert d.
  induction e as [|[k' v] e IH]; intros d He; [done|].
  apply Forall_cons in He as [Hk He]. cbn [fold_left].
  rewrite IH by done. apply get_set_ne. cbn in Hk. by intros ->.
Qed.

End DictFacts.

Section JsonStrategy.

Variables (loads : str -> option pyval) (news_data : dict).

Lemma action_metadata_keys (t : str) :
  map fst (Action.metadata news_data t)
  = ["original_source" : str; "original_url" : str; "original_date" : str;
     "generated_at" : str].
Proof. reflexivity. Qed.

Lemma withissues_metadata_keys (t : str) :
  map fst (WithIssues.metadata news_data t)
  = ["original_source" : str; "original_url" : str; "generated_at" : str].
Proof. reflexivity. Qed.

Lemma get_update_fresh (d e : dict) (k : str) :
  k ∉ map fst e -> Dict.get (Dict.update d e) k = Dict.get d k.
Proof.
  intros H. apply get_update_other. apply Forall_forall. intros [k' v] Hin.
  cbn. intros ->. apply H. apply list_elem_of_fmap. by exists (k, v).
Qed.

(** The six fields of the schema are not among the metadata keys. *)
Lemma action_fields_kept (obj : dict) (t : str) :
  Forall (fun k => Dict.get (Dict.update obj (Action.metadata news_data t)) k
                   = Dict.get obj k)
    ["headline" : str; "lead" : str; "body" : str; "conclusion" : str;
     "tags" : str; "word_count" : str].
Proof.
  repeat constructor; apply get_update_fresh; rewrite action_metadata_keys;
    apply not_elem_of_cons; (split; [discriminate|]);
    apply not_elem_of_cons; (split; [discriminate|]);
    apply not_elem_of_cons; (split; [discriminate|]);
    apply not_elem_of_cons; (split; [discriminate|]);
    apply not_elem_of_nil.
Qed.

Lemma withissues_fields_kept (obj : dict) (t : str) :
  Forall (fun k => Dict.get (Dict.update obj (WithIssues.metadata news_data t)) k
                   = Dict.get obj k)
    ["headline" : str; "lead" : str; "body" : str; "conclusion" : str;
     "tags" : str; "word_count" : str].
Proof.
  repeat constructor; apply get_update_fresh; rewrite withissues_metadata_keys;
    apply not_elem_of_cons; (split; [discriminate|]);
    apply not_elem_of_cons; (split; [discriminate|]);
    apply not_elem_of_cons; (split; [discriminate|]);
    apply not_elem_of_nil.
Qed.

Lemma action_parse_fenced (text json t : str) (obj : dict) :
  Action.clean_json (Py.strip text) = json ->
  loads json = Some (PDict obj) ->
  Action.parse_response loads news_data text t
  = Ok (Dict.update obj (Action.metadata news_data t)).
Proof.
  intros Hclean Hloads. unfold Action.parse_response.
  by rewrite Hclean, Hloads.
Qed.

Lemma withissues_parse_fenced (text json t : str) (obj : dict) :
  Action.clean_json (Py.strip text) = json ->
  loads json = Some (PDict obj) ->
  WithIssues.parse_response loads news_data text t
  = Ok (Dict.update obj (WithIssues.metadata news_data t)).
Proof.
  intros Hclean Hloads. unfold WithIssues.parse_response.
  by rewrite Hclean, Hloads.
Qed.

End JsonStrategy.

(** C8.  When the response text is a JSON object wrapped in [```json]
    fences (with any whitespace around the fences and around the object),
    the generation functions strip the fences, parse the object and return
    it with the metadata added; the fields headline, lead, body, conclusion,
    tags and word_count of the result are those of the JSON object. *)
Theorem fenced_json_is_parsed
        (w : World) (news_data : dict) (style : str)
        (pad0 pad1 pad2 pad3 inner : str) (obj : dict) (body : pyval) :
  all_space pad0 -> all_space pad1 -> all_space pad2 -> all_space pad3 ->
  json_loads w ("{" ++ inner ++ "}") = Some (PDict obj) ->
  PyVal.slice_to (Dict.get_or news_data "body" (PStr "N/A")) 2000 = Ok body ->
  generate_reply w (count_events is_generate w)
  = Reply (pad0 ++ "```json" ++ pad1 ++ ("{" ++ inner ++ "}") ++ pad2
           ++ "```" ++ pad3) ->
  let fields : list str :=
    ["headline" : str; "lead" : str; "body" : str; "conclusion" : str;
     "tags" : str; "word_count" : str] in
  let generated_at := strftime w "iso" (now w) in
  (exists w',
     Action.generate_article news_data style w
     = (Ok (Dict.update obj (Action.metadata news_data generated_at)), w'))
  /\ Forall (fun k =>
               Dict.get (Dict.update obj (Action.metadata news_data generated_at)) k
               = Dict.get obj k) fields
  /\ (exists w',
        WithIssues.generate_article_with_gemini news_data w
        = (Ok (Dict.update obj (WithIssues.metadata news_data generated_at)), w'))
  /\ Forall (fun k =>
               Dict.get (Dict.update obj (WithIssues.metadata news_data generated_at)) k
               = Dict.get obj k) fields.
Proof.
  intros H0 H1 H2 H3 Hloads Hbody Hreply fields generated_at.
  pose proof (clean_json_fenced pad0 pad1 pad2 pad3 inner H0 H1 H2 H3) as Hclean.
  refine (conj _ (conj (action_fields_kept _ _ _) (conj _ (withissues_fields_kept _ _ _)))).
  - eexists. unfold Action.generate_article, Action.prompt.
    rewrite Hbody.
    unfold mbind, M_bind, result_bind, lift, try_except, generate_content,
      now_isoformat, now_strftime, ask, mret, M_ret.
    rewrite Hreply. cbn [answer].
    cbn [json_loads strftime now with_trace].
    rewrite (action_parse_fenced _ _ _ _ _ _ Hclean Hloads). reflexivity.
  - eexists. unfold WithIssues.generate_article_with_gemini, WithIssues.prompt.
    rewrite Hbody.
    unfold mbind, M_bind, result_bind, lift, try_except, generate_content,
      now_isoformat, now_strftime, ask, mret, M_ret.
    rewrite Hreply. cbn [answer].
    cbn [json_loads strftime now with_trace].
    rewrite (withissues_parse_fenced _ _ _ _ _ _ Hclean Hloads). reflexivity.
Qed.

(** The example of the specification: the fenced object with headline ["H"]
    and an empty conclusion. *)
Lemma fenced_json_is_parsed_witness :
  let w := Scenario.with_generate (fun _ => Reply Scenario.fenced_text)
             Scenario.quiet in
  let article := Dict.update Scenario.json_object (Action.metadata [] "t0") in
  (exists w', Action.generate_article [] "professional" w = (Ok article, w'))
  /\ Dict.get article "headline" = Some (PStr "H")
  /\ Dict.get article "conclusion" = Some (PStr "").
Proof.
  intros w article.
  destruct (fenced_json_is_parsed w [] "professional" [] NL NL []
              (drop 1 (take (length Scenario.json_text - 1) Scenario.json_text))
              Scenario.json_object (PStr "N/A"))
    as (Hgen & Hfields & _).
  - constructor.
  - repeat constructor.
  - repeat constructor.
  - constructor.
  - vm_compute. reflexivity.
  - reflexivity.
  - vm_compute. reflexivity.
  - refine (conj _ (conj _ _)).
    + exact Hgen.
    + vm_compute. reflexivity.
    + vm_compute. reflexivity.
Defined.

(* ===================================================================== *)
(** * Fetching when the search service fails (C6) *)
(* ===================================================================== *)

Lemma count_events_snoc (p : event -> bool) (w : World) (e : event) :
  count_events p (with_trace (trace w ++ [e]) w)
  = (count_events p w + (if p e then 1 else 0))%nat.
Proof.
  unfold count_events. cbn [trace with_trace].
  rewrite filter_app, length_app. f_equal.
  rewrite filter_cons, filter_nil.
  destruct (decide (p e = true)) as [->|H]; [done|]. by destruct (p e).
Qed.

Section FetchFailure.

Variables (w : World) (kind : remote_failure) (msg : str).

Hypothesis Hfails : search_reply w (count_events is_search w) = Fails kind msg.

Lemma search_request_fails (q : pyval) :
  search_request q w
  = (Raise (RemoteFailure kind msg), with_trace (trace w ++ [EvSearch q]) w).
Proof. unfold search_request. by rewrite Hfails. Qed.

Lemma clean_fetch_empty (keyword : option str) (max_articles : Z) :
  Clean.fetch_news keyword max_articles w
  = (Ok [], with_trace (trace w ++ [EvSearch (Clean.query keyword)]) w).
Proof.
  unfold Clean.fetch_news, try_except, mbind, M_bind.
  by rewrite search_request_fails.
Qed.

Lemma withissues_fetch_empty (keyword : str) (max_articles : Z) :
  (WithIssues.fetch_news_articles keyword max_articles w).1 = Ok [].
Proof.
  unfold WithIssues.fetch_news_articles, try_except, mbind, M_bind, make_clients.
  destruct (client_init w) as [[]|k m]; cbn [answer].
  - by rewrite search_request_fails.
  - reflexivity.
Qed.

Lemma newsbot_fallback_empty (keyword : str) (max_articles : Z) :
  NewsBot._fetch_news_fallback keyword max_articles w
  = (Ok [], with_trace
              (trace w ++ [EvSearch (NewsBot.query_params keyword max_articles)]) w).
Proof.
  unfold NewsBot._fetch_news_fallback, try_except, mbind, M_bind.
  by rewrite search_request_fails.
Qed.

End FetchFailure.

(** C6 (amended).  When the request to the search service fails (with a
    transport, auth or any other service error), [fetch_news] of
    news_bot_clean.py and [fetch_news_articles] of the backup script return
    an empty list and raise nothing.  [fetch_news] of src/news_bot.py then
    issues its fallback request, and returns an empty list, raising
    nothing, when that request fails as well. *)
Theorem fetch_empty_on_failure
        (w : World) (keyword : str) (max_articles : Z)
        (kind kind' : remote_failure) (msg msg' : str) :
  let k := count_events is_search w in
  search_reply w k = Fails kind msg ->
  (Clean.fetch_news (Some keyword) max_articles w).1 = Ok []
  /\ (WithIssues.fetch_news_articles keyword max_articles w).1 = Ok []
  /\ (search_reply w (S k) = Fails kind' msg' ->
      (NewsBot.fetch_news keyword max_articles w).1 = Ok []).
Proof.
  intros k Hk. split; [by erewrite clean_fetch_empty|].
  split; [by eapply withissues_fetch_empty|].
  intros Hk'.
  unfold NewsBot.fetch_news, try_except, NewsBot.build_request. monad_unfold.
  destruct (request_classes w).
  - erewrite search_request_fails by exact Hk.
    cbn [is_Exception].
    erewrite newsbot_fallback_empty; [reflexivity|].
    rewrite count_events_snoc. cbn [is_search with_trace search_reply].
    replace (count_events is_search w + 1)%nat with (S k) by (unfold k; lia).
    exact Hk'.
  - cbn [is_Exception].
    by erewrite newsbot_fallback_empty.
Qed.

Lemma fetch_empty_on_failure_witness :
  (Clean.fetch_news (Some ("ai" : str)) 3 Scenario.quiet).1 = Ok []
  /\ (WithIssues.fetch_news_articles "ai" 3 Scenario.quiet).1 = Ok []
  /\ (NewsBot.fetch_news "ai" 3 Scenario.quiet).1 = Ok [].
Proof.
  destruct (fetch_empty_on_failure Scenario.quiet "ai" 3 Transport Transport
              "connection timed out" "connection timed out" eq_refl)
    as (H1 & H2 & H3).
  exact (conj H1 (conj H2 (H3 eq_refl))).
Defined.

(** C6 (as stated) fails for src/news_bot.py: its first request fails with
    a transport error, the fallback request succeeds, and the article of the
    fallback reply is returned. *)
Lemma newsbot_fetch_falls_back :
  let reply :=
    PDict [("articles" : str,
            PDict [("results" : str, PList [Scenario.an_article "T" "B"])])] in
  let w :=
    Scenario.with_search
      (fun k => match k with
                | O => Fails Transport "connection timed out"
                | S _ => Reply reply
                end) Scenario.quiet in
  search_reply w (count_events is_search w) = Fails Transport "connection timed out"
  /\ (exists article, (NewsBot.fetch_news "ai" 3 w).1 = Ok [article])
  /\ (NewsBot.fetch_news "ai" 3 w).1 <> Ok [].
Proof.
  refine (conj _ (conj _ _)).
  - reflexivity.
  - eexists. vm_compute. reflexivity.
  - vm_compute. discriminate.
Qed.

(* ===================================================================== *)
(** * The fetch functions never raise *)
(* ===================================================================== *)

Section Ordinary.

Lemma ordinary_bind {A B} (m : result A) (f : A -> result B) :
  ordinary m -> (forall a, ordinary (f a)) -> ordinary (m ≫= f).
Proof. intros Hm Hf. destruct m; [apply Hf | exact Hm]. Qed.

Lemma ordinary_mapM {A B} (f : A -> result B) (l : list A) :
  (forall a, ordinary (f a)) -> ordinary (mapM f l).
Proof.
  intros Hf. induction l as [|a l IH]; [done|]. cbn.
  apply ordinary_bind; [apply Hf|]. intros b.
  apply ordinary_bind; [exact IH | done].
Qed.

Lemma ordinary_get v k d : ordinary (PyVal.get v k d).
Proof. by destruct v. Qed.

Lemma ordinary_getitem v k : ordinary (PyVal.getitem v k).
Proof. destruct v; cbn; try done. by destruct (Dict.get d k). Qed.

Lemma ordinary_contains k v : ordinary (PyVal.contains k v).
Proof. by destruct v. Qed.

Lemma ordinary_iter v : ordinary (PyVal.iter v).
Proof. by destruct v. Qed.

Lemma ordinary_strip v : ordinary (PyVal.strip v).
Proof. by destruct v. Qed.

Lemma ordinary_slice_to v n : ordinary (PyVal.slice_to v n).
Proof. by destruct v. Qed.

Lemma ordinary_answer {A} (r : reply A) : ordinary (answer r).
Proof. by destruct r. Qed.

Lemma ordinary_results_of reply : ordinary (Action.results_of reply).
Proof.
  unfold Action.results_of.
  apply ordinary_bind; [apply ordinary_contains|]. intros [|]; [|done].
  apply ordinary_bind; [apply ordinary_getitem|]. intros arts.
  apply ordinary_bind; [apply ordinary_contains|]. intros [|]; [|done].
  apply ordinary_bind; [apply ordinary_getitem|]. intros arts'.
  apply ordinary_bind; [apply ordinary_getitem|]. intros rs.
  apply ordinary_iter.
Qed.

Lemma ordinary_clean_convert article : ordinary (Clean.convert_article article).
Proof.
  unfold Clean.convert_article.
  repeat (apply ordinary_bind; [apply ordinary_get|]; intros ?).
  apply ordinary_bind.
  { destruct (PyVal.truthy _); [|done].
    apply ordinary_bind; [apply ordinary_get|]. intros ?. apply ordinary_get. }
  intros ?. apply ordinary_bind; [apply ordinary_get|]. by intros ?.
Qed.

Lemma ordinary_clean_collect items max_articles articles count :
  ordinary (Clean.collect items max_articles articles count).
Proof.
  revert articles count. induction items as [|x items IH]; intros; [done|].
  cbn [Clean.collect].
  apply ordinary_bind; [apply ordinary_clean_convert|]. intros a.
  apply ordinary_bind.
  { unfold Clean.title_preview.
    apply ordinary_bind; [apply ordinary_get|]. intros ?. apply ordinary_slice_to. }
  intros _. destruct (_ <=? _); [done | apply IH].
Qed.

Lemma ordinary_withissues_convert article :
  ordinary (WithIssues.convert_article article).
Proof.
  unfold WithIssues.convert_article.
  repeat (apply ordinary_bind; [apply ordinary_get|]; intros ?).
  apply ordinary_bind.
  { destruct (WithIssues.is_dict _).
    - apply ordinary_bind; [apply ordinary_get|]. intros ?. apply ordinary_get.
    - apply ordinary_bind; [apply ordinary_get|]. by intros ?. }
  intros ?. apply ordinary_bind; [apply ordinary_get|]. intros ?.
  apply ordinary_bind; [|by intros ?].
  unfold WithIssues.labels.
  apply ordinary_bind; [apply ordinary_iter|]. intros ?.
  apply ordinary_bind; [|by intros ?].
  apply ordinary_mapM. intros ?. apply ordinary_get.
Qed.

Lemma ordinary_withissues_collect items max_articles articles :
  ordinary (WithIssues.collect items max_articles articles).
Proof.
  revert articles. induction items as [|x items IH]; intros; [done|].
  cbn [WithIssues.collect].
  apply ordinary_bind; [apply ordinary_withissues_convert|]. intros a.
  destruct (_ <=? _); [done | apply IH].
Qed.

Lemma ordinary_has_body_and_title article :
  ordinary (NewsBot.has_body_and_title article).
Proof.
  unfold NewsBot.has_body_and_title.
  apply ordinary_bind; [apply ordinary_get|]. intros ?.
  destruct (PyVal.truthy _); [|done].
  apply ordinary_bind; [apply ordinary_get|]. by intros ?.
Qed.

Lemma ordinary_newsbot_convert with_authors article :
  ordinary (NewsBot.convert_article with_authors article).
Proof.
  unfold NewsBot.convert_article.
  apply ordinary_bind; [apply ordinary_get|]. intros ?.
  apply ordinary_bind; [apply ordinary_strip|]. intros ?.
  apply ordinary_bind; [apply ordinary_get|]. intros ?.
  apply ordinary_bind; [apply ordinary_strip|]. intros ?.
  apply ordinary_bind; [apply ordinary_slice_to|]. intros ?.
  apply ordinary_bind; [apply ordinary_get|]. intros ?.
  apply ordinary_bind; [apply ordinary_get|]. intros ?.
  apply ordinary_bind; [apply ordinary_get|]. intros ?.
  apply ordinary_bind; [apply ordinary_get|]. intros ?.
  apply ordinary_bind; [|by intros ?].
  destruct with_authors; [|done].
  apply ordinary_bind; [apply ordinary_get|]. intros ?.
  unfold NewsBot.names.
  apply ordinary_bind; [apply ordinary_iter|]. intros ?.
  apply ordinary_bind; [|by intros ?].
  apply ordinary_mapM. intros ?. apply ordinary_get.
Qed.

Lemma ordinary_newsbot_collect items max_articles articles :
  ordinary (NewsBot.collect items max_articles articles).
Proof.
  revert articles. induction items as [|x items IH]; intros; [done|].
  cbn [NewsBot.collect].
  apply ordinary_bind; [apply ordinary_has_body_and_title|]. intros [|]; [|apply IH].
  apply ordinary_bind; [apply ordinary_newsbot_convert|]. intros a.
  destruct (_ <=? _); [done | apply IH].
Qed.

Lemma ordinary_newsbot_collect_all items articles :
  ordinary (NewsBot.collect_all items articles).
Proof.
  revert articles. induction items as [|x items IH]; intros; [done|].
  cbn [NewsBot.collect_all].
  apply ordinary_bind; [apply ordinary_has_body_and_title|]. intros [|]; [|apply IH].
  apply ordinary_bind; [apply ordinary_newsbot_convert|]. intros a. apply IH.
Qed.

End Ordinary.

Section NeverRaises.

(** A [try] whose body raises only ordinary exceptions and whose handler
    returns, returns. *)
Lemma try_except_returns {A} (body : M A) (handler : exn -> M A) :
  (forall w, ordinary (body w).1) ->
  (forall e, returns (handler e)) ->
  returns (try_except body handler).
Proof.
  intros Hb Hh w. unfold try_except. specialize (Hb w).
  destruct (body w) as [[a|e] w']; [eauto|].
  cbn in Hb. rewrite Hb. apply Hh.
Qed.

Lemma ordinary_bind_M {A B} (m : M A) (f : A -> M B) (w : World) :
  ordinary (m w).1 -> (forall a w', ordinary (f a w').1) ->
  ordinary ((m ≫= f) w).1.
Proof.
  intros Hm Hf. unfold mbind, M_bind.
  destruct (m w) as [[a|e] w']; [apply Hf | exact Hm].
Qed.

Lemma returns_mret {A} (a : A) : returns (mret a).
Proof. intros w. by eexists _, _. Qed.

Lemma clean_fetch_returns (keyword : option str) (max_articles : Z) :
  returns (Clean.fetch_news keyword max_articles).
Proof.
  apply try_except_returns; [|intros e; apply returns_mret].
  intros w. apply ordinary_bind_M; [apply ordinary_answer|]. intros reply w'.
  apply ordinary_bind_M; [apply ordinary_iter|]. intros items w''.
  apply ordinary_clean_collect.
Qed.

Lemma withissues_fetch_returns (keyword : str) (max_articles : Z) :
  returns (WithIssues.fetch_news_articles keyword max_articles).
Proof.
  apply try_except_returns; [|intros e; apply returns_mret].
  intros w. apply ordinary_bind_M; [apply ordinary_answer|]. intros _ w0.
  apply ordinary_bind_M; [apply ordinary_answer|]. intros reply w'.
  apply ordinary_bind_M; [apply ordinary_iter|]. intros items w''.
  apply ordinary_withissues_collect.
Qed.

Lemma newsbot_fallback_returns (keyword : str) (max_articles : Z) :
  returns (NewsBot._fetch_news_fallback keyword max_articles).
Proof.
  apply try_except_returns; [|intros e; apply returns_mret].
  intros w. apply ordinary_bind_M; [apply ordinary_answer|]. intros reply w'.
  apply ordinary_bind_M.
  { unfold lift. cbn. destruct (PyVal.truthy reply); [|done].
    apply ordinary_results_of. }
  intros items w''. apply ordinary_newsbot_collect_all.
Qed.

Lemma newsbot_fetch_returns (keyword : str) (max_articles : Z) :
  returns (NewsBot.fetch_news keyword max_articles).
Proof.
  apply try_except_returns; [|intros e; apply newsbot_fallback_returns].
  intros w. apply ordinary_bind_M.
  { unfold NewsBot.build_request. monad_unfold. by destruct (request_classes w). }
  intros _ w0.
  apply ordinary_bind_M; [apply ordinary_answer|]. intros reply w'.
  apply ordinary_bind_M; [apply ordinary_results_of|]. intros items w''.
  apply ordinary_newsbot_collect.
Qed.

(** Whatever the search service and its replies do, the three fetch
    functions return a list and raise nothing. *)
Lemma fetch_never_raises (keyword : str) (max_articles : Z) (w : World) :
  (exists articles w', Clean.fetch_news (Some keyword) max_articles w = (Ok articles, w'))
  /\ (exists articles w',
        WithIssues.fetch_news_articles keyword max_articles w = (Ok articles, w'))
  /\ (exists articles w', NewsBot.fetch_news keyword max_articles w = (Ok articles, w')).
Proof.
  split; [apply clean_fetch_returns|].
  split; [apply withissues_fetch_returns | apply newsbot_fetch_returns].
Qed.

End NeverRaises.

(* ===================================================================== *)
(** * Runs of the orchestrators (C4, C5, C3) *)
(* ===================================================================== *)

Section Reaching.

Lemma same_outside_refl (w : World) : same_outside w w.
Proof. by repeat split. Qed.

Lemma same_outside_trans (w1 w2 w3 : World) :
  same_outside w1 w2 -> same_outside w2 w3 -> same_outside w1 w3.
Proof.
  unfold same_outside. intros H1 H2.
  destruct H1 as (?&?&?&?&?&?&?&?&?&?), H2 as (?&?&?&?&?&?&?&?&?&?).
  repeat split; congruence.
Qed.

Lemma reaches_refl (w : World) : reaches w w [].
Proof. split; [by rewrite app_nil_r | apply same_outside_refl]. Qed.

Lemma reaches_trans (w1 w2 w3 : World) (ev1 ev2 : list event) :
  reaches w1 w2 ev1 -> reaches w2 w3 ev2 -> reaches w1 w3 (ev1 ++ ev2).
Proof.
  intros [Ht1 Ho1] [Ht2 Ho2]. split.
  - by rewrite Ht2, Ht1, app_assoc.
  - by eapply same_outside_trans.
Qed.

Lemma reaches_emit (w : World) (e : event) :
  reaches w (with_trace (trace w ++ [e]) w) [e].
Proof. split; [done | by repeat split]. Qed.

Lemma reaches_files (w : World) (f : gmap str str) : reaches w (with_files f w) [].
Proof. split; [by rewrite app_nil_r | by repeat split]. Qed.

Lemma reaches_sleep (w : World) (n : Z) :
  reaches w (with_now (now w + n) (with_trace (trace w ++ [EvSleep n]) w)) [EvSleep n].
Proof. split; [done | by repeat split]. Qed.

Lemma new_events_reaches (w w' : World) (ev : list event) :
  reaches w w' ev -> Spec.new_events w w' = ev.
Proof.
  intros [Ht _]. unfold Spec.new_events. rewrite Ht. apply drop_app_length.
Qed.

End Reaching.

Section Pacing.

Lemma followed_app (s : bool) (tr1 tr2 : list event) :
  Spec.followed s tr1 = true -> Spec.followed true tr2 = true ->
  Spec.followed s (tr1 ++ tr2) = true.
Proof.
  revert s. induction tr1 as [|e tr1 IH]; intros s H1 H2.
  - cbn in H1. by subst.
  - destruct e; cbn in *; try by apply IH.
    apply andb_true_iff in H1 as [-> H1]. cbn. by apply IH.
Qed.

Lemma followed_spaced (s : bool) (tr : list event) :
  Spec.followed s tr = true -> Spec.spaced s tr = true.
Proof.
  revert s. induction tr as [|e tr IH]; intros s H; [done|].
  destruct e; cbn in *; try by apply IH.
  apply andb_true_iff in H as [-> H]. cbn. by apply IH.
Qed.

Lemma spaced_app (s : bool) (tr1 tr2 : list event) :
  Spec.followed s tr1 = true -> Spec.spaced true tr2 = true ->
  Spec.spaced s (tr1 ++ tr2) = true.
Proof.
  revert s. induction tr1 as [|e tr1 IH]; intros s H1 H2.
  - cbn in H1. by subst.
  - destruct e; cbn in *; try by apply IH.
    apply andb_true_iff in H1 as [-> H1]. cbn. by apply IH.
Qed.

(** One attempt: at most one generation request, then the sleep. *)
Lemma followed_attempt (ev : list event) :
  at_most_one_generation ev -> Spec.followed true (ev ++ [EvSleep 2]) = true.
Proof. by intros [-> | [p ->]]. Qed.

End Pacing.

Section Loops.

Context {A S : Type}.

(** A loop whose body always returns normally and re-establishes an
    invariant, which may mention the elements gone through so far. *)
Lemma for_each_invariant (I : list A -> S -> World -> Prop)
      (body : S -> A -> M S) (xs : list A) :
  (forall seen x st w,
      I seen st w ->
      exists st' w', body st x w = (Ok st', w') /\ I (seen ++ [x]) st' w') ->
  forall seen st w,
    I seen st w ->
    exists st' w', for_each xs body st w = (Ok st', w') /\ I (seen ++ xs) st' w'.
Proof.
  intros Hbody. induction xs as [|x xs IH]; intros seen st w HI.
  - exists st, w. by rewrite app_nil_r.
  - destruct (Hbody _ x _ _ HI) as (st1 & w1 & Hrun & HI1).
    destruct (IH _ _ _ HI1) as (st2 & w2 & Hrest & HI2).
    exists st2, w2. split.
    + cbn [for_each]. unfold mbind, M_bind. by rewrite Hrun.
    + by rewrite <- app_assoc in HI2.
Qed.

(** A loop whose body may raise: [I] holds as long as it returns normally,
    [J] holds where it stops. *)
Lemma for_each_partial (I J : World -> Prop) (body : S -> A -> M S) (xs : list A) :
  (forall w, I w -> J w) ->
  (forall x st w,
      I w ->
      match body st x w with
      | (Ok _, w') => I w'
      | (Raise _, w') => J w'
      end) ->
  forall st w,
    I w ->
    match for_each xs body st w with
    | (Ok _, w') => I w'
    | (Raise _, w') => J w'
    end.
Proof.
  intros HIJ Hbody. induction xs as [|x xs IH]; intros st w HI; [done|].
  cbn [for_each]. unfold mbind, M_bind.
  specialize (Hbody x st w HI).
  destruct (body st x w) as [[st1|e] w1]; [by apply IH | done].
Qed.

End Loops.

Section CleanRun.

Variables keyword style : str.

(** [generate_article] always returns a dictionary: whatever is raised while
    the prompt is built or the service is called ends up under ["error"]. *)
Lemma clean_generate_article_returns (news_data : dict) (w : World) :
  exists d w' ev,
    Clean.generate_article news_data style w = (Ok d, w')
    /\ reaches w w' ev /\ at_most_one_generation ev
    /\ files w' = files w /\ now w' = now w.
Proof.
  unfold Clean.generate_article, try_except, generate_content. monad_unfold.
  destruct (Clean.prompt news_data style) as [p|e] eqn:Hp.
  - destruct (generate_reply w (count_events is_generate w)) as [text|k m];
      cbn [answer].
    + eexists _, _, [EvGenerate p]. split; [reflexivity|].
      split; [apply reaches_emit|]. split; [right; eauto | done].
    + eexists _, _, [EvGenerate p]. split; [reflexivity|].
      split; [apply reaches_emit|]. split; [right; eauto | done].
  - assert (Hexc : is_Exception e = true).
    { revert Hp. unfold Clean.prompt. monad_unfold.
      destruct (Dict.get_or news_data "body" (PStr "N/A")); cbn;
        intros ?; by simplify_eq. }
    rewrite Hexc. eexists _, w, []. split; [reflexivity|].
    split; [apply reaches_refl|]. split; [by left | done].
Qed.

(** Saving a successful article under a given, non-empty name returns that
    name, or the empty string when the file cannot be opened. *)
Lemma clean_save_article_returns (article : dict) (filename : str) (w : World) :
  has_error article = false -> filename <> [] ->
  exists f w',
    Clean.save_article article (Some filename) w = (Ok f, w')
    /\ reaches w w' [] /\ now w' = now w
    /\ (if can_open w filename then f = filename else f = []).
Proof.
  intros Herr Hname. unfold Clean.save_article. rewrite Herr.
  assert (Htruthy : PyVal.truthy (from_option PStr PNone (Some filename)) = true).
  { cbn. by rewrite bool_decide_eq_false_2. }
  rewrite Htruthy. change (default [] (Some filename)) with filename.
  unfold try_except, write_file. monad_unfold.
  destruct (can_open w filename) eqn:Hopen.
  - eexists _, _. split; [reflexivity|]. split; [apply reaches_files | done].
  - cbn [is_Exception]. eexists _, _. split; [reflexivity|].
    split; [apply reaches_refl | done].
Qed.

Lemma count_if_snoc {B} (p : B -> bool) (l : list B) (x : B) :
  Clean.count_if p (l ++ [x]) = Clean.count_if p l + (if p x then 1 else 0).
Proof.
  unfold Clean.count_if. rewrite List.filter_app, len_app. cbn.
  by destruct (p x).
Qed.

Lemma successes_failures (articles : list dict) :
  successes articles + failures articles = len articles.
Proof.
  unfold successes, failures, Clean.count_if, len.
  induction articles as [|a l IH]; [done|]. cbn.
  destruct (has_error a); cbn; lia.
Qed.

Lemma clean_process_step (w0 : World) (seen : list (Z * pyval))
      (x : Z * pyval) (st : Clean.progress) (w : World) :
  run_invariant w0 seen st w ->
  exists st' w',
    Clean.process keyword style st x w = (Ok st', w')
    /\ run_invariant w0 (seen ++ [x]) st' w'.
Proof.
  intros (Hgen & Hle & Heq & ev & Hreach & Hpaced). destruct x as [i news].
  unfold Clean.process.
  destruct (clean_generate_article_returns (as_dict news) w)
    as (d & w1 & ev1 & Hrun & Hreach1 & Hone & _ & _).
  unfold mbind at 1. unfold M_bind. rewrite Hrun.
  assert (Hinv : forall saved w2,
             reaches w1 w2 [] ->
             (saved = Clean.saved_files st
              \/ (has_error d = false /\ exists f, saved = Clean.saved_files st ++ [f])) ->
             ((forall path, can_open w0 path = true) -> has_error d = false ->
              exists f, saved = Clean.saved_files st ++ [f]) ->
             exists st' w',
               (_ ← sleep 2; mret (Clean.mkProgress (Clean.generated_articles st ++ [d]) saved)) w2
               = (Ok st', w')
               /\ run_invariant w0 (seen ++ [(i, news)]) st' w').
  { intros saved w2 Hreach2 Hsaved Hall.
    eexists _, _. split; [reflexivity|].
    unfold run_invariant, successes. cbn [Clean.generated_articles Clean.saved_files].
    rewrite count_if_snoc, !len_app. fold (successes (Clean.generated_articles st)).
    split; [unfold len in *; cbn; lia|].
    split.
    { destruct Hsaved as [-> | [-> [f ->]]].
      - destruct (has_error d); cbn; lia.
      - rewrite len_app. cbn. unfold len at 2. cbn. lia. }
    split.
    { intros Hw. specialize (Heq Hw). destruct (has_error d) eqn:Hd; cbn.
      - destruct Hsaved as [-> | [? _]]; [lia | done].
      - destruct (Hall Hw eq_refl) as [f ->]. rewrite len_app.
        unfold len at 2. cbn. lia. }
    exists (ev ++ (ev1 ++ [] ++ [EvSleep 2])). split.
    - eapply reaches_trans; [exact Hreach|].
      eapply reaches_trans; [exact Hreach1|].
      eapply reaches_trans; [exact Hreach2|]. apply reaches_sleep.
    - apply followed_app; [done|]. cbn [app]. by apply followed_attempt. }
  destruct (has_error d) eqn:Hd; cbn [negb].
  - unfold mbind at 1. unfold M_bind, mret at 1, M_ret.
    apply Hinv; [apply reaches_refl | by left | done].
  - unfold mbind at 1. unfold M_bind.
    unfold mbind at 1. unfold M_bind, now_strftime, ask.
    match goal with
    | |- context [Clean.save_article d (Some ?name)] =>
        destruct (clean_save_article_returns d name w1 Hd)
          as (f & w2 & Hsave & Hreach2 & _ & Hf); [cbn; discriminate|]
    end.
    unfold mbind at 1. unfold M_bind. rewrite Hsave.
    unfold mret at 1. unfold M_ret.
    apply Hinv; [done | |].
    + destruct (PyVal.truthy (PStr f)); [right; eauto | by left].
    + intros Hw _. destruct Hreach as [_ Ho], Hreach1 as [_ Ho1].
      pose proof (same_outside_trans _ _ _ Ho Ho1) as (_&_&_&_&_&_&Hopen&_).
      rewrite Hopen, Hw in Hf. subst f. eexists.
      cbn. reflexivity.
Qed.

End CleanRun.

Section CleanRunState.

Variables (keyword style : str) (max_articles : Z).

(** Whatever [fetch_news] returns, it made exactly one search request. *)
Lemma clean_fetch_world (kw : option str) (w : World) :
  (Clean.fetch_news kw max_articles w).2
  = with_trace (trace w ++ [EvSearch (Clean.query kw)]) w.
Proof.
  unfold Clean.fetch_news, try_except, search_request. monad_unfold.
  destruct (answer _) as [reply|e]; cbn.
  - destruct (PyVal.iter reply) as [items|e]; cbn.
    + destruct (Clean.collect items max_articles [] 0) as [|e]; cbn; [done|].
      by destruct (is_Exception e).
    + by destruct (is_Exception e).
  - by destruct (is_Exception e).
Qed.

Lemma clean_report_fields (generated : list dict) (w : World) :
  exists report,
    Clean.create_summary_report generated keyword w = (Ok report, w)
    /\ Dict.get report "total_articles" = Some (PInt (len generated))
    /\ Dict.get report "successful_articles" = Some (PInt (successes generated))
    /\ Dict.get report "failed_articles" = Some (PInt (failures generated))
    /\ has_error report = false.
Proof.
  eexists. split; [reflexivity|]. by repeat split.
Qed.

(** The run after a fetch that returned at least one article. *)
Lemma clean_run_state_after_fetch (w w1 : World) (news : list pyval) :
  Clean.fetch_news (Some keyword) max_articles w = (Ok news, w1) ->
  news <> [] ->
  exists report saved w2 generated ev,
    Clean.run_state keyword style max_articles w = (Ok (report, saved), w2)
    /\ Dict.get report "total_articles" = Some (PInt (len news))
    /\ Dict.get report "successful_articles" = Some (PInt (successes generated))
    /\ Dict.get report "failed_articles" = Some (PInt (failures generated))
    /\ has_error report = false
    /\ len generated = len news
    /\ len saved <= successes generated
    /\ ((forall path, can_open w path = true) -> len saved = successes generated)
    /\ reaches w w2 ev /\ Spec.followed true ev = true.
Proof.
  intros Hfetch Hnews.
  assert (Hw1 : reaches w w1 [EvSearch (Clean.query (Some keyword))]).
  { pose proof (clean_fetch_world (Some keyword) w) as H.
    rewrite Hfetch in H. cbn in H. subst w1. apply reaches_emit. }
  destruct (for_each_invariant (run_invariant w1)
              (Clean.process keyword style) (enumerate 1 news)
              (clean_process_step keyword style w1) []
              (Clean.mkProgress [] []) w1)
    as (st & w2 & Hloop & Hgen & Hle & Heq & ev & Hreach & Hpaced).
  { repeat split; [done..|]. exists []. split; [apply reaches_refl | done]. }
  destruct (clean_report_fields (Clean.generated_articles st) w2)
    as (report & Hreport & Htotal & Hsucc & Hfail & Hnoerr).
  assert (Hlen : len (Clean.generated_articles st) = len news).
  { rewrite Hgen. cbn [app]. unfold len, enumerate. by rewrite length_imap. }
  unfold Clean.run_state.
  unfold mbind at 1. unfold M_bind. rewrite Hfetch.
  assert (Htruthy : PyVal.truthy (PList news) = true) by by destruct news.
  rewrite Htruthy. cbn [negb].
  unfold mbind at 1. unfold M_bind. rewrite Hloop.
  unfold mbind at 1. unfold M_bind. rewrite Hreport.
  unfold try_except, write_file. monad_unfold.
  match goal with
  | |- context [can_open w2 ?path] => destruct (can_open w2 path)
  end.
  - eexists report, _, _, (Clean.generated_articles st), (_ ++ ev ++ []).
    split; [reflexivity|]. rewrite <- Hlen.
    repeat (split; [done|]).
    split.
    { intros Hall. apply Heq. intros path. destruct Hw1 as [_ Ho].
      destruct Ho as (_&_&_&_&_&_&Hopen&_). by rewrite Hopen. }
    split.
    + eapply reaches_trans; [exact Hw1|].
      eapply reaches_trans; [exact Hreach|]. apply reaches_files.
    + cbn [app]. by rewrite app_nil_r.
  - cbn [is_Exception].
    eexists report, _, _, (Clean.generated_articles st), (_ ++ ev).
    split; [reflexivity|]. rewrite <- Hlen.
    repeat (split; [done|]).
    split.
    { intros Hall. apply Heq. intros path. destruct Hw1 as [_ Ho].
      destruct Ho as (_&_&_&_&_&_&Hopen&_). by rewrite Hopen. }
    split.
    + eapply reaches_trans; [exact Hw1 | exact Hreach].
    + done.
Qed.

(** Every run of [run]: the events it adds are paced. *)
Lemma clean_run_paced (w : World) :
  exists ev,
    reaches w (Clean.run keyword style max_articles w).2 ev
    /\ Spec.followed true ev = true.
Proof.
  unfold Clean.run. unfold mbind at 1. unfold M_bind.
  destruct (Clean.fetch_news (Some keyword) max_articles w) as [[news|e] w1] eqn:Hfetch.
  - destruct (decide (news = [])) as [->|Hnews].
    + pose proof (clean_fetch_world (Some keyword) w) as H.
      rewrite Hfetch in H. cbn in H. subst w1.
      unfold Clean.run_state. unfold mbind at 1. unfold M_bind. rewrite Hfetch.
      cbn. eexists. split; [apply reaches_emit | done].
    + destruct (clean_run_state_after_fetch w w1 news Hfetch Hnews)
        as (report & saved & w2 & generated & ev & Hrun & _ & _ & _ & _ & _ & _ & _ & Hreach & Hpaced).
      rewrite Hrun. cbn. eauto.
  - pose proof (clean_fetch_world (Some keyword) w) as H.
    rewrite Hfetch in H. cbn in H. subst w1.
    unfold Clean.run_state. unfold mbind at 1. unfold M_bind. rewrite Hfetch.
    cbn. eexists. split; [apply reaches_emit | done].
Qed.

End CleanRunState.

(** C4 (amended).  For every run of news_bot_clean.py that fetched [n >= 1]
    articles, the report counts [n] articles in total, its success and
    failure counts add up to [n], and the number of files saved is at most
    the success count --- equal to it when every file can be opened, smaller
    when a save fails, since an article whose file could not be written
    still counts as successful. *)
Theorem run_summary_counts
        (keyword style : str) (max_articles : Z) (w w1 : World)
        (news : list pyval) :
  Clean.fetch_news (Some keyword) max_articles w = (Ok news, w1) ->
  news <> [] ->
  exists report saved w2 successCount failureCount,
    Clean.run_state keyword style max_articles w = (Ok (report, saved), w2)
    /\ Dict.get report "total_articles" = Some (PInt (len news))
    /\ Dict.get report "successful_articles" = Some (PInt successCount)
    /\ Dict.get report "failed_articles" = Some (PInt failureCount)
    /\ successCount + failureCount = len news
    /\ len saved <= successCount
    /\ ((forall path, can_open w path = true) -> len saved = successCount).
Proof.
  intros Hfetch Hnews.
  destruct (clean_run_state_after_fetch keyword style max_articles w w1 news
              Hfetch Hnews)
    as (report & saved & w2 & generated & ev & Hrun & Htotal & Hsucc & Hfail
        & _ & Hlen & Hle & Heq & _).
  exists report, saved, w2, (successes generated), (failures generated).
  repeat (split; [done|]).
  split; [by rewrite successes_failures|]. by split.
Qed.

Lemma pair_of_fst {A B} (p : A * B) (a : A) : p.1 = a -> p = (a, p.2).
Proof. destruct p. cbn. by intros ->. Qed.

Lemma run_summary_counts_witness :
  let w := Scenario.two_articles in
  exists report saved w2 successCount failureCount,
    Clean.run_state "ai" "professional" 3 w = (Ok (report, saved), w2)
    /\ Dict.get report "total_articles" = Some (PInt 2)
    /\ Dict.get report "successful_articles" = Some (PInt successCount)
    /\ Dict.get report "failed_articles" = Some (PInt failureCount)
    /\ successCount + failureCount = 2
    /\ len saved <= successCount
    /\ ((forall path, can_open w path = true) -> len saved = successCount).
Proof.
  intros w.
  apply (run_summary_counts "ai" "professional" 3 w
           (Clean.fetch_news (Some ("ai" : str)) 3 w).2
           (match (Clean.fetch_news (Some ("ai" : str)) 3 w).1 with
            | Ok news => news
            | Raise _ => []
            end)).
  - apply pair_of_fst. vm_compute. reflexivity.
  - vm_compute. discriminate.
Defined.

(** C4 (as stated) fails: with the keyword ["AI/ML"] the article file name
    runs through a directory that does not exist, the save fails, and the
    report still counts the article as successful while no file is listed. *)
Lemma run_counts_unsaved_success :
  let w := Scenario.flat_disk Scenario.one_article in
  let r := Clean.run_state "AI/ML" "professional" 3 w in
  exists report saved,
    r.1 = Ok (report, saved)
    /\ Dict.get report "successful_articles" = Some (PInt 1)
    /\ Dict.get report "failed_articles" = Some (PInt 0)
    /\ saved = []
    /\ len saved <> 1
    /\ files r.2 = files w.
Proof.
  eexists _, _. vm_compute.
  refine (conj eq_refl (conj eq_refl (conj eq_refl (conj eq_refl (conj _ eq_refl))))).
  discriminate.
Qed.

Section PacedOutcomes.

Variable w0 : World.

Lemma paced_step (w w' : World) (ev : list event) :
  paced_from w0 w -> reaches w w' ev -> Spec.followed true ev = true ->
  paced_from w0 w'.
Proof.
  intros (ev0 & Hr & Hp) Hr' Hp'. exists (ev0 ++ ev).
  split; [by eapply reaches_trans | by apply followed_app].
Qed.

Lemma spaced_step (w w' : World) (ev : list event) :
  paced_from w0 w -> reaches w w' ev -> Spec.spaced true ev = true ->
  spaced_from w0 w'.
Proof.
  intros (ev0 & Hr & Hp) Hr' Hp'. exists (ev0 ++ ev).
  split; [by eapply reaches_trans | by apply spaced_app].
Qed.

Lemma paced_spaced (w : World) : paced_from w0 w -> spaced_from w0 w.
Proof. intros (ev & Hr & Hp). exists ev. split; [done | by apply followed_spaced]. Qed.

Lemma paced_outcome_same {A} (r : result A) (w : World) :
  paced_from w0 w -> paced_outcome w0 (r, w).
Proof. intros H. destruct r; [done | by apply paced_spaced]. Qed.

Lemma bind_paced {A B} (m : M A) (f : A -> M B) (w : World) :
  paced_outcome w0 (m w) ->
  (forall a w', paced_from w0 w' -> paced_outcome w0 (f a w')) ->
  paced_outcome w0 ((m ≫= f) w).
Proof.
  intros Hm Hf. unfold mbind, M_bind.
  destruct (m w) as [[a|e] w']; [by apply Hf | done].
Qed.

Lemma try_except_paced {A} (body : M A) (handler : exn -> M A) (w : World) :
  (match body w with
   | (_, w') => paced_from w0 w'
   end) ->
  (forall e w', paced_from w0 w' -> paced_outcome w0 (handler e w')) ->
  paced_outcome w0 (try_except body handler w).
Proof.
  intros Hb Hh. unfold try_except.
  destruct (body w) as [[a|e] w']; [done|].
  destruct (is_Exception e); [by apply Hh | by apply paced_spaced].
Qed.

Lemma for_each_paced {A S} (body : S -> A -> M S) (xs : list A) (st : S) (w : World) :
  (forall x st w, paced_from w0 w -> paced_outcome w0 (body st x w)) ->
  paced_from w0 w ->
  paced_outcome w0 (for_each xs body st w).
Proof.
  intros Hbody HI.
  exact (for_each_partial (paced_from w0) (spaced_from w0) body xs
           (paced_spaced) Hbody st w HI).
Qed.

End PacedOutcomes.

Section ActionRun.

Lemma spaced_at_most_one (ev : list event) :
  at_most_one_generation ev -> Spec.spaced true ev = true.
Proof. by intros [-> | [p ->]]. Qed.

Lemma action_fetch_world (keyword category : option str) (language : str)
      (max_articles : Z) (w : World) :
  (Action.fetch_latest_news keyword category language max_articles w).2
  = with_trace
      (trace w ++ [EvSearch (Action.query keyword category language max_articles)]) w.
Proof.
  unfold Action.fetch_latest_news, try_except, search_request. monad_unfold.
  destruct (answer _) as [reply|e]; cbn.
  - destruct (Action.results_of reply) as [items|e]; cbn.
    + destruct (mapM Action.convert_article items) as [|e]; cbn; [done|].
      by destruct (is_Exception e).
    + by destruct (is_Exception e).
  - by destruct (is_Exception e).
Qed.

Lemma action_generate_reaches (news_data : dict) (style : str) (w : World) :
  exists ev,
    reaches w (Action.generate_article news_data style w).2 ev
    /\ at_most_one_generation ev.
Proof.
  unfold Action.generate_article, try_except, generate_content. monad_unfold.
  destruct (Action.prompt news_data style) as [p|e].
  - exists [EvGenerate p]. split; [|right; eauto].
    destruct (answer _) as [text|e].
    + match goal with
      | |- context [Action.parse_response ?a ?b ?c ?d] =>
          destruct (Action.parse_response a b c d) as [d'|e]
      end.
      * apply reaches_emit.
      * destruct (is_Exception e); apply reaches_emit.
    + destruct (is_Exception e); apply reaches_emit.
  - exists []. split; [apply reaches_refl | by left].
Qed.

Variable w0 : World.

Lemma action_process_paced (prefix style : str) (keep : bool)
      (x : Z * pyval) (st : Action.progress) (w : World) :
  paced_from w0 w ->
  paced_outcome w0 (Action.process prefix style keep st x w).
Proof.
  intros Hw. destruct x as [i news]. unfold Action.process.
  destruct (action_generate_reaches (as_dict news) style w) as (ev & Hreach & Hone).
  unfold mbind at 1. unfold M_bind.
  destruct (Action.generate_article (as_dict news) style w) as [[article|e] w1];
    cbn [snd] in Hreach.
  2: { eapply spaced_step; [exact Hw | exact Hreach | by apply spaced_at_most_one]. }
  destruct (has_error article) eqn:Herr; cbn [negb].
  - unfold sleep. monad_unfold. cbn.
    eapply paced_step; [exact Hw | |].
    + eapply reaches_trans; [exact Hreach | apply reaches_sleep].
    + by apply followed_attempt.
  - unfold mbind at 1. unfold M_bind.
    unfold mbind at 1. unfold M_bind.
    unfold mbind at 1. unfold M_bind, now_strftime, ask.
    match goal with
    | |- context [Action.save_article_to_markdown article ?name] =>
        destruct (action_save_raises article name w1 Herr) as [e He]
    end.
    rewrite He. cbn.
    eapply spaced_step; [exact Hw | exact Hreach | by apply spaced_at_most_one].
Qed.

Lemma action_fetch_paced (keyword category : option str) (language : str)
      (max_articles : Z) (w : World) :
  paced_from w0 w ->
  paced_outcome w0 (Action.fetch_latest_news keyword category language max_articles w).
Proof.
  intros Hw.
  pose proof (action_fetch_world keyword category language max_articles w) as H.
  destruct (Action.fetch_latest_news _ _ _ _ w) as [r w1]. cbn in H. subst w1.
  apply paced_outcome_same.
  eapply paced_step; [exact Hw | apply reaches_emit | done].
Qed.

(** Every run of [main]: consecutive generation requests are 2 units apart. *)
Lemma action_main_paced : paced_outcome w0 (Action.main w0).
Proof.
  assert (Hstart : paced_from w0 w0).
  { exists []. split; [apply reaches_refl | done]. }
  unfold Action.main.
  apply bind_paced; [by apply paced_outcome_same|]. intros eventregistry_key w1 Hw1.
  apply bind_paced; [by apply paced_outcome_same|]. intros google_key w2 Hw2.
  destruct (_ || _); [by apply paced_spaced|].
  apply bind_paced; [by apply paced_outcome_same|]. intros kw_default w3 Hw3.
  apply bind_paced; [by apply paced_outcome_same|]. intros keyword w4 Hw4.
  apply bind_paced; [by apply paced_outcome_same|]. intros style_default w5 Hw5.
  apply bind_paced; [by apply paced_outcome_same|]. intros style w6 Hw6.
  apply bind_paced; [by apply paced_outcome_same|]. intros cat_default w7 Hw7.
  apply bind_paced; [by apply paced_outcome_same|]. intros category w8 Hw8.
  apply bind_paced.
  { apply try_except_paced; [done|]. intros e w' Hw'. by apply paced_spaced. }
  intros _ w9 Hw9.
  apply bind_paced.
  { destruct (PyVal.truthy (PStr keyword)); [|done].
    apply bind_paced; [by apply action_fetch_paced|]. intros news w10 Hw10.
    apply for_each_paced; [|done]. intros x st w Hw.
    by apply action_process_paced. }
  intros st w10 Hw10.
  apply bind_paced; [by apply action_fetch_paced|]. intros category_news w11 Hw11.
  apply bind_paced.
  { apply for_each_paced; [|done]. intros x st' w Hw.
    by apply action_process_paced. }
  intros st' w12 Hw12.
  destruct (PyVal.truthy _); [|done].
  apply bind_paced; [by apply paced_outcome_same|]. intros date w13 Hw13.
  apply bind_paced; [by apply paced_outcome_same|]. intros day w14 Hw14.
  apply try_except_paced.
  - unfold write_file. monad_unfold.
    destruct (can_open w14 _); [|done].
    eapply paced_step; [exact Hw14 | apply reaches_files | done].
  - intros e w' Hw'. done.
Qed.

End ActionRun.

(** C5 (amended).  In every run of news_bot_clean.py, each generation
    request is followed by a sleep of 2 units before anything else is
    requested, whether the attempt succeeded or failed; in every run of
    news_bot_clean.py and of news_bot_action.py, any two consecutive
    generation requests are separated by a sleep of 2 units. *)
Theorem delay_between_generation_calls
        (w : World) (keyword style : str) (max_articles : Z) :
  Spec.delay_after_every_generation
    (Spec.new_events w (Clean.run keyword style max_articles w).2) = true
  /\ Spec.delay_between_generations
       (Spec.new_events w (Clean.run keyword style max_articles w).2) = true
  /\ Spec.delay_between_generations
       (Spec.new_events w (Action.main w).2) = true.
Proof.
  destruct (clean_run_paced keyword style max_articles w) as (ev & Hreach & Hpaced).
  rewrite (new_events_reaches _ _ _ Hreach).
  split; [exact Hpaced|]. split; [by apply followed_spaced|].
  pose proof (action_main_paced w) as H. unfold paced_outcome in H.
  destruct (Action.main w) as [[[]|e] w']; destruct H as (ev' & Hreach' & Hp');
    cbn [snd]; rewrite (new_events_reaches _ _ _ Hreach'); [|done].
  by apply followed_spaced.
Qed.

(** C5 (as stated) fails for src/news_bot.py, whose loop has no delay: with
    two articles found and generated, its two generation requests follow
    one another directly. *)
Lemma newsbot_main_no_delay :
  let w := Scenario.two_generated_newsbot in
  let r := NewsBot.main Scenario.default_args w in
  r.1 = Ok tt
  /\ map is_generate (Spec.new_events w r.2) = [false; true; true]
  /\ Spec.delay_between_generations (Spec.new_events w r.2) = false.
Proof. vm_compute. by repeat split. Qed.

(** ** Runs without a single generated article (C3) *)

(** When no article is fetched, [run] of news_bot_clean.py returns the
    error record and writes nothing. *)
Lemma clean_run_no_articles (keyword style : str) (max_articles : Z) (w : World) :
  (Clean.fetch_news (Some keyword) max_articles w).1 = Ok [] ->
  exists report w',
    Clean.run keyword style max_articles w = (Ok report, w')
    /\ has_error report = true
    /\ files w' = files w.
Proof.
  intros Hfetch.
  pose proof (clean_fetch_world max_articles (Some keyword) w) as Hw.
  destruct (Clean.fetch_news (Some keyword) max_articles w) as [r w1] eqn:E.
  cbn in Hfetch, Hw. subst r w1.
  unfold Clean.run, Clean.run_state.
  unfold mbind at 1. unfold M_bind.
  unfold mbind at 1. unfold M_bind. rewrite E.
  eexists _, _. split; [reflexivity|]. by split.
Qed.

(** C3: the run the claim is wrong about.  Credentials are present, one
    article is found and its generation fails; [main] of
    news_bot_clean.py then ends with exit status 0, although the report
    counts no successful article and no article file was written (the only
    file is the JSON summary). *)
Theorem clean_main_all_failed_exits_zero :
  let w := Scenario.all_failed in
  let r := Clean.main w in
  exit_status r.1 = 0
  /\ (exists report,
        (Clean.run "artificial intelligence" "professional" 3 w).1 = Ok report
        /\ Dict.get report "successful_articles" = Some (PInt 0)
        /\ Dict.get report "failed_articles" = Some (PInt 1))
  /\ map fst (map_to_list (files r.2))
     = ["summary_artificial_intelligence_t2.json" : str].
Proof.
  refine (conj _ (conj _ _)).
  - vm_compute. reflexivity.
  - eexists. vm_compute. by repeat split.
  - vm_compute. reflexivity.
Qed.

(** On the same findings, [main] of src/news_bot.py exits with status 1 and
    writes nothing. *)
Example newsbot_main_all_failed_exits_one :
  let w := Scenario.all_failed_newsbot in
  let r := NewsBot.main Scenario.default_args w in
  exit_status r.1 = 1 /\ files r.2 = files w.
Proof. vm_compute. by split. Qed.

(** With no article found, both scripts exit with status 1 and write
    nothing. *)
Example mains_without_articles_exit_one :
  let w := Scenario.with_keys Scenario.quiet in
  exit_status (Clean.main w).1 = 1
  /\ files (Clean.main w).2 = files w
  /\ exit_status (NewsBot.main Scenario.default_args w).1 = 1
  /\ files (NewsBot.main Scenario.default_args w).2 = files w.
Proof. vm_compute. by repeat split. Qed.

(* ===================================================================== *)
(** * src/news_bot.py: a normal exit means an article was saved *)
(* ===================================================================== *)

Section KeepsFiles.

Lemma keeps_files_bind {A B} (m : M A) (f : A -> M B) :
  keeps_files m -> (forall a, keeps_files (f a)) -> keeps_files (m ≫= f).
Proof.
  intros Hm Hf w. unfold mbind, M_bind. specialize (Hm w).
  destruct (m w) as [[a|e] w']; cbn in *; [|done].
  by rewrite Hf.
Qed.

Lemma keeps_files_mret {A} (a : A) : keeps_files (mret a).
Proof. done. Qed.

Lemma keeps_files_lift {A} (r : result A) : keeps_files (lift r).
Proof. done. Qed.

Lemma keeps_files_ask {A} (f : World -> A) : keeps_files (ask f).
Proof. done. Qed.

Lemma keeps_files_try {A} (body : M A) (handler : exn -> M A) :
  keeps_files body -> (forall e, keeps_files (handler e)) ->
  keeps_files (try_except body handler).
Proof.
  intros Hb Hh w. unfold try_except. specialize (Hb w).
  destruct (body w) as [[a|e] w']; cbn in *; [done|].
  destruct (is_Exception e); [by rewrite Hh | done].
Qed.

Lemma keeps_files_for_each {A S} (body : S -> A -> M S) (xs : list A) (st : S) :
  (forall st x, keeps_files (body st x)) -> keeps_files (for_each xs body st).
Proof.
  intros Hb. revert st. induction xs as [|x xs IH]; intros st; [done|].
  cbn [for_each]. apply keeps_files_bind; [apply Hb | apply IH].
Qed.

Lemma keeps_files_read (path : str) : keeps_files (read_file path).
Proof. intros w. unfold read_file. by destruct (files w !! path). Qed.

Lemma keeps_files_generate_content (p : str) : keeps_files (generate_content p).
Proof. done. Qed.

Lemma keeps_files_post (url : str) (data : pyval) : keeps_files (requests_post url data).
Proof. done. Qed.

Lemma newsbot_generate_keeps_files (source_article : dict) (style : str) :
  keeps_files (NewsBot.generate_article source_article style).
Proof.
  unfold NewsBot.generate_article.
  apply keeps_files_bind; [apply keeps_files_lift|]. intros _.
  apply keeps_files_bind; [apply keeps_files_lift|]. intros p.
  apply keeps_files_try; [|intros; apply keeps_files_mret].
  apply keeps_files_bind; [apply keeps_files_generate_content|]. intros text.
  destruct (PyVal.truthy (PStr text)); [|apply keeps_files_mret].
  apply keeps_files_bind; [apply keeps_files_lift|]. intros ?.
  apply keeps_files_bind; [apply keeps_files_lift|]. intros ?.
  apply keeps_files_bind; [apply keeps_files_ask|]. intros ?.
  apply keeps_files_mret.
Qed.

Lemma newsbot_issue_keeps_files (articles : list str) (keyword run_number : str) :
  keeps_files (NewsBot.create_github_issue articles keyword run_number).
Proof.
  unfold NewsBot.create_github_issue.
  apply keeps_files_bind; [apply keeps_files_ask|]. intros token.
  apply keeps_files_bind; [apply keeps_files_ask|]. intros repo.
  destruct (_ || _); [apply keeps_files_mret|].
  apply keeps_files_bind; [apply keeps_files_ask|]. intros date.
  apply keeps_files_bind.
  { apply keeps_files_for_each. intros body [i filename].
    apply keeps_files_try; [|intros; apply keeps_files_mret].
    apply keeps_files_bind; [apply keeps_files_read|]. intros ?.
    apply keeps_files_mret. }
  intros issue_body.
  apply keeps_files_try; [|intros; apply keeps_files_mret].
  apply keeps_files_bind; [apply keeps_files_post|]. intros [status issue_data].
  destruct (status =? 201); [|apply keeps_files_mret].
  apply keeps_files_bind; [apply keeps_files_lift|]. intros ?.
  apply keeps_files_mret.
Qed.

End KeepsFiles.

Section NewsBotMain.

Lemma saved_articles_weaken (names : list str) (w w' : World) :
  (forall f, is_Some (files w !! f) -> is_Some (files w' !! f)) ->
  saved_articles names w -> saved_articles names w'.
Proof.
  intros Hsub H. eapply Forall_impl; [exact H|]. intros f [Hf Hp]. split; auto.
Qed.

(** A save that returns has written an article file and removed none. *)
Lemma newsbot_save_article_saved (article : dict) (keyword f : str) (w w' : World) :
  NewsBot.save_article article keyword w = (Ok f, w') ->
  saved_articles [f] w'
  /\ (forall g, is_Some (files w !! g) -> is_Some (files w' !! g)).
Proof.
  unfold NewsBot.save_article, write_file. monad_unfold.
  destruct (PyVal.getitem (PDict article) "title") as [title|e]; [|done].
  destruct (NewsBot.safe_title_of title) as [safe|e]; [|done].
  destruct (NewsBot.render article) as [content|e]; [|done].
  destruct (can_open w _); [|done].
  intros [= <- <-]. split.
  - constructor; [|constructor]. split; [|exact (startswith_app "article_" _)].
    cbn [files with_files]. eexists. apply lookup_insert_eq.
  - intros g Hg. cbn [files with_files]. rewrite lookup_insert.
    case_decide; eauto.
Qed.

Lemma newsbot_process_saved (a : NewsBot.args) (names names' : list str)
      (article : pyval) (w w' : World) :
  saved_articles names w ->
  NewsBot.process a names article w = (Ok names', w') ->
  saved_articles names' w'.
Proof.
  intros Hinv. unfold NewsBot.process. unfold mbind at 1. unfold M_bind.
  pose proof (newsbot_generate_keeps_files (as_dict article) (NewsBot.style a) w)
    as Hfiles.
  destruct (NewsBot.generate_article _ _ w) as [[generated|e] w1]; [|done].
  cbn in Hfiles.
  assert (Hinv1 : saved_articles names w1).
  { eapply saved_articles_weaken; [|exact Hinv]. intros f. by rewrite Hfiles. }
  destruct generated as [g|]; [|by intros [= <- <-]].
  destruct (PyVal.truthy (PDict g)); [|by intros [= <- <-]].
  unfold mbind, M_bind.
  destruct (NewsBot.save_article g (NewsBot.keyword a) w1) as [[f|e] w2] eqn:Hsave;
    [|done].
  intros [= <- <-].
  destruct (newsbot_save_article_saved _ _ _ _ _ Hsave) as [Hf Hsub].
  apply Forall_app. split; [|exact Hf].
  by eapply saved_articles_weaken.
Qed.

Lemma newsbot_loop_saved (a : NewsBot.args) (articles : list pyval)
      (names names' : list str) (w w' : World) :
  saved_articles names w ->
  for_each articles (NewsBot.process a) names w = (Ok names', w') ->
  saved_articles names' w'.
Proof.
  revert names w. induction articles as [|x xs IH]; intros names w Hinv.
  - by intros [= <- <-].
  - cbn [for_each]. unfold mbind, M_bind.
    destruct (NewsBot.process a names x w) as [[names1|e] w1] eqn:Hstep; [|done].
    apply IH. by eapply newsbot_process_saved.
Qed.

(** X1.  Whenever [main] of src/news_bot.py returns normally (exit status 0), an
    article file it saved is on the disk: a run without a single generated
    article never ends that way. *)
Lemma newsbot_main_success_saved (a : NewsBot.args) (w : World) :
  (NewsBot.main a w).1 = Ok tt ->
  exists path,
    is_Some (files (NewsBot.main a w).2 !! path)
    /\ Py.startswith path "article_" = true.
Proof.
  unfold NewsBot.main. monad_unfold.
  destruct (_ || _); [done|].
  unfold make_clients. destruct (answer (client_init w)) as [[]|e]; [|done].
  destruct (NewsBot.fetch_news _ _ w) as [[articles|e] w1]; [|done].
  destruct (negb (PyVal.truthy (PList articles))); [done|].
  destruct (for_each articles (NewsBot.process a) [] w1) as [[names|e] w2] eqn:Hloop;
    [|done].
  pose proof (newsbot_loop_saved a articles [] names w1 w2 (Forall_nil_2 _) Hloop)
    as Hsaved.
  destruct names as [|f names]; [done|]. cbn [negb PyVal.truthy map].
  pose proof (newsbot_issue_keeps_files (f :: names) (NewsBot.keyword a)
                (default ("local" : str) (environ w2 !! ("GITHUB_RUN_NUMBER" : str))) w2)
    as Hkeep.
  destruct (NewsBot.create_github_issue _ _ _ w2) as [[b|e] w3]; [|done].
  intros _. cbn [snd] in *. exists f.
  apply Forall_cons in Hsaved as [[Hf Hp] _]. by rewrite Hkeep.
Qed.

End NewsBotMain.

(* ===================================================================== *)
(** * Further properties of the string helpers *)
(* ===================================================================== *)

Section Sublists.

Implicit Types (s p : str) (c : ascii).

Lemma Forall_lstrip (P : ascii -> Prop) s : Forall P s -> Forall P (Py.lstrip s).
Proof.
  induction 1 as [|c s Hc Hs IH]; [constructor|]. cbn.
  destruct (Py.isspace c); [done | by constructor].
Qed.

Lemma Forall_strip (P : ascii -> Prop) s : Forall P s -> Forall P (Py.strip s).
Proof.
  intros H. unfold Py.strip, Py.rstrip.
  rewrite Forall_reverse. apply Forall_lstrip.
  rewrite Forall_reverse. by apply Forall_lstrip.
Qed.

Lemma lstrip_take n s : Py.lstrip s = s -> Py.lstrip (take n s) = take n s.
Proof.
  destruct s as [|c s]; [by rewrite take_nil|]. intros H.
  apply lstrip_fixed_head in H. destruct n; [done|]. cbn. by rewrite H.
Qed.

(** [rstrip] leaves a prefix, [lstrip] a suffix. *)
Lemma rstrip_prefix s : exists b, s = Py.rstrip s ++ b /\ all_space b.
Proof.
  destruct (lstrip_suffix (reverse s)) as (a & Ha & Hsp).
  exists (reverse a). split; [|by apply all_space_reverse].
  unfold Py.rstrip. rewrite <- reverse_app, <- Ha. by rewrite reverse_involutive.
Qed.

Lemma strip_infix s : exists a b, s = a ++ Py.strip s ++ b.
Proof.
  destruct (lstrip_suffix s) as (a & Ha & _).
  destruct (rstrip_prefix (Py.lstrip s)) as (b & Hb & _).
  exists a, b. unfold Py.strip. by rewrite <- Hb.
Qed.

End Sublists.

(** X2.  The file-name stem derived from a headline is safe to use as part
    of a file name: it has at most 50 characters, each of them
    alphanumeric, a space, a hyphen or an underscore, and it does not begin
    with whitespace.  The stem of src/news_bot.py has no space either. *)
Theorem safe_title_chars (title : str) :
  (length (safe_title title) <= 50)%nat
  /\ Forall (fun c => Py.isalnum c = true \/ c ∈ [" "; "-"; "_"]%char)
       (safe_title title)
  /\ Py.lstrip (safe_title title) = safe_title title
  /\ (length (NewsBot.safe_title title) <= 50)%nat
  /\ Forall (fun c => Py.isalnum c = true \/ c ∈ ["-"; "_"]%char)
       (NewsBot.safe_title title).
Proof.
  assert (Hk : forall c, keep_char c = true ->
                         Py.isalnum c = true \/ c ∈ [" "; "-"; "_"]%char).
  { intros c H. unfold keep_char in H. apply orb_true_iff in H as [H|H]; [by left|].
    right. by apply bool_decide_eq_true in H. }
  split; [rewrite safe_title_unfold, length_take; lia|].
  split.
  { eapply Forall_impl; [apply kept_safe_title|]. exact Hk. }
  split.
  { rewrite safe_title_unfold. apply lstrip_take.
    apply (strip_trimmed (List.filter keep_char title)). }
  split; [rewrite newsbot_safe_title_unfold, length_take; lia|].
  eapply Forall_impl; [apply solid_newsbot_safe_title|].
  intros c [Hc Hsp]. destruct (Hk c Hc) as [H|H]; [by left|]. right.
  by apply elem_of_cons in H as [->|H].
Qed.

Section Replace.

Implicit Types (s old : str) (c : ascii).

(** Replacing by the empty string only removes characters. *)
Lemma Forall_replace_go (P : ascii -> Prop) old k s :
  Forall P s -> Forall P (Py.replace_go old [] k s).
Proof.
  intros H. revert k. induction H as [|c s Hc Hs IH]; intros k; [done|].
  cbn [Py.replace_go]. destruct k; [|apply IH].
  destruct (Py.startswith (c :: s) old); [apply IH|].
  constructor; [done | apply IH].
Qed.

Lemma Forall_replace (P : ascii -> Prop) old s :
  Forall P s -> Forall P (Py.replace old [] s).
Proof. apply Forall_replace_go. Qed.

(** Replacing one character by the empty string removes it everywhere. *)
Lemma replace_char_gone c s : Forall (fun x => x <> c) (Py.replace [c] [] s).
Proof.
  unfold Py.replace. induction s as [|x s IH]; [constructor|].
  cbn [Py.replace_go]. destruct (Py.startswith (x :: s) [c]) eqn:E.
  - exact IH.
  - constructor; [|exact IH]. intros ->. cbn in E.
    rewrite decide_True in E by done. by rewrite startswith_nil in E.
Qed.

Lemma split_char_one_line s : Forall one_line (Py.split_char "010" s).
Proof.
  induction s as [|c s IH]; [by repeat constructor|]. cbn [Py.split_char].
  destruct (decide (c = "010"%char)) as [->|Hc].
  - constructor; [constructor | exact IH].
  - destruct (Py.split_char "010" s) as [|first rest].
    + by repeat constructor.
    + apply Forall_cons in IH as [H1 H2]. constructor; [|done].
      by constructor.
Qed.

Lemma Forall_ne_not_elem c s : Forall (fun x => x <> c) s <-> c ∉ s.
Proof.
  rewrite Forall_forall. split.
  - intros H Hin. by apply (H c).
  - intros H x Hx ->. done.
Qed.

End Replace.

Section ExtractTitle.

Lemma first_title_clean (lines : list str) :
  Forall one_line lines -> clean_title (NewsBot.first_title lines).
Proof.
  induction 1 as [|line lines Hline Hlines IH].
  - cbn [NewsBot.first_title]. unfold clean_title, trimmed, one_line.
    split; [done|]. split; [by vm_compute|].
    repeat split; by repeat constructor.
  - cbn [NewsBot.first_title].
    destruct (_ && _); [|exact IH].
    destruct (Z.ltb_spec 10
                (len (Py.strip (Py.replace "#" "" (Py.replace "*" ""
                                (Py.replace "**" "" (Py.strip line)))))))
      as [Hlen|_]; [|exact IH].
    split; [exact Hlen|]. split; [apply strip_trimmed|].
    split; [|split].
    + apply Forall_strip. do 3 apply Forall_replace. by apply Forall_strip.
    + apply Forall_strip, Forall_replace. apply (replace_char_gone "*").
    + apply Forall_strip. apply (replace_char_gone "#").
Qed.

End ExtractTitle.

(** X3.  The title [_extract_title] takes from a generated text is one
    line of more than ten characters, without surrounding whitespace and
    without the markdown characters [*] and [#]; this also holds of the
    default title returned when no line of the text qualifies. *)
Theorem extract_title_clean (content : str) :
  let title := NewsBot._extract_title content in
  10 < len title
  /\ Py.strip title = title
  /\ ("010"%char ∉ title) /\ ("*"%char ∉ title) /\ ("#"%char ∉ title).
Proof.
  destruct (first_title_clean (Py.split_char "010" content)
              (split_char_one_line content)) as (H1 & H2 & H3 & H4 & H5).
  cbn zeta. unfold NewsBot._extract_title.
  split; [done|]. split; [by apply strip_of_trimmed|].
  by rewrite <- !Forall_ne_not_elem.
Qed.

Section Preview.

Lemma slice_from_drop_any {A} (l : list A) n :
  0 <= n -> Py.slice_from l n = drop (Z.to_nat n) l.
Proof.
  intros Hn. unfold Py.slice_from, Py.clamp. cbv zeta.
  do 2 (destruct (Z.ltb_spec n 0); [lia|]).
  destruct (Z.ltb_spec (len l) n); [|done].
  unfold len in *. rewrite Nat2Z.id.
  rewrite !drop_ge; [done | lia | lia].
Qed.

(** The loop of the backup script: it adds lines that are not blank and do
    not begin with [*], and stops at three. *)
Lemma withissues_preview_loop (lines acc : list str) :
  (length acc < 3)%nat ->
  exists sel,
    WithIssues.preview_loop lines acc = acc ++ sel
    /\ sublist sel lines
    /\ (length (acc ++ sel) <= 3)%nat
    /\ Forall (fun l => Py.strip l <> [] /\ Py.startswith l "*" = false) sel.
Proof.
  revert acc. induction lines as [|line rest IH]; intros acc Hacc.
  { exists []. rewrite app_nil_r. repeat split; [constructor | lia | constructor]. }
  cbn [WithIssues.preview_loop].
  destruct (PyVal.truthy (PStr (Py.strip line)) && negb (Py.startswith line "*")
            && negb (Py.startswith line "**")) eqn:Hc.
  - apply andb_true_iff in Hc as [Hc _]. apply andb_true_iff in Hc as [H1 H2].
    cbn in H1. apply negb_true_iff, bool_decide_eq_false in H1.
    apply negb_true_iff in H2.
    destruct (Z.leb_spec 3 (len (acc ++ [line]))) as [Hfull|Hmore].
    + exists [line]. split; [done|]. split; [apply sublist_skip, sublist_nil_l|].
      split; [rewrite length_app; cbn; lia|]. by repeat constructor.
    + destruct (IH (acc ++ [line])) as (sel & Heq & Hsub & Hlen & Hall).
      { unfold len in Hmore. lia. }
      exists (line :: sel). rewrite Heq, <- app_assoc. split; [done|].
      split; [by apply sublist_skip|].
      split; [by rewrite <- app_assoc in Hlen|]. by constructor.
  - destruct (Z.leb_spec 3 (len acc)) as [Hfull|_].
    { unfold len in Hfull. lia. }
    destruct (IH acc Hacc) as (sel & Heq & Hsub & Hlen & Hall).
    exists sel. split; [done|]. split; [by apply sublist_cons|]. done.
Qed.

(** The loop of src/news_bot.py: it adds lines that are not blank and do
    not begin with [---], and stops at ten. *)
Lemma newsbot_preview_loop (lines acc : list str) :
  exists sel,
    NewsBot.preview_loop lines acc = acc ++ sel
    /\ sublist sel lines
    /\ Forall (fun l => Py.strip l <> [] /\ Py.startswith l "---" = false) sel.
Proof.
  revert acc. induction lines as [|line rest IH]; intros acc.
  { exists []. rewrite app_nil_r. repeat split; constructor. }
  cbn [NewsBot.preview_loop].
  destruct (PyVal.truthy (PStr (Py.strip line))
            && negb (Py.startswith line "---")) eqn:Hc.
  - apply andb_true_iff in Hc as [H1 H2].
    cbn in H1. apply negb_true_iff, bool_decide_eq_false in H1.
    apply negb_true_iff in H2.
    destruct (10 <=? len (acc ++ [line])).
    + exists [line]. split; [done|]. split; [apply sublist_skip, sublist_nil_l|].
      by repeat constructor.
    + destruct (IH (acc ++ [line])) as (sel & Heq & Hsub & Hall).
      exists (line :: sel). rewrite Heq, <- app_assoc. split; [done|].
      split; [by apply sublist_skip | by constructor].
  - destruct (IH acc) as (sel & Heq & Hsub & Hall).
    exists sel. split; [done|]. split; [by apply sublist_cons | done].
Qed.

End Preview.

(** X4.  The preview of an article in the issue body is short and made of
    lines of the article file from its ninth line on, in their order: in
    the backup script at most three lines, none blank and none beginning
    with [*]; in src/news_bot.py at most five lines, none blank and none
    beginning with [---]. *)
Theorem issue_preview_bounded (lines : list str) :
  let shown := WithIssues.preview_loop (Py.slice_from lines 8) [] in
  let shown' := Py.slice_to (NewsBot.preview_loop (Py.slice_from lines 8) []) 5 in
  ((length shown <= 3)%nat
   /\ sublist shown (drop 8 lines)
   /\ Forall (fun l => Py.strip l <> [] /\ Py.startswith l "*" = false) shown)
  /\ ((length shown' <= 5)%nat
      /\ sublist shown' (drop 8 lines)
      /\ Forall (fun l => Py.strip l <> [] /\ Py.startswith l "---" = false)
           shown').
Proof.
  cbn zeta. rewrite slice_from_drop_any by lia.
  change (Z.to_nat 8) with 8%nat. split.
  - destruct (withissues_preview_loop (drop 8 lines) []) as (sel & -> & H1 & H2 & H3);
      [cbn; lia|].
    done.
  - destruct (newsbot_preview_loop (drop 8 lines) []) as (sel & -> & H1 & H2).
    rewrite slice_to_take by lia. change (Z.to_nat 5) with 5%nat.
    cbn [app]. split; [rewrite length_take; lia|].
    split; [|by apply Forall_take].
    etrans; [apply sublist_take | done].
Qed.

Section Infix.

Implicit Types (s p a b : str).

Lemma startswith_take n s p :
  Py.startswith (take n s) p = true -> Py.startswith s p = true.
Proof.
  revert n s. induction p as [|c p IH]; intros n s; [intros _; apply startswith_nil|].
  destruct s as [|d s]; [by rewrite take_nil|]. destruct n; [done|]. cbn.
  destruct (decide (c = d)); [apply IH | done].
Qed.

Lemma startswith_app_l s b p :
  Py.startswith s p = true -> Py.startswith (s ++ b) p = true.
Proof.
  revert s. induction p as [|c p IH]; intros s; [intros _; apply startswith_nil|].
  destruct s as [|d s]; [done|]. cbn.
  destruct (decide (c = d)); [apply IH | done].
Qed.

Lemma startswith_split s p :
  Py.startswith s p = true -> s = p ++ drop (length p) s.
Proof.
  revert s. induction p as [|c p IH]; intros s; [done|].
  destruct s as [|d s]; [done|]. cbn.
  destruct (decide (c = d)) as [->|]; [|done]. intros H. f_equal. by apply IH.
Qed.

Lemma search_take p s n :
  is_Some (Py.search p (take n s)) -> is_Some (Py.search p s).
Proof.
  revert n. induction s as [|c s IH]; intros n; [by rewrite take_nil|].
  destruct n as [|n].
  - destruct p; cbn; [eauto | by intros [? [=]]].
  - cbn [take Py.search].
    destruct (Py.startswith (c :: take n s) p) eqn:E.
    + apply (startswith_take (S n) (c :: s)) in E. by rewrite E.
    + destruct (Py.startswith (c :: s) p); [done|].
      rewrite !fmap_is_Some. apply IH.
Qed.

(** Before its first occurrence, a non-empty string does not occur. *)
Lemma search_take_None p s i :
  p <> [] -> Py.search p s = Some i -> Py.search p (take i s) = None.
Proof.
  intros Hp. revert i. induction s as [|c s IH]; intros i.
  - cbn. destruct p; [done|]. done.
  - cbn [Py.search]. destruct (Py.startswith (c :: s) p) eqn:E.
    + intros [= <-]. cbn. by destruct p.
    + destruct (Py.search p s) as [j|] eqn:Ej; [|done].
      cbn. intros [= <-]. cbn [take Py.search].
      destruct (Py.startswith (c :: take j s) p) eqn:E'.
      * apply (startswith_take (S j) (c :: s)) in E'. congruence.
      * by rewrite (IH j eq_refl).
Qed.

Lemma search_app_r p a s :
  is_Some (Py.search p s) -> is_Some (Py.search p (a ++ s)).
Proof.
  intros H. induction a as [|c a IH]; [done|]. cbn [app Py.search].
  destruct (Py.startswith _ p); [done|]. by rewrite fmap_is_Some.
Qed.

Lemma search_app_l p s b :
  is_Some (Py.search p s) -> is_Some (Py.search p (s ++ b)).
Proof.
  induction s as [|c s IH].
  - destruct p; [intros _; destruct b; cbn; eauto | cbn; by intros [? [=]]].
  - cbn [app Py.search]. destruct (Py.startswith (c :: s) p) eqn:E.
    + apply (startswith_app_l _ b) in E. cbn [app] in E. by rewrite E.
    + destruct (Py.startswith (c :: s ++ b) p); [done|].
      rewrite !fmap_is_Some. apply IH.
Qed.

(** What a part of a string contains, the string contains. *)
Lemma contains_infix p a s b :
  Py.contains p s = true -> Py.contains p (a ++ s ++ b) = true.
Proof.
  rewrite !contains_true. intros H. by apply search_app_r, search_app_l.
Qed.

Lemma contains_strip p s :
  Py.contains p (Py.strip s) = true -> Py.contains p s = true.
Proof.
  destruct (strip_infix s) as (a & b & Hs). intros H.
  rewrite Hs. by apply contains_infix.
Qed.

Lemma not_contains_strip p s :
  Py.contains p s = false -> Py.contains p (Py.strip s) = false.
Proof.
  intros H. destruct (Py.contains p (Py.strip s)) eqn:E; [|done].
  apply contains_strip in E. congruence.
Qed.

End Infix.

Section ExtractSectionShape.

Variables content marker : str.

Let start := Py.find content marker 0 + len marker.

Lemma extract_section_slice (end_ : Z) :
  Py.contains marker content = true ->
  exists k, Py.slice content start end_ = take k (drop (Z.to_nat start) content).
Proof.
  intros Hin. pose proof (start_in_range content marker Hin) as Hstart.
  fold start in Hstart. unfold Py.slice. cbv zeta.
  rewrite (clamp_inside _ start) by done. eauto.
Qed.

(** The text after the first occurrence of the marker. *)
Lemma content_after_marker :
  Py.contains marker content = true ->
  exists pre, content = pre ++ marker ++ drop (Z.to_nat start) content.
Proof.
  intros Hin. pose proof Hin as Hs. apply contains_true in Hs as [i Hi].
  pose proof (find_from content marker 0) as Hf.
  change (Z.to_nat 0) with 0%nat in Hf. rewrite drop_0 in Hf.
  specialize (Hf ltac:(pose proof (len_nonneg content); lia)).
  rewrite Hi in Hf.
  apply search_Some in Hi as [Hi _]. apply startswith_split in Hi.
  exists (take i content).
  rewrite <- (take_drop i content) at 1. f_equal.
  rewrite Hi at 1. f_equal. rewrite drop_drop. f_equal.
  unfold start, len. rewrite Hf. lia.
Qed.

Lemma extract_section_no_blank_line :
  Py.contains (NL ++ NL) (Clean._extract_section content marker) = false.
Proof.
  unfold Clean._extract_section.
  destruct (Py.contains marker content) eqn:Hin; [|done].
  pose proof (start_in_range content marker Hin) as Hstart. fold start in Hstart.
  fold start. apply not_contains_strip.
  pose proof (find_from content (NL ++ NL) start Hstart) as Hf.
  destruct (Py.search (NL ++ NL) (drop (Z.to_nat start) content)) as [i|] eqn:Hi.
  - destruct (Z.eqb_spec (Py.find content (NL ++ NL) start) (-1)) as [E|_]; [lia|].
    rewrite Hf. unfold Py.slice. cbv zeta.
    apply search_Some in Hi as Hlen. destruct Hlen as [_ Hlen].
    rewrite length_drop in Hlen.
    rewrite (clamp_inside _ start) by done.
    rewrite clamp_inside by (clearbody start; unfold len in *; lia).
    replace (Z.to_nat (start + Z.of_nat i - start)) with i by lia.
    apply contains_false. by apply search_take_None.
  - destruct (Z.eqb_spec (Py.find content (NL ++ NL) start) (-1)) as [_|E]; [|lia].
    destruct (extract_section_slice
                (Clean.next_marker_pos content marker start) Hin) as [k ->].
    apply contains_false. apply eq_None_not_Some. intros H.
    apply search_take in H. rewrite Hi in H. by destruct H.
Qed.

Lemma extract_section_part_of_content :
  Py.contains marker content = true ->
  exists pre mid post,
    content = pre ++ marker ++ mid
              ++ Clean._extract_section content marker ++ post.
Proof.
  intros Hin. destruct (content_after_marker Hin) as [pre Hpre].
  unfold Clean._extract_section. rewrite Hin. fold start.
  match goal with
  | |- context [Py.slice content start ?e] =>
      destruct (extract_section_slice e Hin) as [k Hk]; rewrite Hk
  end.
  destruct (strip_infix (take k (drop (Z.to_nat start) content))) as (a & b & Hs).
  exists pre, a, (b ++ drop k (drop (Z.to_nat start) content)).
  rewrite Hpre at 1. f_equal. f_equal.
  rewrite <- (take_drop k (drop (Z.to_nat start) content)) at 1.
  rewrite Hs at 1. by rewrite <- !app_assoc.
Qed.

End ExtractSectionShape.

(** X5.  A field extracted by [_extract_section] has no surrounding
    whitespace and never contains a blank line; when the marker occurs in
    the text, the field is a part of the text that comes after the first
    occurrence of the marker. *)
Theorem extract_section_shape (content marker : str) :
  let field := Clean._extract_section content marker in
  Py.strip field = field
  /\ Py.contains (NL ++ NL) field = false
  /\ (Py.contains marker content = true ->
      exists pre mid post, content = pre ++ marker ++ mid ++ field ++ post).
Proof.
  cbn zeta. split; [|split].
  - unfold Clean._extract_section. destruct (Py.contains marker content); [|done].
    apply strip_idem.
  - apply extract_section_no_blank_line.
  - apply extract_section_part_of_content.
Qed.

Lemma extract_section_shape_witness :
  let field := Clean._extract_section Scenario.marked_text "LEAD:" in
  field = "B"
  /\ Py.strip field = field
  /\ Py.contains (NL ++ NL) field = false
  /\ exists pre mid post,
      Scenario.marked_text = pre ++ "LEAD:" ++ mid ++ field ++ post.
Proof.
  intros field. split; [reflexivity|].
  destruct (extract_section_shape Scenario.marked_text "LEAD:") as (H1 & H2 & H3).
  split; [exact H1|]. split; [exact H2|]. apply H3. reflexivity.
Defined.

(* ===================================================================== *)
(** * What the fetch functions return *)
(* ===================================================================== *)

Section FetchShape.

Lemma bind_Ok {A B} (m : result A) (f : A -> result B) (b : B) :
  m ≫= f = Ok b -> exists a, m = Ok a /\ f a = Ok b.
Proof. destruct m as [a|e]; [eauto | done]. Qed.

Lemma length_slice_to {A} (l : list A) (n : Z) :
  0 <= n -> len (Py.slice_to l n) <= n.
Proof.
  intros Hn. rewrite slice_to_take by done. unfold len.
  rewrite length_take. lia.
Qed.

Lemma len_snoc {A} (l : list A) (x : A) : len (l ++ [x]) = len l + 1.
Proof. by rewrite len_app. Qed.

(** ** examples/news_bot_clean.py *)

Lemma clean_convert_keys (article v : pyval) :
  Clean.convert_article article = Ok v ->
  has_keys ["title" : str; "body" : str; "url" : str; "date" : str;
            "source" : str; "lang" : str] v.
Proof.
  unfold Clean.convert_article. destruct article; try done.
  cbn -[Dict.make]. intros (source & _ & [= <-])%bind_Ok.
  by eexists.
Qed.

Lemma clean_collect_bound (items : list pyval) (max_articles : Z)
      (articles arts : list pyval) (count : Z) (P : pyval -> Prop) :
  (forall x v, Clean.convert_article x = Ok v -> P v) ->
  count = len articles ->
  Forall P articles ->
  Clean.collect items max_articles articles count = Ok arts ->
  len arts <= Z.max (len articles + 1) max_articles /\ Forall P arts.
Proof.
  intros HP. revert articles count.
  induction items as [|x items IH]; intros articles count Hcount Hall.
  - intros [= <-]. split; [lia | done].
  - cbn [Clean.collect]. intros (a & Ha & H)%bind_Ok.
    apply bind_Ok in H as (_ & _ & H).
    assert (Hall' : Forall P (articles ++ [a])).
    { apply Forall_app. split; [done|]. constructor; [by eapply HP | done]. }
    destruct (Z.leb_spec max_articles (count + 1)) as [Hfull|Hmore].
    + injection H as <-. split; [rewrite len_snoc; lia | done].
    + apply IH in H as [H1 H2]; [|rewrite len_snoc; lia | done].
      split; [|done]. rewrite len_snoc in H1. lia.
Qed.

(** ** src/clean_functional_news_bot_with_issues_backup.py *)

Lemma withissues_convert_keys (article v : pyval) :
  WithIssues.convert_article article = Ok v ->
  has_keys ["title" : str; "body" : str; "url" : str; "date" : str;
            "source" : str; "categories" : str] v.
Proof.
  unfold WithIssues.convert_article. destruct article; try done.
  cbn -[Dict.make WithIssues.labels].
  intros (source & _ & (cats & _ & [= <-])%bind_Ok)%bind_Ok.
  by eexists.
Qed.

Lemma withissues_collect_bound (items : list pyval) (max_articles : Z)
      (articles arts : list pyval) (P : pyval -> Prop) :
  (forall x v, WithIssues.convert_article x = Ok v -> P v) ->
  Forall P articles ->
  WithIssues.collect items max_articles articles = Ok arts ->
  len arts <= Z.max (len articles + 1) max_articles /\ Forall P arts.
Proof.
  intros HP. revert articles.
  induction items as [|x items IH]; intros articles Hall.
  - intros [= <-]. split; [lia | done].
  - cbn [WithIssues.collect]. intros (a & Ha & H)%bind_Ok.
    assert (Hall' : Forall P (articles ++ [a])).
    { apply Forall_app. split; [done|]. constructor; [by eapply HP | done]. }
    destruct (Z.leb_spec max_articles (len (articles ++ [a]))) as [Hfull|Hmore].
    + injection H as <-. split; [rewrite len_snoc; lia | done].
    + apply IH in H as [H1 H2]; [|done].
      split; [|done]. rewrite len_snoc in H1, Hmore. lia.
Qed.

Lemma len_nil_max (m : Z) : len (@nil pyval) <= Z.max 1 m.
Proof. change (len (@nil pyval)) with 0. lia. Qed.

End FetchShape.

(** X6.  [fetch_news] of news_bot_clean.py and [fetch_news_articles] of the
    backup script never raise, whatever the service answers.  They make
    exactly one search request and change nothing else; the list they
    return has at most [max_articles] elements --- one, when
    [max_articles] is below 1, since the limit is tested after an article
    was added --- and each element is a dictionary with the six keys the
    loop writes. *)
Theorem fetch_returns_bounded_list (keyword : str) (max_articles : Z) (w : World) :
  (exists arts,
     Clean.fetch_news (Some keyword) max_articles w
     = (Ok arts, with_trace (trace w ++ [EvSearch (Clean.query (Some keyword))]) w)
     /\ len arts <= Z.max 1 max_articles
     /\ Forall (has_keys ["title" : str; "body" : str; "url" : str;
                          "date" : str; "source" : str; "lang" : str]) arts)
  /\ (exists arts w',
        WithIssues.fetch_news_articles keyword max_articles w = (Ok arts, w')
        /\ files w' = files w
        /\ (length (Spec.new_events w w') <= 1)%nat
        /\ len arts <= Z.max 1 max_articles
        /\ Forall (has_keys ["title" : str; "body" : str; "url" : str;
                             "date" : str; "source" : str;
                             "categories" : str]) arts).
Proof.
  split.
  - unfold Clean.fetch_news, try_except, search_request. monad_unfold.
    destruct (search_reply w _) as [reply|kind msg]; cbn -[Z.max len].
    2:{ eexists. split; [done|]. split; [apply len_nil_max | constructor]. }
    destruct (PyVal.iter reply) as [items|e] eqn:Hiter; cbn -[Z.max len].
    2:{ pose proof (ordinary_iter reply) as Ho. rewrite Hiter in Ho. cbn in Ho.
        rewrite Ho. eexists. split; [done|]. split; [apply len_nil_max | constructor]. }
    destruct (Clean.collect items max_articles [] 0) as [arts|e] eqn:Hc; cbn -[Z.max len].
    + eexists. split; [done|].
      by apply (clean_collect_bound _ _ _ _ _ _ clean_convert_keys eq_refl
                  (Forall_nil_2 _)) in Hc.
    + pose proof (ordinary_clean_collect items max_articles [] 0) as Ho.
      rewrite Hc in Ho. cbn in Ho. rewrite Ho.
      eexists. split; [done|]. split; [apply len_nil_max | constructor].
  - unfold WithIssues.fetch_news_articles, try_except, search_request, make_clients.
    monad_unfold.
    destruct (client_init w) as [[]|kind msg]; cbn -[Z.max len].
    2:{ eexists _, _. split; [done|].
        unfold Spec.new_events. rewrite drop_all. cbn.
        repeat split; [lia | apply len_nil_max | constructor]. }
    assert (Hev : forall w0 : World,
               trace w0 = trace w ++ [EvSearch (WithIssues.query keyword)] ->
               (length (Spec.new_events w w0) <= 1)%nat).
    { intros w0 Ht. unfold Spec.new_events. rewrite Ht, drop_app_length. done. }
    destruct (search_reply w _) as [reply|kind msg]; cbn -[Z.max len].
    2:{ eexists _, _. split; [done|].
        split; [done|]. split; [by apply Hev|]. split; [apply len_nil_max | constructor]. }
    destruct (PyVal.iter reply) as [items|e] eqn:Hiter; cbn -[Z.max len].
    2:{ pose proof (ordinary_iter reply) as Ho. rewrite Hiter in Ho. cbn in Ho.
        rewrite Ho. eexists _, _. split; [done|].
        split; [done|]. split; [by apply Hev|]. split; [apply len_nil_max | constructor]. }
    destruct (WithIssues.collect items max_articles []) as [arts|e] eqn:Hc; cbn -[Z.max len].
    + eexists _, _. split; [done|]. split; [done|]. split; [by apply Hev|].
      by apply (withissues_collect_bound _ _ _ _ _ withissues_convert_keys
                  (Forall_nil_2 _)) in Hc.
    + pose proof (ordinary_withissues_collect items max_articles []) as Ho.
      rewrite Hc in Ho. cbn in Ho. rewrite Ho.
      eexists _, _. split; [done|].
      split; [done|]. split; [by apply Hev|]. split; [apply len_nil_max | constructor].
Qed.

Section NewsBotFetch.

Lemma names_list (authors v : pyval) :
  NewsBot.names authors = Ok v -> exists l, v = PList l.
Proof.
  unfold NewsBot.names. intros (xs & _ & (ns & _ & [= <-])%bind_Ok)%bind_Ok.
  eauto.
Qed.

Lemma newsbot_convert_shape (with_authors : bool) (article v : pyval) :
  NewsBot.convert_article with_authors article = Ok v -> newsbot_article v.
Proof.
  unfold NewsBot.convert_article. destruct article; try done.
  cbn -[Dict.make NewsBot.names].
  intros (title & Ht & H)%bind_Ok.
  apply bind_Ok in H as (b & Hb & H).
  apply bind_Ok in H as (body & Hbody & H).
  apply bind_Ok in H as (source & _ & H).
  apply bind_Ok in H as (authors & Hauthors & [= <-]).
  match type of Ht with PyVal.strip ?x = _ => destruct x; try done end.
  match type of Hb with PyVal.strip ?x = _ => destruct x; try done end.
  cbn [PyVal.strip] in Ht, Hb. injection Ht as <-. injection Hb as <-.
  cbn [PyVal.slice_to] in Hbody. injection Hbody as <-.
  assert (exists l, authors = PList l) as [l ->].
  { destruct with_authors; [by eapply names_list | injection Hauthors as <-; eauto]. }
  eexists _, _, _, _, _, _. split; [reflexivity|].
  split; [apply strip_idem | by apply length_slice_to].
Qed.

Lemma newsbot_collect_shape (items : list pyval) (max_articles : Z)
      (articles arts : list pyval) :
  Forall newsbot_article articles ->
  NewsBot.collect items max_articles articles = Ok arts ->
  len arts <= Z.max (len articles + 1) max_articles
  /\ Forall newsbot_article arts.
Proof.
  revert articles. induction items as [|x items IH]; intros articles Hall.
  - intros [= <-]. split; [lia | done].
  - cbn [NewsBot.collect]. intros ([|] & _ & H)%bind_Ok.
    2:{ apply IH in H as [H1 H2]; [|done]. split; [lia | done]. }
    apply bind_Ok in H as (a & Ha & H).
    assert (Hall' : Forall newsbot_article (articles ++ [a])).
    { apply Forall_app. split; [done|].
      constructor; [by eapply newsbot_convert_shape | done]. }
    destruct (Z.leb_spec max_articles (len (articles ++ [a]))) as [Hfull|Hmore].
    + injection H as <-. split; [rewrite len_snoc; lia | done].
    + apply IH in H as [H1 H2]; [|done].
      split; [|done]. rewrite len_snoc in H1, Hmore. lia.
Qed.

Lemma newsbot_collect_all_shape (items : list pyval) (articles arts : list pyval) :
  Forall newsbot_article articles ->
  NewsBot.collect_all items articles = Ok arts ->
  Forall newsbot_article arts.
Proof.
  revert articles. induction items as [|x items IH]; intros articles Hall.
  - by intros [= <-].
  - cbn [NewsBot.collect_all]. intros ([|] & _ & H)%bind_Ok; [|by eapply IH].
    apply bind_Ok in H as (a & Ha & H). eapply IH; [|exact H].
    apply Forall_app. split; [done|].
    constructor; [by eapply newsbot_convert_shape | done].
Qed.

Lemma newsbot_fallback_shape (keyword : str) (max_articles : Z)
      (w w' : World) (arts : list pyval) :
  NewsBot._fetch_news_fallback keyword max_articles w = (Ok arts, w') ->
  Forall newsbot_article arts
  /\ trace w' = trace w ++ [EvSearch (NewsBot.query_params keyword max_articles)].
Proof.
  unfold NewsBot._fetch_news_fallback, try_except, search_request. monad_unfold.
  destruct (search_reply w _) as [reply|kind msg]; cbn -[NewsBot.query_params].
  2:{ intros [= <- <-]. split; [constructor | done]. }
  destruct (if PyVal.truthy reply then Action.results_of reply else Ok [])
    as [items|e]; cbn -[NewsBot.query_params].
  2:{ destruct (is_Exception e); [|done]. intros [= <- <-].
      split; [constructor | done]. }
  destruct (NewsBot.collect_all items []) as [l|e] eqn:Hc; cbn -[NewsBot.query_params].
  - intros [= <- <-]. split; [|done].
    by eapply newsbot_collect_all_shape; [|exact Hc].
  - destruct (is_Exception e); [|done]. intros [= <- <-].
    split; [constructor | done].
Qed.

End NewsBotFetch.

(** X7.  Every article [fetch_news] of src/news_bot.py returns, by its main
    path or by its fallback, is a dictionary with the keys title, body,
    url, source, date and authors, whose title is a string without
    surrounding whitespace and whose body is a string of at most 2000
    characters.  When a single request was enough --- the main path
    answered --- the list has at most [max_articles] elements (one, when
    [max_articles] is below 1); the fallback has no such limit of its
    own. *)
Theorem newsbot_fetch_articles
        (keyword : str) (max_articles : Z) (w w' : World) (arts : list pyval) :
  NewsBot.fetch_news keyword max_articles w = (Ok arts, w') ->
  Forall newsbot_article arts
  /\ ((length (Spec.new_events w w') <= 1)%nat ->
      request_classes w = true ->
      len arts <= Z.max 1 max_articles).
Proof.
  unfold NewsBot.fetch_news, try_except at 1.
  destruct ((_ ← NewsBot.build_request;
             reply ← search_request (NewsBot.query keyword max_articles);
             items ← lift (Action.results_of reply);
             lift (NewsBot.collect items max_articles [])) w)
    as [[l|e] w1] eqn:Hbody.
  - intros [= <- <-]. revert Hbody.
    unfold NewsBot.build_request, search_request. monad_unfold.
    destruct (request_classes w); [|done].
    destruct (answer _) as [reply|e]; [|done].
    destruct (Action.results_of reply) as [items|e]; [|done].
    destruct (NewsBot.collect items max_articles []) as [l'|e] eqn:Hc; [|done].
    intros [= <- <-].
    apply newsbot_collect_shape in Hc as [H1 H2]; [|constructor].
    split; [done|]. intros _ _. exact H1.
  - destruct (is_Exception e); [|done]. intros Hfb.
    apply newsbot_fallback_shape in Hfb as [Hall Htrace].
    split; [done|]. intros Hone Hclasses. exfalso. revert Hbody Hone.
    unfold NewsBot.build_request, search_request. monad_unfold.
    rewrite Hclasses. unfold Spec.new_events. rewrite Htrace.
    destruct (answer _) as [reply|e1];
      [destruct (Action.results_of reply) as [items|e2];
       [destruct (NewsBot.collect items max_articles []) as [l'|e3]|]|];
      try done; intros [= <- <-]; cbn [trace with_trace];
      rewrite <- app_assoc, drop_app_length; cbn; lia.
Qed.

Lemma newsbot_fetch_articles_witness :
  let w := Scenario.all_failed_newsbot in
  let r := NewsBot.fetch_news "ai" 3 w in
  exists arts,
    r.1 = Ok arts /\ Forall newsbot_article arts /\ len arts <= Z.max 1 3.
Proof.
  intros w r. eexists. split; [reflexivity|].
  assert (Hr : r = (Ok _, r.2)) by (apply pair_of_fst; reflexivity).
  destruct (newsbot_fetch_articles "ai" 3 w r.2 _ Hr) as [H1 H2].
  split; [exact H1 | apply H2; [vm_compute; lia | reflexivity]].
Defined.

Section BackupFetch.

Lemma ordinary_backup_convert article : ordinary (Backup.convert_article article).
Proof.
  unfold Backup.convert_article.
  apply ordinary_bind; [apply ordinary_get|]. intros ?.
  apply ordinary_bind; [apply ordinary_get|]. intros ?.
  apply ordinary_bind; [apply ordinary_slice_to|]. intros b.
  apply ordinary_bind; [by destruct b|]. intros ?.
  repeat (apply ordinary_bind; [apply ordinary_get|]; intros ?). done.
Qed.

Lemma ordinary_backup_collect items max_articles articles count :
  ordinary (Backup.collect items max_articles articles count).
Proof.
  revert articles count. induction items as [|x items IH]; intros; [done|].
  cbn [Backup.collect]. destruct (_ <=? _); [done|].
  apply ordinary_bind; [apply ordinary_backup_convert|]. intros a. apply IH.
Qed.

Lemma backup_convert_shape (article v : pyval) :
  Backup.convert_article article = Ok v -> simple_article v.
Proof.
  unfold Backup.convert_article. destruct article; try done.
  cbn -[Dict.make].
  intros (b & Hb & H)%bind_Ok.
  apply bind_Ok in H as (body & Hbody & H).
  apply bind_Ok in H as (source & _ & [= <-]).
  match type of Hb with PyVal.slice_to ?x _ = _ => destruct x; try done end;
    cbn [PyVal.slice_to] in Hb; injection Hb as <-; [|done].
  cbn [Backup.concat_str] in Hbody. injection Hbody as <-.
  eexists _, _, _, _, _. split; [reflexivity|]. by apply length_slice_to.
Qed.

Lemma backup_collect_shape (items : list pyval) (max_articles : Z)
      (articles arts : list pyval) (count : Z) :
  count = len articles ->
  Forall simple_article articles ->
  Backup.collect items max_articles articles count = Ok arts ->
  len arts <= Z.max (len articles) max_articles /\ Forall simple_article arts.
Proof.
  revert articles count.
  induction items as [|x items IH]; intros articles count Hcount Hall.
  - intros [= <-]. split; [lia | done].
  - cbn [Backup.collect].
    destruct (Z.leb_spec max_articles count) as [Hfull|Hmore].
    { intros [= <-]. split; [lia | done]. }
    intros (a & Ha & H)%bind_Ok.
    apply IH in H as [H1 H2]; [|rewrite len_snoc; lia|].
    + split; [|done]. rewrite len_snoc in H1. lia.
    + apply Forall_app. split; [done|].
      constructor; [by eapply backup_convert_shape | done].
Qed.

End BackupFetch.

(** X8.  [fetch_simple_news] of clean_functional_news_bot_backup.py never
    raises and makes at most one search request.  It returns at most
    [max_articles] articles --- none when [max_articles] is zero or
    negative, since the limit is tested before an article is added ---
    and the body of each is a string of at most 503 characters that ends
    with three dots. *)
Theorem fetch_simple_news_result (keyword : str) (max_articles : Z) (w : World) :
  exists arts w',
    Backup.fetch_simple_news keyword max_articles w = (Ok arts, w')
    /\ files w' = files w
    /\ (length (Spec.new_events w w') <= 1)%nat
    /\ len arts <= Z.max 0 max_articles
    /\ Forall simple_article arts.
Proof.
  unfold Backup.fetch_simple_news, try_except, search_request, make_clients.
  monad_unfold.
  assert (Hnil : len (@nil pyval) <= Z.max 0 max_articles).
  { change (len (@nil pyval)) with 0. lia. }
  destruct (client_init w) as [[]|kind msg]; cbn -[Z.max len].
  2:{ eexists _, _. split; [done|].
      unfold Spec.new_events. rewrite drop_all. cbn -[Z.max len].
      repeat split; [lia | done | constructor]. }
  assert (Hev : forall w0 : World,
             trace w0 = trace w ++ [EvSearch (Backup.query keyword)] ->
             (length (Spec.new_events w w0) <= 1)%nat).
  { intros w0 Ht. unfold Spec.new_events. rewrite Ht, drop_app_length. done. }
  destruct (search_reply w _) as [reply|kind msg]; cbn -[Z.max len].
  2:{ eexists _, _. split; [done|].
      split; [done|]. split; [by apply Hev|]. split; [done | constructor]. }
  destruct (PyVal.iter reply) as [items|e] eqn:Hiter; cbn -[Z.max len].
  2:{ pose proof (ordinary_iter reply) as Ho. rewrite Hiter in Ho. cbn in Ho.
      rewrite Ho. eexists _, _. split; [done|].
      split; [done|]. split; [by apply Hev|]. split; [done | constructor]. }
  destruct (Backup.collect items max_articles [] 0) as [arts|e] eqn:Hc;
    cbn -[Z.max len].
  - eexists _, _. split; [done|]. split; [done|]. split; [by apply Hev|].
    by apply (backup_collect_shape _ _ _ _ _ eq_refl (Forall_nil_2 _)) in Hc.
  - pose proof (ordinary_backup_collect items max_articles [] 0) as Ho.
    rewrite Hc in Ho. cbn in Ho. rewrite Ho.
    eexists _, _. split; [done|].
    split; [done|]. split; [by apply Hev|]. split; [done | constructor].
Qed.

Section ActionFetch.

Lemma action_labels_list (categories v : pyval) :
  Action.labels categories = Ok v -> exists l, v = PList l.
Proof.
  unfold Action.labels. intros (xs & _ & (ls & _ & [= <-])%bind_Ok)%bind_Ok.
  eauto.
Qed.

Lemma action_convert_keys (article v : pyval) :
  Action.convert_article article = Ok v ->
  has_keys ["title" : str; "body" : str; "url" : str; "date" : str;
            "source" : str; "authors" : str; "categories" : str] v.
Proof.
  unfold Action.convert_article. destruct article; try done.
  cbn -[Dict.make Action.labels].
  intros (source & _ & (cats & _ & [= <-])%bind_Ok)%bind_Ok.
  by eexists.
Qed.

Lemma mapM_Forall {A B} (f : A -> result B) (P : B -> Prop)
      (l : list A) (r : list B) :
  (forall a b, f a = Ok b -> P b) ->
  mapM f l = Ok r -> Forall P r /\ length r = length l.
Proof.
  intros Hf. revert r. induction l as [|a l IH]; intros r.
  - intros [= <-]. by split.
  - cbn. intros (b & Hb & (r' & Hr' & [= <-])%bind_Ok)%bind_Ok.
    destruct (IH r' Hr') as [H1 H2]. split; [|cbn; lia].
    constructor; [by eapply Hf | done].
Qed.

Lemma ordinary_action_convert article : ordinary (Action.convert_article article).
Proof.
  unfold Action.convert_article.
  repeat (apply ordinary_bind; [apply ordinary_get|]; intros ?).
  apply ordinary_bind; [|done].
  unfold Action.labels.
  apply ordinary_bind; [apply ordinary_iter|]. intros ?.
  apply ordinary_bind; [|by intros ?].
  apply ordinary_mapM. intros ?. apply ordinary_get.
Qed.

End ActionFetch.

(** X9.  [fetch_latest_news] of news_bot_action.py never raises.  It makes
    exactly one search request and changes nothing else, and every element
    of the list it returns is a dictionary with the seven keys the loop
    writes.  A reply without ["articles"], or whose ["articles"] has no
    ["results"], gives the empty list. *)
Theorem action_fetch_result
        (keyword category : option str) (language : str) (max_articles : Z)
        (w : World) :
  exists arts,
    Action.fetch_latest_news keyword category language max_articles w
    = (Ok arts,
       with_trace
         (trace w ++ [EvSearch (Action.query keyword category language
                                  max_articles)]) w)
    /\ Forall (has_keys ["title" : str; "body" : str; "url" : str;
                         "date" : str; "source" : str; "authors" : str;
                         "categories" : str]) arts
    /\ (forall reply,
          search_reply w (count_events is_search w) = Reply reply ->
          Action.results_of reply = Ok [] -> arts = []).
Proof.
  unfold Action.fetch_latest_news, try_except, search_request. monad_unfold.
  destruct (search_reply w _) as [reply|kind msg]; cbn -[Action.query].
  2:{ eexists. split; [done|]. split; [constructor | done]. }
  destruct (Action.results_of reply) as [items|e] eqn:Hitems; cbn -[Action.query].
  2:{ pose proof (ordinary_results_of reply) as Ho. rewrite Hitems in Ho.
      cbn in Ho. rewrite Ho. eexists. split; [done|].
      split; [constructor | done]. }
  pose proof (ordinary_mapM Action.convert_article items ordinary_action_convert)
    as Ho.
  destruct (mapM Action.convert_article items) as [arts|e] eqn:Hc;
    cbn -[Action.query]; cbn in Ho.
  - eexists. split; [done|]. split.
    + by apply (mapM_Forall _ _ _ _ action_convert_keys) in Hc as [Hc _].
    + intros reply' [= <-] Hnone. rewrite Hnone in Hitems.
      injection Hitems as <-. cbn in Hc. by injection Hc as <-.
  - rewrite Ho. eexists. split; [done|]. split; [constructor | done].
Qed.

Lemma action_fetch_result_witness :
  let w := Scenario.with_search (fun _ => Reply (PDict [])) Scenario.quiet in
  exists arts,
    Action.fetch_latest_news (Some ("ai" : str)) None "eng" 2 w
    = (Ok arts,
       with_trace
         (trace w ++ [EvSearch (Action.query (Some ("ai" : str)) None "eng" 2)]) w)
    /\ arts = [].
Proof.
  intros w.
  destruct (action_fetch_result (Some ("ai" : str)) None "eng" 2 w)
    as (arts & H1 & _ & H3).
  exists arts. split; [exact H1|]. by apply (H3 (PDict [])).
Defined.

Section MalformedArticle.

Lemma truthy_nonempty (s : str) : s <> [] -> PyVal.truthy (PStr s) = true.
Proof. intros H. cbn. by rewrite bool_decide_eq_false_2. Qed.

(** An article with a string as title and without source gets through. *)
Lemma clean_convertible_no_source (d : dict) (t : str) :
  Dict.get d "title" = Some (PStr t) -> Dict.get d "source" = None ->
  clean_convertible (PDict d).
Proof.
  intros Ht Hs. split.
  - unfold Clean.convert_article, PyVal.get, Dict.get_or.
    rewrite Hs. cbn -[Dict.make]. eauto.
  - unfold Clean.title_preview, PyVal.get, Dict.get_or.
    rewrite Ht. cbn. eauto.
Qed.

Lemma clean_convert_string_source (d : dict) (s : str) :
  Dict.get d "source" = Some (PStr s) -> s <> [] ->
  exists e, Clean.convert_article (PDict d) = Raise e /\ is_Exception e = true.
Proof.
  intros Hs Hne. unfold Clean.convert_article, PyVal.get, Dict.get_or.
  rewrite Hs. cbn -[Dict.make Dict.get PyVal.truthy].
  rewrite (truthy_nonempty s Hne). cbn. eauto.
Qed.

(** The loop of news_bot_clean.py reaches an article when it is the first
    or fewer than [max_articles] articles precede it; if that article
    cannot be converted, the exception leaves the loop. *)
Lemma clean_collect_raises (before rest : list pyval) (bad : pyval) (e : exn)
      (max_articles : Z) (articles : list pyval) (count : Z) :
  Forall clean_convertible before ->
  before = [] \/ count + len before < max_articles ->
  Clean.convert_article bad = Raise e ->
  Clean.collect (before ++ bad :: rest) max_articles articles count = Raise e.
Proof.
  intros Hok Hreach He. revert articles count Hreach.
  induction Hok as [|x before [[a Ha] [p Hp]] _ IH]; intros articles count Hreach.
  - cbn [app Clean.collect]. by rewrite He.
  - assert (Hlt : count + 1 + len before < max_articles).
    { destruct Hreach as [?|Hlt]; [done|].
      unfold len in *. cbn [length] in Hlt. lia. }
    cbn [app Clean.collect]. rewrite Ha, Hp. unfold mbind, result_bind.
    destruct (Z.leb_spec max_articles (count + 1)) as [?|_].
    { unfold len in Hlt. lia. }
    apply IH. by right.
Qed.

(** The loop of the backup script up to the last article of the reply. *)
Lemma withissues_collect_all (before kept : list pyval) (last a : pyval)
      (max_articles : Z) (articles : list pyval) :
  Forall2 (fun x b => WithIssues.convert_article x = Ok b) before kept ->
  WithIssues.convert_article last = Ok a ->
  before = [] \/ len articles + len before < max_articles ->
  WithIssues.collect (before ++ [last]) max_articles articles
  = Ok (articles ++ kept ++ [a]).
Proof.
  intros Hok Ha. revert articles.
  induction Hok as [|x b before kept Hb _ IH]; intros articles Hreach.
  - cbn [app WithIssues.collect]. rewrite Ha. unfold mbind, result_bind.
    by destruct (max_articles <=? _).
  - assert (Hlt : len (articles ++ [b]) + len before < max_articles).
    { destruct Hreach as [?|Hlt]; [done|]. rewrite len_snoc.
      unfold len in *. cbn [length] in Hlt. lia. }
    cbn [app WithIssues.collect]. rewrite Hb. unfold mbind, result_bind.
    destruct (Z.leb_spec max_articles (len (articles ++ [b]))) as [?|_].
    { unfold len in *. lia. }
    rewrite IH by by right. by rewrite <- app_assoc.
Qed.

Lemma withissues_convert_string_source (d : dict) (s : str) (cats : pyval) :
  Dict.get d "source" = Some (PStr s) ->
  WithIssues.labels (Dict.get_or d "categories" (PList [])) = Ok cats ->
  exists a,
    WithIssues.convert_article (PDict d) = Ok a
    /\ PyVal.get a "source" PNone = Ok (PStr s).
Proof.
  intros Hs Hc. unfold WithIssues.convert_article, PyVal.get, Dict.get_or in *.
  rewrite Hs. cbn -[Dict.make Dict.get WithIssues.labels].
  match goal with
  | |- context [WithIssues.labels ?x] =>
      replace (WithIssues.labels x) with (Ok cats : result pyval)
        by (etrans; [symmetry; exact Hc | reflexivity])
  end. cbn -[Dict.make]. eexists. split; reflexivity.
Qed.

End MalformedArticle.

(** X10.  One malformed article costs [fetch_news] of news_bot_clean.py the
    whole result.  Let an article of the reply have a non-empty string
    where the source dictionary is expected, and let the loop reach it: it
    is the first article, or fewer than [max_articles] articles precede
    it, each of which the loop gets through.  Reading the title of its
    source raises; the [except] clause then returns the empty list, and
    the articles already converted are lost, whatever follows in the
    reply.  The backup script tests the type of the source: when that
    article is the last of the reply, the articles before it can be
    converted and its categories can be read, [fetch_news_articles]
    returns all of them, the last one with the string as its source. *)
Theorem clean_fetch_drops_all
        (keyword s : str) (max_articles : Z) (before rest : list pyval)
        (d : dict) (w : World) :
  search_reply w (count_events is_search w)
  = Reply (PList (before ++ PDict d :: rest)) ->
  Forall clean_convertible before ->
  len before < Z.max 1 max_articles ->
  Dict.get d "source" = Some (PStr s) -> s <> [] ->
  (Clean.fetch_news (Some keyword) max_articles w).1 = Ok []
  /\ (forall (kept : list pyval) (cats : pyval),
        client_init w = Reply tt ->
        rest = [] ->
        Forall2 (fun x b => WithIssues.convert_article x = Ok b) before kept ->
        WithIssues.labels (Dict.get_or d "categories" (PList [])) = Ok cats ->
        exists a,
          (WithIssues.fetch_news_articles keyword max_articles w).1
          = Ok (kept ++ [a])
          /\ PyVal.get a "source" PNone = Ok (PStr s)).
Proof.
  intros Hreply Hbefore Hmax Hs Hne.
  assert (Hreach : forall n : Z,
             n = 0 -> before = [] \/ n + len before < max_articles).
  { intros n ->. destruct before; [by left | right].
    unfold len in *. cbn [length] in *. lia. }
  split.
  - destruct (clean_convert_string_source d s Hs Hne) as (e & He & Hexc).
    unfold Clean.fetch_news, try_except, search_request. monad_unfold.
    rewrite Hreply. cbn [answer PyVal.iter fst].
    rewrite (clean_collect_raises before rest (PDict d) e) by auto.
    by rewrite Hexc.
  - intros kept cats Hinit -> Hkept Hcats.
    destruct (withissues_convert_string_source d s cats Hs Hcats)
      as (a & Ha & Hsrc).
    exists a. split; [|exact Hsrc].
    unfold WithIssues.fetch_news_articles, try_except, search_request, make_clients.
    monad_unfold. rewrite Hinit, Hreply. cbn [answer PyVal.iter fst].
    by rewrite (withissues_collect_all before kept (PDict d) a) by auto.
Qed.

Lemma clean_fetch_drops_all_witness :
  let good := Scenario.an_article "First" "Body" in
  let bad := PDict [("title" : str, PStr "Second");
                    ("source" : str, PStr "Wire");
                    ("categories" : str,
                     PList [PDict [("label" : str, PStr "news")]])] in
  let w := Scenario.with_search (fun _ => Reply (PList [good; bad]))
             Scenario.quiet in
  (Clean.fetch_news (Some ("ai" : str)) 2 w).1 = Ok []
  /\ exists a1 a2,
      (WithIssues.fetch_news_articles "ai" 2 w).1 = Ok [a1; a2]
      /\ PyVal.get a2 "source" PNone = Ok (PStr "Wire").
Proof.
  intros good bad w.
  destruct (clean_fetch_drops_all "ai" "Wire" 2 [good] []
              [("title" : str, PStr "Second"); ("source" : str, PStr "Wire");
               ("categories" : str,
                PList [PDict [("label" : str, PStr "news")]])] w)
    as [Hclean Hbackup];
    [reflexivity
    | repeat constructor; eexists; reflexivity
    | reflexivity | reflexivity | discriminate |].
  split; [exact Hclean|].
  destruct (Hbackup match WithIssues.convert_article good with
                    | Ok b => [b]
                    | Raise _ => []
                    end
              (PList [PStr "news"]))
    as (a2 & Hfetch & Hsrc);
    [reflexivity | reflexivity | by repeat constructor | reflexivity |].
  eexists _, a2. split; [exact Hfetch | exact Hsrc].
Defined.

(* ===================================================================== *)
(** * What the generation functions return *)
(* ===================================================================== *)

Section CleanGenerate.

Lemma ordinary_clean_prompt (news_data : dict) (style : str) :
  ordinary (Clean.prompt news_data style).
Proof.
  unfold Clean.prompt. apply ordinary_bind; [apply ordinary_slice_to | done].
Qed.

Lemma or_else_empty (v : pyval) : PyVal.or_else (PStr []) v = v.
Proof. done. Qed.

End CleanGenerate.

(** X11.  [generate_article] of news_bot_clean.py never raises and leaves
    the files alone.  When the prompt can be built and the service answers,
    the record has the ten article keys and no ["error"] key, and its
    word count is that of the answer; in every other case the record has
    the keys error, original_title and original_source only --- no
    headline --- and the error text is the text of the exception. *)
Theorem clean_generate_article_record (news_data : dict) (style : str) (w : World) :
  exists d w',
    Clean.generate_article news_data style w = (Ok d, w')
    /\ files w' = files w
    /\ match Clean.prompt news_data style,
             generate_reply w (count_events is_generate w) with
       | Ok _, Reply content =>
           map fst d
           = ["headline" : str; "lead" : str; "body" : str; "conclusion" : str;
              "original_title" : str; "original_source" : str;
              "original_url" : str; "original_date" : str;
              "generated_at" : str; "word_count" : str]
           /\ Dict.get d "word_count" = Some (PInt (Py.count_words false content))
       | Ok _, Fails _ msg =>
           map fst d = ["error" : str; "original_title" : str;
                        "original_source" : str]
           /\ Dict.get d "error" = Some (PStr msg)
       | Raise e, _ =>
           map fst d = ["error" : str; "original_title" : str;
                        "original_source" : str]
           /\ Dict.get d "error" = Some (PStr (exn_str e))
       end.
Proof.
  unfold Clean.generate_article, try_except, generate_content. monad_unfold.
  pose proof (ordinary_clean_prompt news_data style) as Hp.
  destruct (Clean.prompt news_data style) as [p|e]; cbn in Hp.
  - destruct (generate_reply w _) as [content|kind msg]; cbn -[Dict.make];
      eexists _, _; (split; [reflexivity|]); done.
  - rewrite Hp. eexists _, _. split; [reflexivity|]. done.
Qed.

(** X12.  When the answer of the service carries none of the four markers,
    [generate_article] of news_bot_clean.py falls back field by field: the
    headline is the title of the source article (["Generated Article"]
    when it has none), the lead is the fixed text ["Article summary not
    available"], the body is the whole answer and the conclusion is
    empty. *)
Theorem clean_generate_unmarked
        (news_data : dict) (style p content : str) (w : World) :
  Clean.prompt news_data style = Ok p ->
  generate_reply w (count_events is_generate w) = Reply content ->
  Forall (fun m => Py.contains m content = false) Clean.markers ->
  exists d w',
    Clean.generate_article news_data style w = (Ok d, w')
    /\ Dict.get d "headline"
       = Some (Dict.get_or news_data "title" (PStr "Generated Article"))
    /\ Dict.get d "lead" = Some (PStr "Article summary not available")
    /\ Dict.get d "body" = Some (PStr content)
    /\ Dict.get d "conclusion" = Some (PStr "")
    /\ has_error d = false.
Proof.
  intros Hp Hreply Hnone.
  unfold Clean.generate_article, try_except, generate_content. monad_unfold.
  rewrite Hp, Hreply. cbn -[Clean.parse_response].
  eexists _, _. split; [reflexivity|].
  unfold Clean.parse_response.
  apply Forall_cons in Hnone as [H1 Hnone].
  apply Forall_cons in Hnone as [H2 Hnone].
  apply Forall_cons in Hnone as [H3 Hnone].
  apply Forall_cons in Hnone as [H4 _].
  rewrite !extract_section_absent by done.
  rewrite !or_else_empty. done.
Qed.

Lemma clean_generate_unmarked_witness :
  let w := Scenario.with_generate (fun _ => Reply ("Plain text." : str))
             Scenario.quiet in
  let news : dict := [("title" : str, PStr "T")] in
  exists d w',
    Clean.generate_article news "casual" w = (Ok d, w')
    /\ Dict.get d "headline" = Some (PStr "T")
    /\ Dict.get d "lead" = Some (PStr "Article summary not available")
    /\ Dict.get d "body" = Some (PStr "Plain text.")
    /\ Dict.get d "conclusion" = Some (PStr "")
    /\ has_error d = false.
Proof.
  intros w news.
  refine (clean_generate_unmarked news "casual" _ "Plain text." w _ _ _).
  - reflexivity.
  - reflexivity.
  - vm_compute. by repeat constructor.
Defined.

(** X13.  When the answer of the service is valid JSON but not an object
    --- a list, a number, a string, [null] --- adding the metadata fails
    and the [except] clause turns the failure into an error record: the
    article counts as failed although the service answered.  This holds of
    [generate_article] of news_bot_action.py and of
    [generate_article_with_gemini] of the backup script. *)
Theorem json_non_object_is_error
        (news_data : dict) (style p q text : str) (v : pyval) (w : World) :
  Action.prompt news_data style = Ok p ->
  WithIssues.prompt news_data = Ok q ->
  generate_reply w (count_events is_generate w) = Reply text ->
  json_loads w (Action.clean_json (Py.strip text)) = Some v ->
  (forall d, v <> PDict d) ->
  let message : str :=
    "'" ++ PyVal.type_name v ++ "' object has no attribute 'update'" in
  (exists w',
     Action.generate_article news_data style w
     = (Ok [("error" : str, PStr message)], w'))
  /\ (exists d w',
        WithIssues.generate_article_with_gemini news_data w = (Ok d, w')
        /\ Dict.get d "error" = Some (PStr message)
        /\ map fst d = ["error" : str; "headline" : str;
                        "original_source" : str]).
Proof.
  intros Hp Hq Hreply Hloads Hv message.
  assert (Hupdate : forall extra,
             Action.update v extra = Raise (AttributeError message)).
  { intros extra. destruct v; try done. by destruct (Hv d). }
  split.
  - unfold Action.generate_article, try_except, generate_content. monad_unfold.
    rewrite Hp, Hreply. cbn -[Action.parse_response Dict.make].
    unfold Action.parse_response. rewrite Hloads.
    cbn -[Action.update Dict.make]. rewrite Hupdate. cbn. eauto.
  - unfold WithIssues.generate_article_with_gemini, try_except, generate_content.
    monad_unfold.
    rewrite Hq, Hreply. cbn -[WithIssues.parse_response Dict.make].
    unfold WithIssues.parse_response. rewrite Hloads.
    cbn -[Action.update Dict.make]. rewrite Hupdate. cbn -[Dict.make].
    eexists _, _. split; [reflexivity|]. done.
Qed.

Lemma json_non_object_is_error_witness :
  let w := Scenario.with_generate (fun _ => Reply ("[1, 2]" : str))
             Scenario.quiet in
  let message : str := "'list' object has no attribute 'update'" in
  (exists w',
     Action.generate_article [] "professional" w
     = (Ok [("error" : str, PStr message)], w'))
  /\ (exists d w',
        WithIssues.generate_article_with_gemini [] w = (Ok d, w')
        /\ Dict.get d "error" = Some (PStr message)
        /\ map fst d = ["error" : str; "headline" : str;
                        "original_source" : str]).
Proof.
  intros w message.
  refine (json_non_object_is_error [] "professional" _ _ "[1, 2]"
            (PList [PInt 1; PInt 2]) w _ _ _ _ _).
  - reflexivity.
  - reflexivity.
  - reflexivity.
  - reflexivity.
  - done.
Defined.

(** X14.  When the answer of the service is not JSON at all,
    [generate_article] of news_bot_action.py builds the article from the
    text itself: the headline is the title of the source article, the body
    is the answer without its fences and surrounding whitespace, the lead
    is the first 300 characters of that followed by three dots, the
    conclusion is empty, the tags are the first five categories and the
    word count is that of the text.  The record has no ["error"] key. *)
Theorem action_generate_plain_text
        (news_data : dict) (style p text : str) (cats : list pyval) (w : World) :
  Action.prompt news_data style = Ok p ->
  generate_reply w (count_events is_generate w) = Reply text ->
  json_loads w (Action.clean_json (Py.strip text)) = None ->
  Dict.get_or news_data "categories" (PList []) = PList cats ->
  let article_text := Action.clean_json (Py.strip text) in
  exists d w',
    Action.generate_article news_data style w = (Ok d, w')
    /\ Dict.get d "headline"
       = Some (Dict.get_or news_data "title" (PStr "Generated Article"))
    /\ Dict.get d "lead" = Some (PStr (Py.slice_to article_text 300 ++ "..."))
    /\ Dict.get d "body" = Some (PStr article_text)
    /\ Dict.get d "conclusion" = Some (PStr "")
    /\ Dict.get d "tags" = Some (PList (Py.slice_to cats 5))
    /\ Dict.get d "word_count" = Some (PInt (Py.count_words false article_text))
    /\ has_error d = false.
Proof.
  intros Hp Hreply Hloads Hcats article_text.
  unfold Action.generate_article, try_except, generate_content. monad_unfold.
  rewrite Hp, Hreply. cbn -[Action.parse_response].
  unfold Action.parse_response.
  change (Action.clean_json (Py.strip text)) with article_text in Hloads |- *.
  rewrite Hloads. clearbody article_text.
  unfold Action.fallback. rewrite Hcats.
  cbn -[Dict.make Dict.update Action.metadata Py.slice_to].
  eexists _, _. split; [reflexivity|].
  pose proof (action_fields_kept news_data
                (Dict.make
                   [("headline" : str,
                     Dict.get_or news_data "title" (PStr "Generated Article"));
                    ("lead" : str, PStr (Py.slice_to article_text 300 ++ "..."));
                    ("body" : str, PStr article_text);
                    ("conclusion" : str, PStr "");
                    ("tags" : str, PList (Py.slice_to cats 5));
                    ("word_count" : str,
                     PInt (Py.count_words false article_text))])
                (strftime w "iso" (now w))) as Hkept.
  apply Forall_cons in Hkept as [H1 Hkept].
  apply Forall_cons in Hkept as [H2 Hkept].
  apply Forall_cons in Hkept as [H3 Hkept].
  apply Forall_cons in Hkept as [H4 Hkept].
  apply Forall_cons in Hkept as [H5 Hkept].
  apply Forall_cons in Hkept as [H6 _].
  split; [etrans; [exact H1 | reflexivity]|].
  split; [etrans; [exact H2 | reflexivity]|].
  split; [etrans; [exact H3 | reflexivity]|].
  split; [etrans; [exact H4 | reflexivity]|].
  split; [etrans; [exact H5 | reflexivity]|].
  split; [etrans; [exact H6 | reflexivity]|].
  unfold has_error, Dict.mem. apply bool_decide_eq_false.
  rewrite get_update_fresh; [by intros [? [=]]|].
  rewrite action_metadata_keys.
  repeat (apply not_elem_of_cons; split; [discriminate|]). apply not_elem_of_nil.
Qed.

Lemma action_generate_plain_text_witness :
  let w := Scenario.with_generate (fun _ => Reply ("  Plain text. " : str))
             Scenario.quiet in
  let news : dict := [("title" : str, PStr "T");
                      ("categories" : str, PList [PStr "tech"])] in
  exists d w',
    Action.generate_article news "casual" w = (Ok d, w')
    /\ Dict.get d "headline" = Some (PStr "T")
    /\ Dict.get d "lead" = Some (PStr "Plain text....")
    /\ Dict.get d "body" = Some (PStr "Plain text.")
    /\ Dict.get d "conclusion" = Some (PStr "")
    /\ Dict.get d "tags" = Some (PList [PStr "tech"])
    /\ Dict.get d "word_count" = Some (PInt 2)
    /\ has_error d = false.
Proof.
  intros w news.
  refine (action_generate_plain_text news "casual" _ "  Plain text. "
            [PStr "tech"] w _ _ _ _).
  - reflexivity.
  - reflexivity.
  - reflexivity.
  - reflexivity.
Defined.

(** X15.  On an article that [fetch_news] of src/news_bot.py returned,
    [generate_article] never raises: the keys it reads with [[...]] are
    there.  It makes exactly one generation request and touches no file.
    It returns [None] when the service fails or answers the empty text;
    otherwise the record holds the whole answer as content, the title
    [_extract_title] finds in it and the url of the source article. *)
Theorem newsbot_generate_on_fetched (a : pyval) (style : str) (w : World) :
  newsbot_article a ->
  exists r w' p,
    NewsBot.generate_article (as_dict a) style w = (Ok r, w')
    /\ files w' = files w
    /\ Spec.new_events w w' = [EvGenerate p]
    /\ match generate_reply w (count_events is_generate w) with
       | Reply text =>
           if decide (text = []) then r = None
           else exists d,
               r = Some d
               /\ Dict.get d "title" = Some (PStr (NewsBot._extract_title text))
               /\ Dict.get d "content" = Some (PStr text)
               /\ Dict.get d "original_url" = Dict.get (as_dict a) "url"
       | Fails _ _ => r = None
       end.
Proof.
  intros (title & body & url & source & date & authors & -> & _ & _).
  unfold NewsBot.generate_article, try_except, generate_content.
  cbn [as_dict]. monad_unfold.
  cbn -[NewsBot._extract_title Dict.make Py.join generate_reply count_events
        trace with_trace files].
  assert (Hev : forall w0 p,
             trace w0 = trace w ++ [EvGenerate p] ->
             Spec.new_events w w0 = [EvGenerate p]).
  { intros w0 p Ht. unfold Spec.new_events. by rewrite Ht, drop_app_length. }
  destruct (generate_reply w _) as [text|kind msg];
    cbn -[NewsBot._extract_title Dict.make Py.join].
  - destruct (decide (text = [])) as [->|Hne].
    + cbn -[Py.join]. eexists _, _, _. split; [reflexivity|].
      split; [done|]. split; [by apply Hev | done].
    + rewrite bool_decide_eq_false_2 by done. cbn -[NewsBot._extract_title Py.join].
      eexists _, _, _. split; [reflexivity|].
      split; [done|]. split; [by apply Hev|]. eexists. split; [reflexivity|].
      done.
  - eexists _, _, _. split; [reflexivity|].
    split; [done|]. split; [by apply Hev | done].
Qed.

Lemma newsbot_generate_on_fetched_witness :
  let a := PDict [("title" : str, PStr "T"); ("body" : str, PStr "B");
                  ("url" : str, PStr "u"); ("source" : str, PStr "Wire");
                  ("date" : str, PStr ""); ("authors" : str, PList [])] in
  let w := Scenario.quiet in
  exists r w' p,
    NewsBot.generate_article (as_dict a) "casual" w = (Ok r, w')
    /\ files w' = files w
    /\ Spec.new_events w w' = [EvGenerate p]
    /\ r = None.
Proof.
  intros a w.
  destruct (newsbot_generate_on_fetched a "casual" w) as (r & w' & p & H1 & H2 & H3 & H4).
  - eexists _, _, _, _, _, _. split; [reflexivity|]. split; [reflexivity|].
    vm_compute. discriminate.
  - exists r, w', p. by repeat split.
Defined.

(** X16.  [generate_simple_summary] of the backup script never raises and
    writes no file: it returns the answer of the service, or the fixed
    text ["Could not generate summary"] when the prompt cannot be built
    --- an article lacks a title, source or body --- or the service
    fails.  It makes at most one generation request. *)
Theorem generate_simple_summary_result (articles : list pyval) (w : World) :
  exists summary w',
    Backup.generate_simple_summary articles w = (Ok summary, w')
    /\ files w' = files w
    /\ (length (Spec.new_events w w') <= 1)%nat
    /\ match Backup.prompt articles,
             generate_reply w (count_events is_generate w) with
       | Ok _, Reply text => summary = text
       | _, _ => summary = "Could not generate summary"
       end.
Proof.
  unfold Backup.generate_simple_summary, try_except, generate_content.
  monad_unfold.
  assert (Hp : ordinary (Backup.prompt articles)).
  { unfold Backup.prompt. apply ordinary_bind; [|done].
    apply ordinary_mapM. intros art. unfold Backup.article_text.
    repeat (apply ordinary_bind; [apply ordinary_getitem|]; intros ?). done. }
  destruct (Backup.prompt articles) as [p|e]; cbn in Hp.
  - assert (Hev : forall w0 : World,
               trace w0 = trace w ++ [EvGenerate p] ->
               (length (Spec.new_events w w0) <= 1)%nat).
    { intros w0 Ht. unfold Spec.new_events. by rewrite Ht, drop_app_length. }
    destruct (generate_reply w _) as [text|kind msg]; cbn;
      eexists _, _; (split; [reflexivity|]); (split; [done|]);
      (split; [by apply Hev | done]).
  - rewrite Hp. eexists _, _. split; [reflexivity|]. split; [done|].
    split; [|done]. unfold Spec.new_events. rewrite drop_all. cbn. lia.
Qed.

(* ===================================================================== *)
(** * Saving an article and reading it back *)
(* ===================================================================== *)

(** X17.  Saving a successful article of news_bot_clean.py under a given
    name never raises.  When the file can be opened the name is returned,
    reading the file gives back the rendered document and no other file
    has changed; when it cannot, the empty string is returned and the
    disk is as before. *)
Theorem clean_save_then_read (article : dict) (filename : str) (w : World) :
  has_error article = false ->
  filename <> [] ->
  exists f w',
    Clean.save_article article (Some filename) w = (Ok f, w')
    /\ if can_open w filename
       then f = filename
            /\ read_file filename w' = (Ok (Clean.render article), w')
            /\ (forall g, g <> filename -> files w' !! g = files w !! g)
       else f = [] /\ files w' = files w.
Proof.
  intros Herr Hname. unfold Clean.save_article. rewrite Herr.
  assert (Htruthy : PyVal.truthy (from_option PStr PNone (Some filename)) = true).
  { cbn. by rewrite bool_decide_eq_false_2. }
  rewrite Htruthy. change (default [] (Some filename)) with filename.
  unfold try_except, write_file. monad_unfold.
  destruct (can_open w filename) eqn:Hopen.
  - eexists _, _. split; [reflexivity|]. split; [done|]. split.
    + unfold read_file. cbn [files with_files]. by rewrite lookup_insert_eq.
    + intros g Hg. cbn [files with_files]. by rewrite lookup_insert_ne.
  - cbn [is_Exception]. eexists _, _. split; [reflexivity|]. done.
Qed.

Lemma clean_save_then_read_witness :
  let article := Clean.parse_response [] Scenario.marked_text "t0" in
  let w := Scenario.quiet in
  exists f w',
    Clean.save_article article (Some ("a.md" : str)) w = (Ok f, w')
    /\ f = "a.md"
    /\ read_file "a.md" w' = (Ok (Clean.render article), w')
    /\ (forall g, g <> ("a.md" : str) -> files w' !! g = files w !! g).
Proof.
  intros article w.
  destruct (clean_save_then_read article "a.md" w) as (f & w' & H1 & H2).
  - vm_compute. reflexivity.
  - discriminate.
  - exists f, w'. split; [exact H1 | exact H2].
Defined.

(* ===================================================================== *)
(** * The heading of an article in the issue *)
(* ===================================================================== *)

Section EntryHeading.

Implicit Types (s t : str).

Lemma split_char_first (sep : ascii) (a b : str) :
  sep ∉ a -> Py.split_char sep (a ++ sep :: b) = a :: Py.split_char sep b.
Proof.
  induction a as [|c a IH]; intros Hsep.
  - cbn. by rewrite decide_True.
  - apply not_elem_of_cons in Hsep as [Hc Ha]. cbn [app Py.split_char].
    rewrite decide_False by done. by rewrite IH.
Qed.

(** A string without [#] has no occurrence of ["# "] to replace. *)
Lemma replace_heading_mark_absent t :
  "#"%char ∉ t -> Py.replace_go "# " "" 0 t = t.
Proof.
  induction t as [|c t IH]; intros H; [done|].
  apply not_elem_of_cons in H as [Hc Ht]. cbn [Py.replace_go].
  assert (Py.startswith (c :: t) "# " = false) as ->.
  { cbn. by rewrite decide_False. }
  by rewrite IH.
Qed.

Lemma replace_heading_mark t :
  "#"%char ∉ t -> Py.replace "# " "" ("# " ++ t) = t.
Proof.
  intros H. unfold Py.replace. cbn.
  rewrite !decide_True by done. rewrite startswith_nil.
  by apply replace_heading_mark_absent.
Qed.

Lemma first_heading_head t (rest : list str) (default : str) :
  WithIssues.first_heading (("# " ++ t) :: rest) default = "# " ++ t.
Proof.
  unfold WithIssues.first_heading. cbn [List.filter].
  by rewrite (startswith_app "# " t).
Qed.

(** The title line of a document that begins with a one-line heading. *)
Lemma heading_of_document t (rest default : str) :
  "010"%char ∉ t -> "#"%char ∉ t ->
  Py.strip (Py.replace "# " ""
              (WithIssues.first_heading
                 (Py.split_char "010" ("# " ++ t ++ NL ++ rest)) default))
  = Py.strip t.
Proof.
  intros Hline Hmark.
  change ("# " ++ t ++ NL ++ rest) with (("# " ++ t) ++ "010"%char :: rest).
  rewrite split_char_first.
  2:{ apply not_elem_of_cons. split; [done|].
      apply not_elem_of_cons. split; [done | exact Hline]. }
  rewrite first_heading_head. by rewrite replace_heading_mark.
Qed.

Lemma newsbot_render_heading (article : dict) (title : pyval) (doc : str) :
  PyVal.getitem (PDict article) "title" = Ok title ->
  NewsBot.render article = Ok doc ->
  exists rest, doc = "# " ++ PyVal.to_str title ++ NL ++ rest.
Proof.
  intros Ht. unfold NewsBot.render. rewrite Ht.
  intros (title' & [= <-] & H)%bind_Ok.
  apply bind_Ok in H as (generated_at & _ & H).
  apply bind_Ok in H as (style & _ & H).
  apply bind_Ok in H as (source & _ & H).
  apply bind_Ok in H as (url & _ & H).
  apply bind_Ok in H as (content & _ & [= <-]).
  cbn [Py.join]. rewrite <- !app_assoc. eauto.
Qed.

Lemma withissues_render_heading (article : dict) (doc : str) :
  WithIssues.render article = Ok doc ->
  exists rest,
    doc = "# " ++ WithIssues.field article "headline" "Generated Article"
          ++ NL ++ rest.
Proof.
  unfold WithIssues.render. intros (tags & _ & [= <-])%bind_Ok.
  cbn [Py.join]. rewrite <- !app_assoc. eauto.
Qed.

End EntryHeading.

(** X18.  The issue names a saved article by its own title.  When the
    title has no line break and no [#] --- as every title
    [_extract_title] returns --- the title that [create_github_issue]
    computes for the entry of the saved file, the first line beginning
    with [# ] without its mark and stripped, is that title stripped; the
    same holds in the backup script for a headline that is a string. *)
Theorem issue_entry_title (article : dict) (t doc : str) (i : Z) :
  ("010"%char ∉ t) -> ("#"%char ∉ t) ->
  (Dict.get article "title" = Some (PStr t) ->
   NewsBot.render article = Ok doc ->
   NewsBot.entry_title i doc = Py.strip t)
  /\ (Dict.get article "headline" = Some (PStr t) ->
      WithIssues.render article = Ok doc ->
      WithIssues.entry_title i doc = Py.strip t).
Proof.
  intros Hline Hmark. split.
  - intros Ht Hdoc.
    destruct (newsbot_render_heading article (PStr t) doc) as [rest ->];
      [by unfold PyVal.getitem; rewrite Ht | done |].
    unfold NewsBot.entry_title. cbn zeta. cbn [PyVal.to_str].
    by apply heading_of_document.
  - intros Ht Hdoc.
    destruct (withissues_render_heading article doc Hdoc) as [rest ->].
    unfold WithIssues.field, Dict.get_or. rewrite Ht.
    unfold WithIssues.entry_title. cbn zeta. cbn [PyVal.to_str].
    by apply heading_of_document.
Qed.

Lemma issue_entry_title_witness :
  let article : dict :=
    [("title" : str, PStr " Big News Today"); ("content" : str, PStr "Body");
     ("original_source" : str, PStr "Wire"); ("original_url" : str, PStr "u");
     ("generated_at" : str, PStr "t0"); ("style" : str, PStr "casual")] in
  let article' : dict := [("headline" : str, PStr " Big News Today")] in
  (exists doc,
     NewsBot.render article = Ok doc
     /\ NewsBot.entry_title 1 doc = "Big News Today")
  /\ (exists doc,
        WithIssues.render article' = Ok doc
        /\ WithIssues.entry_title 1 doc = "Big News Today").
Proof.
  intros article article'.
  assert (H1 : "010"%char ∉ (" Big News Today" : str)).
  { rewrite <- Forall_ne_not_elem. by repeat constructor. }
  assert (H2 : "#"%char ∉ (" Big News Today" : str)).
  { rewrite <- Forall_ne_not_elem. by repeat constructor. }
  split.
  - destruct (NewsBot.render article) as [doc|] eqn:Hdoc; [|by vm_compute in Hdoc].
    exists doc. split; [done|].
    exact (proj1 (issue_entry_title article " Big News Today" doc 1 H1 H2)
             eq_refl Hdoc).
  - destruct (WithIssues.render article') as [doc|] eqn:Hdoc;
      [|by vm_compute in Hdoc].
    exists doc. split; [done|].
    exact (proj2 (issue_entry_title article' " Big News Today" doc 1 H1 H2)
             eq_refl Hdoc).
Defined.

(** A title with a [#] followed by a blank inside loses both in the
    issue. *)
Example issue_entry_title_with_mark :
  let article : dict :=
    [("title" : str, PStr "C# tips"); ("content" : str, PStr "Body");
     ("original_source" : str, PStr "Wire"); ("original_url" : str, PStr "u");
     ("generated_at" : str, PStr "t0"); ("style" : str, PStr "casual")] in
  exists doc,
    NewsBot.render article = Ok doc
    /\ NewsBot.entry_title 1 doc = "Ctips".
Proof. eexists. split; [reflexivity|]. vm_compute. reflexivity. Qed.

(* ===================================================================== *)
(** * Creating the issue *)
(* ===================================================================== *)

Section CreateIssue.

(** The loops over the article files never raise and change nothing: they
    only extend the text. *)
Lemma newsbot_add_entry (body : str) (item : Z * str) (w : World) :
  exists mid, NewsBot.add_entry body item w = (Ok (body ++ mid), w).
Proof.
  destruct item as [i filename].
  unfold NewsBot.add_entry, try_except, read_file. monad_unfold.
  destruct (files w !! filename) as [content|]; cbn [is_Exception]; [eauto|].
  exists []. by rewrite app_nil_r.
Qed.

Lemma withissues_add_entry (body : str) (item : Z * str) (w : World) :
  exists mid, WithIssues.add_entry body item w = (Ok (body ++ mid), w).
Proof.
  destruct item as [i filename].
  unfold WithIssues.add_entry, try_except, read_file. monad_unfold.
  destruct (files w !! filename) as [content|]; cbn [is_Exception]; eauto.
Qed.

Lemma entries_extend (add : str -> Z * str -> M str)
      (items : list (Z * str)) (body : str) (w : World) :
  (forall body item, exists mid, add body item w = (Ok (body ++ mid), w)) ->
  exists mid, for_each items add body w = (Ok (body ++ mid), w).
Proof.
  intros Hadd. revert body. induction items as [|item items IH]; intros body.
  - exists []. by rewrite app_nil_r.
  - cbn [for_each]. unfold mbind, M_bind.
    destruct (Hadd body item) as [mid ->].
    destruct (IH (body ++ mid)) as [mid' ->].
    exists (mid ++ mid'). by rewrite app_assoc.
Qed.

Lemma newsbot_entries (items : list (Z * str)) (body : str) (w : World) :
  exists mid, for_each items NewsBot.add_entry body w = (Ok (body ++ mid), w).
Proof. apply entries_extend. intros. apply newsbot_add_entry. Qed.

Lemma withissues_entries (items : list (Z * str)) (body : str) (w : World) :
  exists mid, for_each items WithIssues.add_entry body w = (Ok (body ++ mid), w).
Proof. apply entries_extend. intros. apply withissues_add_entry. Qed.

Lemma falsy_env_set (v : str) : v <> [] -> falsy_env (Some v) = false.
Proof. intros H. unfold falsy_env. cbn. by rewrite bool_decide_eq_false_2. Qed.

End CreateIssue.

(** X19.  With the token and the repository id in the environment,
    [create_github_issue] of src/news_bot.py never raises and writes no
    file.  It posts exactly one request, to the issues address of the
    repository, with the two labels and a body that begins with the header
    and ends with the summary footer, whatever could be read of the
    article files.  It returns [True] exactly when the tracker answers
    with status 201 and a body that has the issue number. *)
Theorem newsbot_create_issue_outcome
        (articles : list str) (keyword run_number token repo : str) (w : World) :
  environ w !! ("GITHUB_TOKEN" : str) = Some token -> token <> [] ->
  environ w !! ("GITHUB_REPOSITORY" : str) = Some repo -> repo <> [] ->
  exists (b : bool) (w' : World) (data : dict) (mid : str),
    NewsBot.create_github_issue articles keyword run_number w = (Ok b, w')
    /\ files w' = files w
    /\ Spec.new_events w w'
       = [EvPost ("https://api.github.com/repos/" ++ repo ++ "/issues")
            (PDict data)]
    /\ Dict.get data "body"
       = Some (PStr (NewsBot.header (len articles) keyword run_number
                       (strftime w "%Y-%m-%d %H:%M:%S UTC" (now w))
                     ++ mid
                     ++ NewsBot.footer (len articles) keyword run_number))
    /\ Dict.get data "labels"
       = Some (PList [PStr "ai-news-bot"; PStr "automated"])
    /\ (b = true <->
        exists issue number,
          post_reply w (count_events is_post w) = Reply (201, issue)
          /\ PyVal.getitem issue "number" = Ok number).
Proof.
  intros Htoken Htoken' Hrepo Hrepo'.
  unfold NewsBot.create_github_issue. monad_unfold.
  rewrite Htoken, Hrepo, !falsy_env_set by done. cbn [orb].
  destruct (newsbot_entries (enumerate 1 articles)
              (NewsBot.header (len articles) keyword run_number
                 (strftime w "%Y-%m-%d %H:%M:%S UTC" (now w))) w) as [mid ->].
  unfold try_except, requests_post. cbn [default].
  assert (Hev : forall (w0 : World) e,
             trace w0 = trace w ++ [e] -> Spec.new_events w w0 = [e]).
  { intros w0 e Ht. unfold Spec.new_events. by rewrite Ht, drop_app_length. }
  destruct (post_reply w (count_events is_post w)) as [[status issue]|kind msg]
    eqn:Hpost; cbn [answer is_Exception].
  - destruct (Z.eqb_spec status 201) as [->|Hstatus].
    + destruct (PyVal.getitem issue "number") as [number|e] eqn:Hnumber.
      * eexists true, _, _, mid. split; [reflexivity|]. split; [done|].
        split; [by apply Hev|]. split; [rewrite (app_assoc (NewsBot.header _ _ _ _) mid); reflexivity|].
        split; [reflexivity|].
        split; [eauto | done].
      * pose proof (ordinary_getitem issue "number") as Ho.
        rewrite Hnumber in Ho. cbn in Ho. cbn [lift]. rewrite Ho.
        eexists false, _, _, mid. split; [reflexivity|]. split; [done|].
        split; [by apply Hev|]. split; [rewrite (app_assoc (NewsBot.header _ _ _ _) mid); reflexivity|].
        split; [reflexivity|].
        split; [done|]. intros (issue' & number & [= <-] & Hn). congruence.
    + eexists false, _, _, mid. split; [reflexivity|]. split; [done|].
      split; [by apply Hev|]. split; [rewrite (app_assoc (NewsBot.header _ _ _ _) mid); reflexivity|].
        split; [reflexivity|].
      split; [done|]. intros (issue' & number & [= ? ?] & Hn). congruence.
  - eexists false, _, _, mid. split; [reflexivity|]. split; [done|].
    split; [by apply Hev|]. split; [rewrite (app_assoc (NewsBot.header _ _ _ _) mid); reflexivity|].
        split; [reflexivity|].
    split; [done|]. by intros (issue' & number & [=] & Hn).
Qed.

Lemma newsbot_create_issue_outcome_witness :
  let w := Scenario.with_github
             (Reply (201, PDict [("number" : str, PInt 7)])) Scenario.quiet in
  exists (b : bool) (w' : World) (data : dict) (mid : str),
    NewsBot.create_github_issue ["a.md" : str] "ai" "7" w = (Ok b, w')
    /\ files w' = files w
    /\ Spec.new_events w w'
       = [EvPost "https://api.github.com/repos/owner/repo/issues" (PDict data)]
    /\ Dict.get data "body"
       = Some (PStr (NewsBot.header 1 "ai" "7" "t0" ++ mid
                     ++ NewsBot.footer 1 "ai" "7"))
    /\ Dict.get data "labels"
       = Some (PList [PStr "ai-news-bot"; PStr "automated"])
    /\ b = true.
Proof.
  intros w.
  destruct (newsbot_create_issue_outcome ["a.md" : str] "ai" "7" "token"
              "owner/repo" w)
    as (b & w' & data & mid & H1 & H2 & H3 & H4 & H5 & H6);
    [reflexivity | discriminate | reflexivity | discriminate |].
  exists b, w', data, mid. repeat (split; [assumption|]).
  apply H6. eexists _, _. split; reflexivity.
Defined.

(** X20.  [create_github_issue] of the backup script, with the token and
    the repository id in the environment, never raises, writes no file and
    posts exactly one request to the issues address of the repository.  It
    returns [True] exactly when the tracker answers with status 201 and a
    body that has both the issue number and its address: a 201 answer
    without ["html_url"] is reported as a failure. *)
Theorem withissues_create_issue_outcome
        (articles : list str) (keyword run_number token repo : str) (w : World) :
  environ w !! ("GITHUB_TOKEN" : str) = Some token -> token <> [] ->
  environ w !! ("GITHUB_REPOSITORY" : str) = Some repo -> repo <> [] ->
  exists (b : bool) (w' : World) (data : pyval),
    WithIssues.create_github_issue articles keyword run_number w = (Ok b, w')
    /\ files w' = files w
    /\ Spec.new_events w w'
       = [EvPost ("https://api.github.com/repos/" ++ repo ++ "/issues") data]
    /\ (b = true <->
        exists issue number url,
          post_reply w (count_events is_post w) = Reply (201, issue)
          /\ PyVal.getitem issue "number" = Ok number
          /\ PyVal.getitem issue "html_url" = Ok url).
Proof.
  intros Htoken Htoken' Hrepo Hrepo'.
  unfold WithIssues.create_github_issue. monad_unfold.
  rewrite Htoken, Hrepo, !falsy_env_set by done. cbn [orb].
  destruct (withissues_entries (enumerate 1 articles)
              (WithIssues.header (len articles) keyword run_number
                 (strftime w "%Y-%m-%d %H:%M:%S UTC" (now w))) w) as [mid ->].
  unfold try_except, requests_post. cbn [default].
  assert (Hev : forall (w0 : World) e,
             trace w0 = trace w ++ [e] -> Spec.new_events w w0 = [e]).
  { intros w0 e Ht. unfold Spec.new_events. by rewrite Ht, drop_app_length. }
  destruct (post_reply w (count_events is_post w)) as [[status issue]|kind msg]
    eqn:Hpost; cbn [answer is_Exception].
  - destruct (Z.eqb_spec status 201) as [->|Hstatus].
    + destruct (PyVal.getitem issue "number") as [number|e] eqn:Hnumber.
      * destruct (PyVal.getitem issue "html_url") as [url|e] eqn:Hurl.
        -- eexists true, _, _. split; [reflexivity|]. split; [done|].
           split; [by apply Hev|].
           split; [intros _; by eexists _, _, _ | done].
        -- pose proof (ordinary_getitem issue "html_url") as Ho.
           rewrite Hurl in Ho. cbn in Ho. cbn [lift]. rewrite Ho.
           eexists false, _, _. split; [reflexivity|]. split; [done|].
           split; [by apply Hev|]. split; [done|].
           intros (issue' & number' & url & [= <-] & _ & Hu). congruence.
      * pose proof (ordinary_getitem issue "number") as Ho.
        rewrite Hnumber in Ho. cbn in Ho. cbn [lift]. rewrite Ho.
        eexists false, _, _. split; [reflexivity|]. split; [done|].
        split; [by apply Hev|]. split; [done|].
        intros (issue' & number & url & [= <-] & Hn & _). congruence.
    + eexists false, _, _. split; [reflexivity|]. split; [done|].
      split; [by apply Hev|]. split; [done|].
      intros (issue' & number & url & [= ? ?] & _). congruence.
  - eexists false, _, _. split; [reflexivity|]. split; [done|].
    split; [by apply Hev|]. split; [done|].
    by intros (issue' & number & url & [=] & _).
Qed.

Lemma withissues_create_issue_outcome_witness :
  let w := Scenario.with_github
             (Reply (201, PDict [("number" : str, PInt 7)])) Scenario.quiet in
  exists (w' : World) (data : pyval),
    WithIssues.create_github_issue ["a.md" : str] "ai" "7" w = (Ok false, w')
    /\ files w' = files w
    /\ Spec.new_events w w'
       = [EvPost "https://api.github.com/repos/owner/repo/issues" data].
Proof.
  intros w.
  destruct (withissues_create_issue_outcome ["a.md" : str] "ai" "7" "token"
              "owner/repo" w)
    as (b & w' & data & H1 & H2 & H3 & H4);
    [reflexivity | discriminate | reflexivity | discriminate |].
  exists w', data. split; [|by split].
  destruct b; [|exact H1]. exfalso.
  destruct (proj1 H4 eq_refl) as (issue & number & url & Hp & _ & Hu).
  injection Hp as <-. discriminate Hu.
Defined.

(* ===================================================================== *)
(** * Runs: the requests, the pauses and the exit status *)
(* ===================================================================== *)

Section CleanClock.

Variables keyword style : str.

Lemma generations_app (ev1 ev2 : list event) :
  generations (ev1 ++ ev2) = (generations ev1 + generations ev2)%nat.
Proof. unfold generations. by rewrite filter_app, length_app. Qed.

Lemma searches_app (ev1 ev2 : list event) :
  searches (ev1 ++ ev2) = (searches ev1 + searches ev2)%nat.
Proof. unfold searches. by rewrite filter_app, length_app. Qed.

Lemma sleeps_app (ev1 ev2 : list event) :
  sleeps (ev1 ++ ev2) = sleeps ev1 ++ sleeps ev2.
Proof. apply omap_app. Qed.

Lemma at_most_one_generation_counts (ev : list event) :
  at_most_one_generation ev ->
  (generations ev <= 1)%nat /\ searches ev = 0%nat /\ sleeps ev = [].
Proof. intros [->|[p ->]]; cbn; repeat split; done || lia. Qed.

(** One turn of the loop of [run]: it never raises, makes at most one
    generation request and no search, and ends with the pause of two
    seconds, its only one. *)
Lemma clean_process_clock (st : Clean.progress) (x : Z * pyval) (w : World) :
  exists st' w' ev,
    Clean.process keyword style st x w = (Ok st', w')
    /\ reaches w w' ev
    /\ (generations ev <= 1)%nat /\ searches ev = 0%nat
    /\ sleeps ev = [2].
Proof.
  destruct x as [i news]. unfold Clean.process.
  destruct (clean_generate_article_returns style (as_dict news) w)
    as (d & w1 & ev1 & Hrun & Hreach1 & Hone & _ & Hnow1).
  apply at_most_one_generation_counts in Hone as (Hg & Hs & Hp).
  unfold mbind at 1. unfold M_bind. rewrite Hrun.
  assert (Hend : forall saved w2,
             reaches w1 w2 [] ->
             exists st' w' ev,
               (_ ← sleep 2;
                mret (Clean.mkProgress (Clean.generated_articles st ++ [d]) saved)) w2
               = (Ok st', w')
               /\ reaches w w' ev
               /\ (generations ev <= 1)%nat /\ searches ev = 0%nat
               /\ sleeps ev = [2]).
  { intros saved w2 Hreach2.
    eexists _, _, (ev1 ++ [] ++ [EvSleep 2]). split; [reflexivity|].
    split.
    { eapply reaches_trans; [exact Hreach1|].
      eapply reaches_trans; [exact Hreach2|]. apply reaches_sleep. }
    rewrite generations_app, searches_app, sleeps_app, Hp.
    change (generations ([] ++ [EvSleep 2])) with 0%nat.
    change (searches ([] ++ [EvSleep 2])) with 0%nat.
    split; [lia|]. split; [lia|]. reflexivity. }
  destruct (has_error d) eqn:Hd; cbn [negb].
  - unfold mbind at 1. unfold M_bind, mret at 1, M_ret.
    apply Hend. apply reaches_refl.
  - unfold mbind at 1. unfold M_bind.
    unfold mbind at 1. unfold M_bind, now_strftime, ask.
    match goal with
    | |- context [Clean.save_article d (Some ?name)] =>
        destruct (clean_save_article_returns d name w1 Hd)
          as (f & w2 & Hsave & Hreach2 & Hnow2 & _); [cbn; discriminate|]
    end.
    unfold mbind at 1. unfold M_bind. rewrite Hsave.
    unfold mret at 1. unfold M_ret. by apply Hend.
Qed.

Lemma clean_process_run_requests (w0 : World) (seen : list (Z * pyval))
      (x : Z * pyval) (st : Clean.progress) (w : World) :
  run_requests w0 seen st w ->
  exists st' w',
    Clean.process keyword style st x w = (Ok st', w')
    /\ run_requests w0 (seen ++ [x]) st' w'.
Proof.
  intros (ev & Hreach & Hp & Hg & Hs).
  destruct (clean_process_clock st x w)
    as (st' & w' & ev' & Hrun & Hreach' & Hg' & Hs' & Hp').
  exists st', w'. split; [done|].
  exists (ev ++ ev'). split; [by eapply reaches_trans|].
  rewrite generations_app, searches_app, sleeps_app, length_app, Hp, Hp'.
  change (length [x]) with 1%nat.
  split; [by rewrite replicate_add | lia].
Qed.

End CleanClock.

(** Every run of [run]: what it returns, its requests and its pauses. *)
Lemma clean_run_outcome (keyword style : str) (max_articles : Z) (w : World) :
  exists (news : list pyval) (w1 : World) (report : dict) (w' : World)
         (ev : list event),
    Clean.fetch_news (Some keyword) max_articles w = (Ok news, w1)
    /\ Clean.run keyword style max_articles w = (Ok report, w')
    /\ Spec.new_events w w' = ev
    /\ sleeps ev = replicate (length news) 2
    /\ searches ev = 1%nat
    /\ (generations ev <= length news)%nat
    /\ has_error report = bool_decide (news = []).
Proof.
  destruct (clean_fetch_returns (Some keyword) max_articles w)
    as (news & w1 & Hfetch).
  assert (Hw1 : w1 = with_trace (trace w ++ [EvSearch (Clean.query (Some keyword))]) w).
  { pose proof (clean_fetch_world max_articles (Some keyword) w) as H.
    by rewrite Hfetch in H. }
  assert (Hr1 : reaches w w1 [EvSearch (Clean.query (Some keyword))]).
  { rewrite Hw1. apply reaches_emit. }
  exists news, w1. unfold Clean.run, Clean.run_state.
  unfold mbind at 1. unfold M_bind.
  unfold mbind at 1. unfold M_bind. rewrite Hfetch.
  destruct news as [|a news].
  { cbn [PyVal.truthy negb]. monad_unfold. eexists _, _, _.
    split; [done|]. split; [reflexivity|].
    split; [by apply new_events_reaches|]. by repeat split. }
  cbn [PyVal.truthy negb].
  destruct (for_each_invariant (run_requests w1)
              (Clean.process keyword style) (enumerate 1 (a :: news))
              (clean_process_run_requests keyword style w1) []
              (Clean.mkProgress [] []) w1)
    as (st & w2 & Hloop & ev & Hreach & Hp & Hg & Hs).
  { exists []. split; [apply reaches_refl | done]. }
  cbn [app] in Hp, Hg.
  assert (Hlen : length (enumerate 1 (a :: news)) = length (a :: news)).
  { unfold enumerate. by rewrite length_imap. }
  rewrite Hlen in Hp, Hg.
  unfold mbind at 1. unfold M_bind. rewrite Hloop.
  destruct (clean_report_fields keyword (Clean.generated_articles st) w2)
    as (report & Hreport & _ & _ & _ & Hnoerr).
  unfold mbind at 1. unfold M_bind. rewrite Hreport.
  unfold try_except, write_file. monad_unfold.
  match goal with
  | |- context [can_open w2 ?path] => destruct (can_open w2 path)
  end; cbn [is_Exception].
  - eexists report, _, ([EvSearch (Clean.query (Some keyword))] ++ ev ++ []).
    split; [done|]. split; [reflexivity|].
    split.
    { apply new_events_reaches.
      eapply reaches_trans; [exact Hr1|].
      eapply reaches_trans; [exact Hreach|]. apply reaches_files. }
    rewrite app_nil_r, searches_app, generations_app, sleeps_app.
    change (searches [EvSearch (Clean.query (Some keyword))]) with 1%nat.
    change (generations [EvSearch (Clean.query (Some keyword))]) with 0%nat.
    change (sleeps [EvSearch (Clean.query (Some keyword))]) with (@nil Z).
    split; [exact Hp|]. split; [lia|]. split; [lia | done].
  - eexists report, _, ([EvSearch (Clean.query (Some keyword))] ++ ev).
    split; [done|]. split; [reflexivity|].
    split.
    { apply new_events_reaches. by eapply reaches_trans. }
    rewrite searches_app, generations_app, sleeps_app.
    change (searches [EvSearch (Clean.query (Some keyword))]) with 1%nat.
    change (generations [EvSearch (Clean.query (Some keyword))]) with 0%nat.
    change (sleeps [EvSearch (Clean.query (Some keyword))]) with (@nil Z).
    split; [exact Hp|]. split; [lia|]. split; [lia | done].
Qed.

(** X21.  [run] of news_bot_clean.py never raises.  It makes exactly one
    search request and at most one generation request for each article
    fetched, and it pauses once after each article, whether the generation
    succeeded or not: the calls of [time.sleep] of a run over [n] articles
    are [n] calls of two seconds each.  The report it returns carries the
    ["error"] key exactly when no article was fetched. *)
Theorem clean_run_requests_and_pauses
        (keyword style : str) (max_articles : Z) (w : World) :
  exists (news : list pyval) (w1 : World) (report : dict) (w' : World)
         (ev : list event),
    Clean.fetch_news (Some keyword) max_articles w = (Ok news, w1)
    /\ Clean.run keyword style max_articles w = (Ok report, w')
    /\ Spec.new_events w w' = ev
    /\ sleeps ev = replicate (length news) 2
    /\ searches ev = 1%nat
    /\ (generations ev <= length news)%nat
    /\ has_error report = bool_decide (news = []).
Proof. apply clean_run_outcome. Qed.

(** X22.  With both API keys set and a well-formed [MAX_ARTICLES], [main]
    of news_bot_clean.py ends in one of two ways: it returns normally
    (exit status 0) when the clients could be constructed and the search
    gave at least one article --- whether or not any article was then
    generated or saved --- and it exits with status 1 otherwise. *)
Theorem clean_main_exit_status (w : World) (n : Z) :
  falsy_env (environ w !! ("EVENTREGISTRY_API_KEY" : str)) = false ->
  falsy_env (environ w !! ("GOOGLE_API_KEY" : str)) = false ->
  PyVal.int_of_str (default ("3" : str) (environ w !! ("MAX_ARTICLES" : str)))
  = Ok n ->
  let keyword :=
    default ("artificial intelligence" : str)
      (environ w !! ("INPUT_KEYWORD" : str)) in
  exists news w1,
    Clean.fetch_news (Some keyword) n w = (Ok news, w1)
    /\ (Clean.main w).1
       = match client_init w, news with
         | Reply _, _ :: _ => Ok tt
         | _, _ => Raise (SystemExit 1)
         end.
Proof.
  intros Her Hgoogle Hmax keyword.
  destruct (clean_run_outcome keyword
              (default ("professional" : str) (environ w !! ("INPUT_STYLE" : str)))
              n w)
    as (news & w1 & report & w' & ev & Hfetch & Hrun & _ & _ & _ & _ & Herr).
  exists news, w1. split; [done|].
  unfold Clean.main. monad_unfold. cbv beta.
  rewrite Her, Hgoogle. cbn [orb]. cbv beta. rewrite Hmax.
  unfold try_except, make_clients.
  destruct (client_init w) as [[]|kind msg]; cbn [answer]; [|done].
  fold keyword. rewrite Hrun, Herr.
  by destruct news.
Qed.

Lemma clean_main_exit_status_witness :
  let w := Scenario.with_keys Scenario.two_articles in
  exists news w1,
    Clean.fetch_news (Some ("artificial intelligence" : str)) 3 w = (Ok news, w1)
    /\ (Clean.main w).1 = Ok tt.
Proof.
  intros w.
  destruct (clean_main_exit_status w 3) as (news & w1 & Hfetch & Hmain);
    [reflexivity | reflexivity | by vm_compute |].
  exists news, w1. split; [exact Hfetch|].
  rewrite Hmain. clear Hmain.
  change (default ("artificial intelligence" : str)
            (environ w !! ("INPUT_KEYWORD" : str)))
    with ("artificial intelligence" : str) in Hfetch.
  assert (Hlen : (Clean.fetch_news (Some ("artificial intelligence" : str)) 3 w).1
                 = Ok news) by by rewrite Hfetch.
  vm_compute in Hlen. injection Hlen as <-. reflexivity.
Defined.

(** X23.  A non-numeric [MAX_ARTICLES] stops news_bot_clean.py before it
    does anything: the conversion is made outside the [try], so [main]
    ends with the [ValueError] itself --- not with the exit the script
    uses for its own failures --- and no request was made. *)
Theorem clean_main_bad_max_articles (w : World) (e : exn) :
  falsy_env (environ w !! ("EVENTREGISTRY_API_KEY" : str)) = false ->
  falsy_env (environ w !! ("GOOGLE_API_KEY" : str)) = false ->
  PyVal.int_of_str (default ("3" : str) (environ w !! ("MAX_ARTICLES" : str)))
  = Raise e ->
  Clean.main w = (Raise e, w) /\ exists what, e = ValueError what.
Proof.
  intros Her Hgoogle Hmax. split.
  - unfold Clean.main. monad_unfold. cbv beta.
    rewrite Her, Hgoogle. cbn [orb]. cbv beta. by rewrite Hmax.
  - revert Hmax. unfold PyVal.int_of_str.
    destruct (Py.strip _) as [|c body].
    + destruct (PyVal.digits_value 0 false []); [done|]. intros [= <-]. eauto.
    + destruct c as [[] [] [] [] [] [] [] []]; cbv zeta beta iota;
        match goal with
        | |- context [PyVal.digits_value 0 false ?b] =>
            destruct (PyVal.digits_value 0 false b)
        end; first [done | intros [= <-]; eauto].
Qed.

Lemma clean_main_bad_max_articles_witness :
  let w := mkWorld ∅ (<[("MAX_ARTICLES" : str) := ("many" : str)]>
                        (environ (Scenario.with_keys Scenario.quiet)))
             0 [] (Reply tt) true (search_reply Scenario.quiet)
             (generate_reply Scenario.quiet) (post_reply Scenario.quiet)
             (can_open Scenario.quiet) (strftime Scenario.quiet)
             (json_loads Scenario.quiet) (json_dumps Scenario.quiet) in
  exists e, Clean.main w = (Raise e, w) /\ exists what, e = ValueError what.
Proof.
  intros w. eexists.
  apply (clean_main_bad_max_articles w); reflexivity.
Defined.

(** X24.  Without one of the two API keys (unset or empty) the three bots
    stop before any work begins: [main] of news_bot_clean.py, of
    news_bot_action.py and of src/news_bot.py exits with status 1 and the
    world is untouched --- no request, no file.  The backup script with
    issues runs its demo instead, also without a request, and exits with
    status 0. *)
Theorem scripts_without_credentials (w : World) :
  falsy_env (environ w !! ("EVENTREGISTRY_API_KEY" : str)) = true
  \/ falsy_env (environ w !! ("GOOGLE_API_KEY" : str)) = true ->
  Clean.main w = (Raise (SystemExit 1), w)
  /\ Action.main w = (Raise (SystemExit 1), w)
  /\ (forall a, NewsBot.main a w = (Raise (SystemExit 1), w))
  /\ (forall a, WithIssuesMain.script (Some a) true w = (Raise (SystemExit 0), w)).
Proof.
  intros H.
  assert (H1 : falsy_env (environ w !! ("EVENTREGISTRY_API_KEY" : str))
               || falsy_env (environ w !! ("GOOGLE_API_KEY" : str)) = true).
  { apply orb_true_iff. exact H. }
  assert (H2 : falsy_env (environ w !! ("GOOGLE_API_KEY" : str))
               || falsy_env (environ w !! ("EVENTREGISTRY_API_KEY" : str)) = true).
  { rewrite orb_comm. exact H1. }
  split; [|split; [|split]].
  - unfold Clean.main. monad_unfold. cbv beta. by rewrite H1.
  - unfold Action.main. monad_unfold. cbv beta. by rewrite H1.
  - intros a. unfold NewsBot.main. monad_unfold. cbv beta. by rewrite H1.
  - intros a. unfold WithIssuesMain.script, WithIssuesMain.main,
      WithIssuesMain.parse_args, sys_exit.
    monad_unfold. cbv beta. cbn [negb]. by rewrite H2.
Qed.

Lemma scripts_without_credentials_witness :
  let w := Scenario.quiet in
  Clean.main w = (Raise (SystemExit 1), w)
  /\ Action.main w = (Raise (SystemExit 1), w)
  /\ (forall a, NewsBot.main a w = (Raise (SystemExit 1), w))
  /\ (forall a, WithIssuesMain.script (Some a) true w = (Raise (SystemExit 0), w)).
Proof.
  intros w. apply (scripts_without_credentials w). left. reflexivity.
Defined.

(** X25.  The script clean_functional_news_bot_backup.py never fetches or
    generates anything: in every world it ends without a request and
    without a file written.  Its exit status is 1 exactly in demo mode ---
    the packages import and a key is missing --- and 0 otherwise: after an
    import failure, and with both keys set, where [main] falls off its
    end. *)
Theorem backup_script_exit_status (imports_ok : bool) (w : World) :
  let demo :=
    imports_ok
    && (falsy_env (environ w !! ("GOOGLE_API_KEY" : str))
        || falsy_env (environ w !! ("EVENTREGISTRY_API_KEY" : str))) in
  Backup.script imports_ok w
  = (Raise (SystemExit (if demo then 1 else 0)), w).
Proof.
  unfold Backup.script, Backup.main, sys_exit. monad_unfold. cbv beta.
  destruct imports_ok; cbn [negb andb]; [|done].
  by destruct (_ || _).
Qed.

Section ActionFiles.

Lemma keeps_files_sleep (n : Z) : keeps_files (sleep n).
Proof. done. Qed.

Lemma keeps_files_search (query : pyval) : keeps_files (search_request query).
Proof. done. Qed.

Lemma action_generate_keeps_files (news_data : dict) (style : str) :
  keeps_files (Action.generate_article news_data style).
Proof.
  unfold Action.generate_article.
  apply keeps_files_bind; [apply keeps_files_lift|]. intros p.
  apply keeps_files_try; [|intros; apply keeps_files_mret].
  apply keeps_files_bind; [apply keeps_files_generate_content|]. intros text.
  apply keeps_files_bind; [apply keeps_files_ask|]. intros loads.
  apply keeps_files_bind; [apply keeps_files_ask|]. intros generated_at.
  apply keeps_files_lift.
Qed.

Lemma action_fetch_keeps_files (keyword category : option str)
      (language : str) (max_articles : Z) :
  keeps_files (Action.fetch_latest_news keyword category language max_articles).
Proof.
  unfold Action.fetch_latest_news.
  apply keeps_files_try; [|intros; apply keeps_files_mret].
  apply keeps_files_bind; [apply keeps_files_search|]. intros reply.
  apply keeps_files_bind; [apply keeps_files_lift|]. intros items.
  apply keeps_files_lift.
Qed.

(** One turn of either loop of [main]: nothing is written, and when the
    turn ends normally nothing was appended either, since the save of a
    generated article raises. *)
Lemma action_process_fixed (prefix style : str) (keep : bool)
      (st : Action.progress) (x : Z * pyval) (w : World) :
  match Action.process prefix style keep st x w with
  | (Ok st', w') => st' = st /\ files w' = files w
  | (Raise _, w') => files w' = files w
  end.
Proof.
  destruct x as [i news]. unfold Action.process.
  unfold mbind at 1. unfold M_bind.
  pose proof (action_generate_keeps_files (as_dict news) style w) as Hgen.
  destruct (Action.generate_article (as_dict news) style w) as [[article|e] w1];
    cbn [snd] in Hgen; [|done].
  destruct (has_error article) eqn:Herr; cbn [negb].
  - by monad_unfold.
  - unfold mbind at 1. unfold M_bind.
    unfold mbind at 1. unfold M_bind, now_strftime, ask.
    match goal with
    | |- context [Action.save_article_to_markdown article ?name] =>
        destruct (action_save_raises article name w1 Herr) as [e He]
    end.
    unfold mbind at 1. unfold M_bind. by rewrite He.
Qed.

Lemma action_loop_fixed (prefix style : str) (keep : bool)
      (xs : list (Z * pyval)) (st : Action.progress) (w : World) :
  match for_each xs (Action.process prefix style keep) st w with
  | (Ok st', w') => st' = st /\ files w' = files w
  | (Raise _, w') => files w' = files w
  end.
Proof.
  revert w. induction xs as [|x xs IH]; intros w; [done|].
  cbn [for_each]. unfold mbind, M_bind.
  pose proof (action_process_fixed prefix style keep st x w) as Hstep.
  destruct (Action.process prefix style keep st x w) as [[st1|e] w1]; [|done].
  destruct Hstep as [-> Hfiles]. specialize (IH w1).
  destruct (for_each xs _ st w1) as [[st2|e] w2];
    [destruct IH as [-> IH]; split; [done|] |]; congruence.
Qed.

End ActionFiles.

(** X26.  news_bot_action.py never writes a file.  Saving a generated
    article raises before the file is opened, so a run either ends
    normally with every generation failed --- and then there is no
    category article and the summary is not written --- or is ended by the
    exception of the first save; in both cases the files are as before. *)
Theorem action_main_never_writes (w : World) :
  files (Action.main w).2 = files w.
Proof.
  unfold Action.main.
  unfold mbind at 1. unfold M_bind, getenv at 1, ask.
  unfold mbind at 1. unfold M_bind, getenv at 1, ask.
  destruct (_ || _); [done|].
  do 6 (unfold mbind at 1; unfold M_bind, getenv_or at 1, ask).
  unfold mbind at 1. unfold M_bind, try_except at 1, make_clients.
  destruct (client_init w) as [[]|kind msg]; cbn [answer is_Exception]; [|done].
  set (keyword := default (default ("artificial intelligence" : str) _) _).
  set (style := default (default ("professional" : str) _) _).
  set (category := default (default ("technology" : str) _) _).
  unfold mbind at 1. unfold M_bind.
  assert (Hfirst :
    match (if PyVal.truthy (PStr keyword)
           then
             news_articles ← Action.fetch_latest_news (Some keyword) None "eng" 2;
             for_each (enumerate 0 news_articles)
               (Action.process ("keyword_" ++ Py.replace_char " " "_" keyword)
                  style false)
               (Action.mkProgress [] [])
           else mret (Action.mkProgress [] [])) w with
    | (Ok st, w') => st = Action.mkProgress [] [] /\ files w' = files w
    | (Raise _, w') => files w' = files w
    end).
  { destruct (PyVal.truthy (PStr keyword)); [|done].
    unfold mbind, M_bind.
    pose proof (action_fetch_keeps_files (Some keyword) None "eng" 2 w) as Hf.
    destruct (Action.fetch_latest_news (Some keyword) None "eng" 2 w)
      as [[news|e] w1]; cbn [snd] in Hf; [|done].
    pose proof (action_loop_fixed ("keyword_" ++ Py.replace_char " " "_" keyword)
                  style false (enumerate 0 news) (Action.mkProgress [] []) w1)
      as Hloop.
    destruct (for_each _ _ _ w1) as [[st|e] w2];
      [destruct Hloop as [-> Hloop]; split; [done|] |]; congruence. }
  match goal with
  | H : match ?m w with _ => _ end |- context [?m' w] =>
      change (m' w) with (m w); destruct (m w) as [[st|e] w1]
  end; [|done].
  destruct Hfirst as [-> Hfiles1].
  unfold mbind at 1. unfold M_bind.
  pose proof (action_fetch_keeps_files None (Some category) "eng" 3 w1) as Hf.
  destruct (Action.fetch_latest_news None (Some category) "eng" 3 w1)
    as [[news|e] w2]; cbn [snd] in Hf |- *; [|congruence].
  unfold mbind at 1. unfold M_bind.
  pose proof (action_loop_fixed ("category_" ++ category) style true
                (enumerate 0 news) (Action.mkProgress [] []) w2) as Hloop.
  destruct (for_each _ _ _ w2) as [[st|e] w3]; cbn [snd]; [|congruence].
  destruct Hloop as [-> Hloop]. cbn. congruence.
Qed.

Section WithIssuesRun.

Lemma withissues_fetch_keeps_files (keyword : str) (max_articles : Z) :
  keeps_files (WithIssues.fetch_news_articles keyword max_articles).
Proof.
  unfold WithIssues.fetch_news_articles.
  apply keeps_files_try; [|intros; apply keeps_files_mret].
  apply keeps_files_bind; [done|]. intros _.
  apply keeps_files_bind; [apply keeps_files_search|]. intros reply.
  apply keeps_files_bind; [apply keeps_files_lift|]. intros items.
  apply keeps_files_lift.
Qed.

Lemma withissues_generate_keeps_files (news_data : dict) :
  keeps_files (WithIssues.generate_article_with_gemini news_data).
Proof.
  unfold WithIssues.generate_article_with_gemini.
  apply keeps_files_try; [|intros; apply keeps_files_mret].
  apply keeps_files_bind; [apply keeps_files_lift|]. intros p.
  apply keeps_files_bind; [apply keeps_files_generate_content|]. intros text.
  apply keeps_files_bind; [apply keeps_files_ask|]. intros loads.
  apply keeps_files_bind; [apply keeps_files_ask|]. intros generated_at.
  apply keeps_files_lift.
Qed.

Lemma withissues_issue_keeps_files (articles : list str) (keyword run_number : str) :
  keeps_files (WithIssues.create_github_issue articles keyword run_number).
Proof.
  unfold WithIssues.create_github_issue.
  apply keeps_files_bind; [apply keeps_files_ask|]. intros token.
  apply keeps_files_bind; [apply keeps_files_ask|]. intros repo.
  destruct (_ || _); [apply keeps_files_mret|].
  apply keeps_files_bind; [apply keeps_files_ask|]. intros date.
  apply keeps_files_bind.
  { apply keeps_files_for_each. intros body [i filename].
    apply keeps_files_try; [|intros; apply keeps_files_mret].
    apply keeps_files_bind; [apply keeps_files_read|]. intros ?.
    apply keeps_files_mret. }
  intros issue_body.
  apply keeps_files_try; [|intros; apply keeps_files_mret].
  apply keeps_files_bind; [apply keeps_files_post|]. intros [status issue_data].
  destruct (status =? 201); [|apply keeps_files_mret].
  apply keeps_files_bind; [apply keeps_files_lift|]. intros ?.
  apply keeps_files_bind; [apply keeps_files_lift|]. intros ?.
  apply keeps_files_mret.
Qed.

(** A save that returns a name has written the rendered article under it;
    one that returns the empty string has written nothing. *)
Lemma withissues_save_outcome (article : dict) (f : str) (w w' : World) :
  WithIssues.save_article_to_file article None w = (Ok f, w') ->
  (f = [] /\ files w' = files w)
  \/ (exists doc,
        WithIssues.render article = Ok doc
        /\ has_error article = false
        /\ files w' = <[f := doc]> (files w)).
Proof.
  unfold WithIssues.save_article_to_file.
  destruct (has_error article) eqn:Herr.
  { intros [= <- <-]. by left. }
  cbn [from_option PyVal.truthy]. monad_unfold.
  destruct (safe_title_of _) as [safe|e]; [|done].
  destruct (WithIssues.render article) as [doc|e]; [|done].
  unfold try_except, write_file.
  match goal with |- context [can_open w ?name] => destruct (can_open w name) end.
  - intros [= <- <-]. right. by exists doc.
  - cbn [is_Exception]. intros [= <- <-]. by left.
Qed.

Lemma rendered_articles_same (names : list str) (w w' : World) :
  files w' = files w -> rendered_articles names w -> rendered_articles names w'.
Proof.
  intros Hf H. eapply Forall_impl; [exact H|]. intros f. cbn. by rewrite Hf.
Qed.

Lemma rendered_articles_insert (names : list str) (w w' : World)
      (f doc : str) (article : dict) :
  WithIssues.render article = Ok doc ->
  has_error article = false ->
  files w' = <[f := doc]> (files w) ->
  rendered_articles names w ->
  rendered_articles (names ++ [f]) w'.
Proof.
  intros Hdoc Herr Hfiles H. apply Forall_app. split.
  - eapply Forall_impl; [exact H|]. intros g (a & d & Hg & Hd & He).
    rewrite Hfiles. destruct (decide (f = g)) as [->|Hne].
    + exists article, doc. by rewrite lookup_insert_eq.
    + exists a, d. by rewrite lookup_insert_ne.
  - constructor; [|done]. exists article, doc.
    by rewrite Hfiles, lookup_insert_eq.
Qed.

Lemma withissues_process_rendered (names names' : list str)
      (x : Z * pyval) (w w' : World) :
  rendered_articles names w ->
  WithIssuesMain.process names x w = (Ok names', w') ->
  rendered_articles names' w'.
Proof.
  intros Hinv. destruct x as [i article]. unfold WithIssuesMain.process.
  unfold mbind at 1. unfold M_bind.
  pose proof (withissues_generate_keeps_files (as_dict article) w) as Hgen.
  destruct (WithIssues.generate_article_with_gemini (as_dict article) w)
    as [[generated|e] w1]; cbn [snd] in Hgen; [|done].
  apply (rendered_articles_same _ _ w1) in Hinv; [|done].
  destruct (has_error generated); cbn [negb].
  2:{ unfold mbind, M_bind.
      destruct (WithIssues.save_article_to_file generated None w1)
        as [[f|e] w2] eqn:Hsave; [|done].
      apply withissues_save_outcome in Hsave as [[-> Hf]|(doc & Hdoc & Herr & Hf)].
      - intros [= <- <-]. cbn. by eapply rendered_articles_same.
      - pose proof (rendered_articles_insert names w1 w2 f doc generated
                      Hdoc Herr Hf Hinv) as Hall.
        destruct (PyVal.truthy (PStr f)); intros [= <- <-]; [done|].
        by apply Forall_app in Hall as [Hall _]. }
  by intros [= <- <-].
Qed.

Lemma withissues_loop_rendered (xs : list (Z * pyval)) (names names' : list str)
      (w w' : World) :
  rendered_articles names w ->
  for_each xs WithIssuesMain.process names w = (Ok names', w') ->
  rendered_articles names' w'.
Proof.
  revert names w. induction xs as [|x xs IH]; intros names w Hinv.
  - by intros [= <- <-].
  - cbn [for_each]. unfold mbind, M_bind.
    destruct (WithIssuesMain.process names x w) as [[names1|e] w1] eqn:Hstep;
      [|done].
    apply IH. by eapply withissues_process_rendered.
Qed.

Lemma parse_args_world (cli : option WithIssuesMain.args) (w : World) :
  (WithIssuesMain.parse_args cli w).2 = w.
Proof.
  destruct cli; [done|]. unfold WithIssuesMain.parse_args. monad_unfold.
  by destruct (PyVal.int_of_str _).
Qed.

End WithIssuesRun.

(** X27.  When [main] of the backup script with issues returns [True]
    outside its demo mode --- the script then exits with status 0 --- at
    least one article was generated and saved: a file on the disk holds a
    rendered article that is not a failed generation. *)
Theorem withissues_main_true
        (cli : option WithIssuesMain.args) (imports_ok : bool) (w w' : World) :
  falsy_env (environ w !! ("GOOGLE_API_KEY" : str)) = false ->
  falsy_env (environ w !! ("EVENTREGISTRY_API_KEY" : str)) = false ->
  WithIssuesMain.main cli imports_ok w = (Ok true, w') ->
  WithIssuesMain.script cli imports_ok w = (Raise (SystemExit 0), w')
  /\ exists path article doc,
      files w' !! path = Some doc
      /\ WithIssues.render article = Ok doc
      /\ has_error article = false.
Proof.
  intros Hgoogle Hevent Hmain. split.
  { unfold WithIssuesMain.script, mbind, M_bind. by rewrite Hmain. }
  revert Hmain. unfold WithIssuesMain.main.
  unfold mbind at 1. unfold M_bind.
  pose proof (parse_args_world cli w) as Hw0.
  destruct (WithIssuesMain.parse_args cli w) as [[a|e] w0]; cbn [snd] in Hw0;
    [|done].
  subst w0. destruct imports_ok; cbn [negb]; [|done].
  monad_unfold. cbv beta. rewrite Hgoogle, Hevent. cbn [orb].
  pose proof (withissues_fetch_keeps_files (WithIssuesMain.keyword a)
                (WithIssuesMain.max_articles a) w) as Hfetch.
  destruct (WithIssues.fetch_news_articles _ _ w) as [[articles|e] w1];
    cbn [snd] in Hfetch; [|done].
  destruct (negb (PyVal.truthy (PList articles))); [done|].
  destruct (for_each (enumerate 1 articles) WithIssuesMain.process [] w1)
    as [[names|e] w2] eqn:Hloop; [|done].
  pose proof (withissues_loop_rendered _ [] names w1 w2 (Forall_nil_2 _) Hloop)
    as Hsaved.
  destruct names as [|f names]; [done|]. cbn [negb PyVal.truthy map].
  match goal with
  | |- context [WithIssues.create_github_issue ?fs ?k ?r w2] =>
      pose proof (withissues_issue_keeps_files fs k r w2) as Hkeep;
      destruct (WithIssues.create_github_issue fs k r w2) as [[b|e] w3]
  end; cbn [snd] in Hkeep; [|done].
  intros [= <-].
  apply Forall_cons in Hsaved as [(article & doc & Hf & Hdoc & Herr) _].
  exists f, article, doc. by rewrite Hkeep.
Qed.

Lemma withissues_main_true_witness :
  let w := Scenario.with_keys Scenario.one_article in
  let cli := Some (WithIssuesMain.mkArgs "ai" 3 "professional") in
  let r := WithIssuesMain.main cli true w in
  WithIssuesMain.script cli true w = (Raise (SystemExit 0), r.2)
  /\ exists path article doc,
      files r.2 !! path = Some doc
      /\ WithIssues.render article = Ok doc
      /\ has_error article = false.
Proof.
  intros w cli r.
  apply (withissues_main_true cli true w r.2); [reflexivity | reflexivity |].
  apply pair_of_fst. vm_compute. reflexivity.
Defined.

(** The run of src/news_bot.py in which two articles are found and
    generated ends normally, with an article file on the disk. *)
Lemma newsbot_main_success_saved_witness :
  let w := Scenario.two_generated_newsbot in
  exists path,
    is_Some (files (NewsBot.main Scenario.default_args w).2 !! path)
    /\ Py.startswith path "article_" = true.
Proof.
  intros w. apply (newsbot_main_success_saved Scenario.default_args w).
  vm_compute. reflexivity.
Defined.
